(** * test-jwt-token.py: issuing a signed development token

    A shallow embedding of the script: the module-level statements that
    bind [TENANT_ID], [USER_ID], [payload], [SECRET_KEY] and [token],
    the [print] statements that end it, and the library routines they
    run: [uuid.uuid4], [str] of a UUID, [datetime.utcnow],
    [datetime + timedelta] and [str] of a datetime with the calendar
    routines behind them, [jwt.encode] for HS256, [json.dumps] with and
    without [indent] and [default], base64url, HMAC and SHA-256. *)

From Stdlib Require Import ZArith List String Ascii Bool Lia.
From Stdlib Require Decimal DecimalString DecimalZ DecimalFacts DecimalPos.
From Stdlib.Strings Require Import Byte.
Import ListNotations.

Local Open Scope string_scope.
Local Open Scope list_scope.
Local Open Scope Z_scope.

(** The double quote character. *)
Abbreviation dquote := ("034"%char) (only parsing).

(* ================================================================== *)
(** * The Python runtime the script relies on *)
(* ================================================================== *)

Module Py.

(** Exceptions that the modelled routines can raise.  The script has no
    [try], so a raised exception ends the run. *)
Inductive exn : Set :=
| ValueError      (* datetime: year out of range *)
| OverflowError   (* datetime + timedelta: date value out of range *)
| TypeError       (* jwt.encode / json.dumps: value of the wrong type *)
| UnicodeDecodeError
| NotImplementedError.  (* os.urandom: no source of randomness *)

(** What a run observes of its environment: whether [os.urandom] finds
    a source of randomness, the bytes it hands out, and the successive
    readings of the system clock, given in microseconds since
    1970-01-01T00:00:00 UTC, with a cursor on each. *)
Record World : Type := mkWorld {
  urandom_found : bool;
  urandom_source : nat -> byte;
  urandom_used : nat;
  system_clock : nat -> Z;
  clock_reads : nat
}.

Inductive outcome (A : Type) : Type :=
| Returns (a : A) (w : World)
| Raises (e : exn).
Arguments Returns {A} a w.
Arguments Raises {A} e.

(** Computations that read the environment and may raise. *)
Definition M (A : Type) : Type := World -> outcome A.

Definition ret {A} (a : A) : M A := fun w => Returns a w.

Definition bind {A B} (c : M A) (k : A -> M B) : M B :=
  fun w => match c w with
           | Returns a w' => k a w'
           | Raises e => Raises e
           end.

Definition raise {A} (e : exn) : M A := fun _ => Raises e.

(** The value a run ends with, if it ends normally. *)
Definition returned {A} (o : outcome A) : option A :=
  match o with Returns a _ => Some a | Raises _ => None end.

(** The exception a run ends with, if any. *)
Definition raised {A} (o : outcome A) : option exn :=
  match o with Returns _ _ => None | Raises e => Some e end.

(** Errors of pure library routines. *)
Definition result (A : Type) : Type := (exn + A)%type.

Definition lift {A} (r : result A) : M A :=
  match r with inl e => raise e | inr a => ret a end.

(** [os.urandom(n)]: the next [n] bytes of the source; when no source of
    randomness is found it raises [NotImplementedError]. *)
Definition os_urandom (n : nat) : M (list byte) :=
  fun w => if urandom_found w
           then Returns (map (urandom_source w) (seq (urandom_used w) n))
                        (mkWorld (urandom_found w)
                                 (urandom_source w) (urandom_used w + n)
                                 (system_clock w) (clock_reads w))
           else Raises NotImplementedError.

(** [time.time()] at microsecond resolution: the next clock reading. *)
Definition read_clock : M Z :=
  fun w => Returns (system_clock w (clock_reads w))
                   (mkWorld (urandom_found w)
                            (urandom_source w) (urandom_used w)
                            (system_clock w) (S (clock_reads w))).

End Py.

Import Py.

Notation "x <- c ;; k" := (Py.bind c (fun x => k))
  (at level 61, c at next level, right associativity).

(** Bytes as numbers. *)
Definition Z_of_byte (b : byte) : Z := Z.of_N (Byte.to_N b).

Definition byte_of_Z (z : Z) : byte :=
  match Byte.of_N (Z.to_N (z mod 256)) with
  | Some b => b
  | None => x00
  end.

(** [int.from_bytes(bs)], big endian. *)
Definition int_from_bytes (bs : list byte) : Z :=
  fold_left (fun acc b => acc * 256 + Z_of_byte b) bs 0.

(** The line feed, and [c * n] for a character [c]. *)
Definition nl : string := String "010" "".

Fixpoint replicate (n : nat) (c : ascii) : string :=
  match n with
  | O => ""
  | S n' => String c (replicate n' c)
  end.

(** ['%0*d' % (width, z)], which is also ['{:0{width}d}'.format(z)]: the
    decimal digits of [z] with zeros added on the left up to [width]
    characters, the minus sign of a negative number counted among them. *)
Definition format_0d (width : nat) (z : Z) : string :=
  let digits := DecimalString.NilZero.string_of_int (Z.to_int (Z.abs z)) in
  if z <? 0
  then String "-" (replicate (width - 1 - String.length digits) "0" ++ digits)
  else (replicate (width - String.length digits) "0" ++ digits)%string.

(** [L[i]] for an index within the list. *)
Definition item (L : list Z) (i : Z) : Z := nth (Z.to_nat i) L 0.

(* ------------------------------------------------------------------ *)
(** ** uuid *)

Module uuid.

(** A [UUID] object holds a 128-bit integer. *)
Record UUID : Set := mkUUID { int : Z }.

(** [UUID(bytes=bs, version=v)] for a 16-byte [bs]: the integer read
    big endian, then the RFC 4122 variant and the version written over
    it. *)
Definition UUID_of_bytes (bs : list byte) (version : Z) : UUID :=
  let i := int_from_bytes bs in
  let i := Z.land i (Z.lnot (Z.shiftl 0xc000 48)) in
  let i := Z.lor i (Z.shiftl 0x8000 48) in
  let i := Z.land i (Z.lnot (Z.shiftl 0xf000 64)) in
  let i := Z.lor i (Z.shiftl version 76) in
  mkUUID i.

(** [uuid.uuid4()] *)
Definition uuid4 : M UUID :=
  bs <- os_urandom 16 ;;
  ret (UUID_of_bytes bs 4).

Definition hexdigits : string := "0123456789abcdef".

Definition hex_digit (d : Z) : ascii :=
  match String.get (Z.to_nat d) hexdigits with
  | Some c => c
  | None => "0"%char
  end.

(** The [w] low hexadecimal digits of [n], most significant first. *)
Fixpoint hex_fixed (w : nat) (n : Z) : string :=
  match w with
  | O => ""
  | S w' => String (hex_digit (Z.land (Z.shiftr n (4 * Z.of_nat w')) 15))
                   (hex_fixed w' n)
  end.

(** ['%032x' % n].  A UUID's integer lies in [0, 2^128), where the
    format yields exactly 32 digits. *)
Definition format_032x (n : Z) : string := hex_fixed 32 n.

(** [str(u)]: [UUID.__str__]. *)
Definition str (u : UUID) : string :=
  let hex := format_032x (int u) in
  (substring 0 8 hex ++ "-" ++ substring 8 4 hex ++ "-" ++
   substring 12 4 hex ++ "-" ++ substring 16 4 hex ++ "-" ++
   substring 20 (String.length hex - 20) hex)%string.

End uuid.

(* ------------------------------------------------------------------ *)
(** ** datetime *)

Module datetime.

(** A naive [datetime], by its distance from 1970-01-01T00:00:00 in
    microseconds. *)
Definition t : Set := Z.

(** [datetime.min] is 0001-01-01T00:00:00 and [datetime.max] is
    9999-12-31T23:59:59.999999. *)
Definition min : t := -62135596800000000.
Definition max : t := 253402300799999999.

Definition representable (d : Z) : bool := (min <=? d) && (d <=? max).

(** [timedelta(hours=h)], in microseconds. *)
Definition timedelta (hours : Z) : Z := hours * 3600 * 1000000.

(** [datetime.utcnow()]: the clock reading as a datetime.  Every reading
    of the system clock is one; a reading outside years 1 to 9999, which
    only a replaced clock can give, makes no datetime and ends the run,
    here with [ValueError]. *)
Definition utcnow : M t :=
  now <- read_clock ;;
  if representable now then ret now else raise ValueError.

(** [d + td]: raises [OverflowError] when the sum leaves the range. *)
Definition add (d : t) (td : Z) : M t :=
  if representable (d + td) then ret (d + td) else raise OverflowError.

(** [calendar.timegm(d.utctimetuple())]: whole seconds since the epoch;
    the time tuple has no microsecond field. *)
Definition timegm (d : t) : Z := d / 1000000.

(** *** The calendar of [datetime.py]

    The class keeps a [datetime] by its fields.  The routines below are
    those by which it passes between a date and its ordinal, the number
    of the day counted from 0001-01-01, which is day 1. *)

Definition MAXORDINAL : Z := 3652059.

Definition DAYS_IN_MONTH : list Z :=
  [-1; 31; 28; 31; 30; 31; 30; 31; 31; 30; 31; 30; 31].

(** The loop that fills [_DAYS_BEFORE_MONTH] when the module is loaded. *)
Definition DAYS_BEFORE_MONTH : list Z :=
  fst (fold_left (fun st dim => (fst st ++ [snd st], snd st + dim))
                 (tl DAYS_IN_MONTH) ([-1], 0)).

Definition is_leap (year : Z) : bool :=
  (year mod 4 =? 0) && (negb (year mod 100 =? 0) || (year mod 400 =? 0)).

Definition days_before_year (year : Z) : Z :=
  let y := year - 1 in
  y * 365 + y / 4 - y / 100 + y / 400.

Definition days_in_month (year month : Z) : Z :=
  if (month =? 2) && is_leap year then 29 else item DAYS_IN_MONTH month.

Definition days_before_month (year month : Z) : Z :=
  item DAYS_BEFORE_MONTH month + Z.b2z ((2 <? month) && is_leap year).

Definition ymd2ord (year month day : Z) : Z :=
  days_before_year year + days_before_month year month + day.

Definition DI400Y : Z := days_before_year 401.
Definition DI100Y : Z := days_before_year 101.
Definition DI4Y : Z := days_before_year 5.

Definition ord2ymd (n : Z) : Z * Z * Z :=
  let n := n - 1 in
  let n400 := n / DI400Y in
  let n := n mod DI400Y in
  let year := n400 * 400 + 1 in
  let n100 := n / DI100Y in
  let n := n mod DI100Y in
  let n4 := n / DI4Y in
  let n := n mod DI4Y in
  let n1 := n / 365 in
  let n := n mod 365 in
  let year := year + (n100 * 100 + n4 * 4 + n1) in
  if (n1 =? 4) || (n100 =? 4) then (year - 1, 12, 31)
  else
    let leapyear := (n1 =? 3) && (negb (n4 =? 24) || (n100 =? 3)) in
    let month := Z.shiftr (n + 50) 5 in
    let preceding :=
      item DAYS_BEFORE_MONTH month + Z.b2z ((2 <? month) && leapyear) in
    if n <? preceding then
      let month := month - 1 in
      let preceding :=
        preceding
        - (item DAYS_IN_MONTH month + Z.b2z ((month =? 2) && leapyear)) in
      (year, month, n - preceding + 1)
    else (year, month, n - preceding + 1).

(** *** A [datetime] by its fields *)

Record obj : Set := mkObj {
  year : Z;
  month : Z;
  day : Z;
  hour : Z;
  minute : Z;
  second : Z;
  microsecond : Z
}.

(** [o.toordinal()], and the ordinal of 1970-01-01. *)
Definition toordinal (o : obj) : Z := ymd2ord (year o) (month o) (day o).

Definition EPOCH_ORD : Z := ymd2ord 1970 1 1.

(** The place of [o] on the timeline:
    [(o - datetime(1970, 1, 1)) // timedelta(microseconds=1)]. *)
Definition timeline (o : obj) : t :=
  ((toordinal o - EPOCH_ORD) * 86400
   + (hour o * 3600 + minute o * 60 + second o)) * 1000000
  + microsecond o.

(** The object for a place on the timeline, as [utcfromtimestamp]
    builds it from the broken-down time of [gmtime]; the date is found
    here by [ord2ymd], as [date.fromordinal] finds it. *)
Definition fields (d : t) : obj :=
  let days := d / 86400000000 in
  let us_of_day := d mod 86400000000 in
  let seconds := us_of_day / 1000000 in
  let '(y, m, dd) := ord2ymd (days + EPOCH_ORD) in
  mkObj y m dd (seconds / 3600) (seconds mod 3600 / 60) (seconds mod 60)
        (us_of_day mod 1000000).

(** [o + td] on objects ([datetime.__add__]): the date and the time of
    day go into one [timedelta], [td] is added, and the days of the sum
    are turned back into a date. *)
Definition add_obj (o : obj) (td : Z) : M obj :=
  let delta :=
    ((toordinal o * 86400
      + (hour o * 3600 + minute o * 60 + second o)) * 1000000
     + microsecond o) + td in
  let delta_days := delta / 86400000000 in
  let delta_seconds := delta mod 86400000000 / 1000000 in
  let delta_microseconds := delta mod 1000000 in
  let hour := delta_seconds / 3600 in
  let rem := delta_seconds mod 3600 in
  let minute := rem / 60 in
  let second := rem mod 60 in
  if (0 <? delta_days) && (delta_days <=? MAXORDINAL) then
    let '(y, m, dd) := ord2ymd delta_days in
    ret (mkObj y m dd hour minute second delta_microseconds)
  else raise OverflowError.

(** [calendar.timegm(o.utctimetuple())] on objects. *)
Definition timegm_obj (o : obj) : Z :=
  let days := ymd2ord (year o) (month o) 1 - EPOCH_ORD + day o - 1 in
  let hours := days * 24 + hour o in
  let minutes := hours * 60 + minute o in
  minutes * 60 + second o.

(** [_format_time(hh, mm, ss, us)] with [timespec='auto']: the
    microseconds are left out when there are none. *)
Definition format_time (hh mm ss us : Z) : string :=
  (format_0d 2 hh ++ ":" ++ format_0d 2 mm ++ ":" ++ format_0d 2 ss
   ++ (if (us =? 0)%Z then "" else "." ++ format_0d 6 us))%string.

(** [o.isoformat(sep)] for a naive datetime. *)
Definition isoformat (o : obj) (sep : ascii) : string :=
  (format_0d 4 (year o) ++ "-" ++ format_0d 2 (month o) ++ "-"
   ++ format_0d 2 (day o)
   ++ String sep (format_time (hour o) (minute o) (second o)
                              (microsecond o)))%string.

(** [str(d)]: [datetime.__str__]. *)
Definition str (d : t) : string := isoformat (fields d) " ".

End datetime.

(* ------------------------------------------------------------------ *)
(** ** Values and dicts *)

(** The Python values that occur in the claims mapping. *)
Inductive value : Set :=
| Str (s : string)
| Int (z : Z)
| Datetime (d : datetime.t).

(** A [dict] with [str] keys, in insertion order. *)
Definition dict : Set := list (string * value).

(** [d.get(k)] *)
Fixpoint dict_get (d : dict) (k : string) : option value :=
  match d with
  | [] => None
  | (k', v) :: d' => if String.eqb k' k then Some v else dict_get d' k
  end.

(** [d[k] = v]: an existing key keeps its position. *)
Fixpoint dict_set (d : dict) (k : string) (v : value) : dict :=
  match d with
  | [] => [(k, v)]
  | (k', v') :: d' =>
      if String.eqb k' k then (k', v) :: d' else (k', v') :: dict_set d' k v
  end.

(** [list(d)]: the keys. *)
Definition dict_keys (d : dict) : list string := map fst d.

(* ------------------------------------------------------------------ *)
(** ** str and bytes *)

(** Python [str] values are represented by Rocq strings, a character
    standing for the code point of the same number (U+0000 to U+00FF);
    every string the script handles is ASCII. *)

Definition ord (c : ascii) : Z := Z.of_N (N_of_ascii c).
Definition chr (z : Z) : ascii := ascii_of_N (Z.to_N z).

(** [s.encode("utf-8")] *)
Definition utf8_char (c : ascii) : list byte :=
  let n := ord c in
  if n <? 128 then [byte_of_Z n]
  else [byte_of_Z (Z.lor 0xC0 (Z.shiftr n 6));
        byte_of_Z (Z.lor 0x80 (Z.land n 0x3F))].

Fixpoint str_encode (s : string) : list byte :=
  match s with
  | EmptyString => []
  | String c s' => utf8_char c ++ str_encode s'
  end.

(** [bs.decode("utf-8")], for the byte sequences that encode code points
    below U+0100; anything else is outside the represented [str] values
    and yields [None] here. *)
Fixpoint bytes_decode (bs : list byte) : option string :=
  match bs with
  | [] => Some EmptyString
  | b :: bs' =>
      let n := Z_of_byte b in
      if n <? 128 then option_map (String (chr n)) (bytes_decode bs')
      else match bs' with
           | b2 :: bs'' =>
               let m := Z_of_byte b2 in
               if ((n =? 0xC2) || (n =? 0xC3)) && (0x80 <=? m) && (m <=? 0xBF)
               then option_map
                      (String (chr (Z.lor (Z.shiftl (Z.land n 0x1F) 6)
                                          (Z.land m 0x3F))))
                      (bytes_decode bs'')
               else None
           | [] => None
           end
  end.

(** [sep.join(parts)] on bytes. *)
Fixpoint bytes_join (sep : list byte) (parts : list (list byte)) : list byte :=
  match parts with
  | [] => []
  | [p] => p
  | p :: ps => p ++ sep ++ bytes_join sep ps
  end.

(** [key.ljust(n, fill)] *)
Definition ljust (bs : list byte) (n : nat) (fill : byte) : list byte :=
  bs ++ repeat fill (n - List.length bs).

(* ------------------------------------------------------------------ *)
(** ** hashlib.sha256 (FIPS 180-4) *)

Module sha256.

Definition mask32 : Z := 0xFFFFFFFF.

(** Addition of 32-bit words wraps around. *)
Definition add32 (x y : Z) : Z := (x + y) mod 2 ^ 32.

Definition rotr (n x : Z) : Z :=
  Z.lor (Z.shiftr x n) (Z.land (Z.shiftl x (32 - n)) mask32).

Definition shr (n x : Z) : Z := Z.shiftr x n.

Definition not32 (x : Z) : Z := Z.lxor x mask32.

Definition Ch (x y z : Z) : Z := Z.lxor (Z.land x y) (Z.land (not32 x) z).

Definition Maj (x y z : Z) : Z :=
  Z.lxor (Z.lxor (Z.land x y) (Z.land x z)) (Z.land y z).

Definition Sigma0 (x : Z) : Z := Z.lxor (Z.lxor (rotr 2 x) (rotr 13 x)) (rotr 22 x).
Definition Sigma1 (x : Z) : Z := Z.lxor (Z.lxor (rotr 6 x) (rotr 11 x)) (rotr 25 x).
Definition sigma0 (x : Z) : Z := Z.lxor (Z.lxor (rotr 7 x) (rotr 18 x)) (shr 3 x).
Definition sigma1 (x : Z) : Z := Z.lxor (Z.lxor (rotr 17 x) (rotr 19 x)) (shr 10 x).

Definition K : list Z :=
  [0x428A2F98; 0x71374491; 0xB5C0FBCF; 0xE9B5DBA5;
   0x3956C25B; 0x59F111F1; 0x923F82A4; 0xAB1C5ED5;
   0xD807AA98; 0x12835B01; 0x243185BE; 0x550C7DC3;
   0x72BE5D74; 0x80DEB1FE; 0x9BDC06A7; 0xC19BF174;
   0xE49B69C1; 0xEFBE4786; 0x0FC19DC6; 0x240CA1CC;
   0x2DE92C6F; 0x4A7484AA; 0x5CB0A9DC; 0x76F988DA;
   0x983E5152; 0xA831C66D; 0xB00327C8; 0xBF597FC7;
   0xC6E00BF3; 0xD5A79147; 0x06CA6351; 0x14292967;
   0x27B70A85; 0x2E1B2138; 0x4D2C6DFC; 0x53380D13;
   0x650A7354; 0x766A0ABB; 0x81C2C92E; 0x92722C85;
   0xA2BFE8A1; 0xA81A664B; 0xC24B8B70; 0xC76C51A3;
   0xD192E819; 0xD6990624; 0xF40E3585; 0x106AA070;
   0x19A4C116; 0x1E376C08; 0x2748774C; 0x34B0BCB5;
   0x391C0CB3; 0x4ED8AA4A; 0x5B9CCA4F; 0x682E6FF3;
   0x748F82EE; 0x78A5636F; 0x84C87814; 0x8CC70208;
   0x90BEFFFA; 0xA4506CEB; 0xBEF9A3F7; 0xC67178F2].

(** The eight chaining words. *)
Record regs : Set := mkRegs { ra : Z; rb : Z; rc : Z; rd : Z;
                              re : Z; rf : Z; rg : Z; rh : Z }.

Definition H0 : regs :=
  mkRegs 0x6a09e667 0xbb67ae85 0x3c6ef372 0xa54ff53a
         0x510e527f 0x9b05688c 0x1f83d9ab 0x5be0cd19.

(** Padding: a 1 bit, zero bits up to 56 mod 64 bytes, then the bit
    length on 8 bytes. *)
Definition be_bytes (n : nat) (z : Z) : list byte :=
  map (fun i => byte_of_Z (Z.shiftr z (8 * Z.of_nat i))) (rev (seq 0 n)).

Definition pad (msg : list byte) : list byte :=
  let len := Z.of_nat (List.length msg) in
  msg ++ [x80] ++ repeat x00 (Z.to_nat ((55 - len) mod 64))
      ++ be_bytes 8 (8 * len).

(** Big-endian 32-bit words of a byte string. *)
Fixpoint words (bs : list byte) : list Z :=
  match bs with
  | a :: b :: c :: d :: bs' => int_from_bytes [a; b; c; d] :: words bs'
  | _ => []
  end.

(** Message schedule; [W] holds the words computed so far, latest
    first. *)
Fixpoint schedule (n : nat) (W : list Z) : list Z :=
  match n with
  | O => W
  | S n' =>
      let w := add32 (add32 (sigma1 (nth 1 W 0)) (nth 6 W 0))
                     (add32 (sigma0 (nth 14 W 0)) (nth 15 W 0)) in
      schedule n' (w :: W)
  end.

Definition round (s : regs) (kw : Z * Z) : regs :=
  let (k, w) := kw in
  let T1 := add32 (add32 (add32 (add32 (rh s) (Sigma1 (re s)))
                                (Ch (re s) (rf s) (rg s))) k) w in
  let T2 := add32 (Sigma0 (ra s)) (Maj (ra s) (rb s) (rc s)) in
  mkRegs (add32 T1 T2) (ra s) (rb s) (rc s)
         (add32 (rd s) T1) (re s) (rf s) (rg s).

Definition compress (h : regs) (block : list Z) : regs :=
  let W := rev (schedule 48 (rev block)) in
  let s := fold_left round (combine K W) h in
  mkRegs (add32 (ra h) (ra s)) (add32 (rb h) (rb s))
         (add32 (rc h) (rc s)) (add32 (rd h) (rd s))
         (add32 (re h) (re s)) (add32 (rf h) (rf s))
         (add32 (rg h) (rg s)) (add32 (rh h) (rh s)).

(** One compression per 16-word block. *)
Fixpoint blocks (n : nat) (ws : list Z) (h : regs) : regs :=
  match n with
  | O => h
  | S n' => blocks n' (skipn 16 ws) (compress h (firstn 16 ws))
  end.

(** [hashlib.sha256(msg).digest()] *)
Definition digest (msg : list byte) : list byte :=
  let ws := words (pad msg) in
  let h := blocks (List.length ws / 16) ws H0 in
  flat_map (be_bytes 4)
           [ra h; rb h; rc h; rd h; re h; rf h; rg h; rh h].

End sha256.

(* ------------------------------------------------------------------ *)
(** ** hmac *)

Module hmac.

Definition blocksize : nat := 64.

Definition xor_byte (k : Z) (b : byte) : byte :=
  byte_of_Z (Z.lxor (Z_of_byte b) k).

(** [hmac.new(key, msg, hashlib.sha256).digest()] (RFC 2104): a key
    longer than a block is hashed first, a shorter one is filled with
    zero bytes on the right. *)
Definition key_block (key : list byte) : list byte :=
  let key := if (blocksize <? List.length key)%nat then sha256.digest key
             else key in
  ljust key blocksize x00.

Definition digest (key msg : list byte) : list byte :=
  let kb := key_block key in
  sha256.digest (map (xor_byte 0x5C) kb
                   ++ sha256.digest (map (xor_byte 0x36) kb ++ msg)).

End hmac.

(* ------------------------------------------------------------------ *)
(** ** base64 *)

Module base64.

Definition alphabet : list byte :=
  list_byte_of_string
    "ABCDEFGHIJKLMNOPQRSTUVWXYZabcdefghijklmnopqrstuvwxyz0123456789+/".

Definition b64char (i : Z) : byte := nth (Z.to_nat i) alphabet "="%byte.

(** [base64.b64encode]: three bytes give four characters; a last group
    of one or two bytes is completed with ['=']. *)
Fixpoint b64encode (bs : list byte) : list byte :=
  match bs with
  | [] => []
  | [a] =>
      let n := Z.shiftl (Z_of_byte a) 16 in
      [b64char (Z.shiftr n 18); b64char (Z.land (Z.shiftr n 12) 63);
       "="%byte; "="%byte]
  | [a; b] =>
      let n := Z.lor (Z.shiftl (Z_of_byte a) 16) (Z.shiftl (Z_of_byte b) 8) in
      [b64char (Z.shiftr n 18); b64char (Z.land (Z.shiftr n 12) 63);
       b64char (Z.land (Z.shiftr n 6) 63); "="%byte]
  | a :: b :: c :: bs' =>
      let n := Z.lor (Z.lor (Z.shiftl (Z_of_byte a) 16)
                            (Z.shiftl (Z_of_byte b) 8)) (Z_of_byte c) in
      b64char (Z.shiftr n 18) :: b64char (Z.land (Z.shiftr n 12) 63)
        :: b64char (Z.land (Z.shiftr n 6) 63) :: b64char (Z.land n 63)
        :: b64encode bs'
  end.

(** [bytes.translate] with the URL-safe tables. *)
Definition urlsafe_encode_translation (c : byte) : byte :=
  if Byte.eqb c "+" then "-"%byte
  else if Byte.eqb c "/" then "_"%byte else c.

Definition urlsafe_decode_translation (c : byte) : byte :=
  if Byte.eqb c "-" then "+"%byte
  else if Byte.eqb c "_" then "/"%byte else c.

(** [base64.urlsafe_b64encode] *)
Definition urlsafe_b64encode (s : list byte) : list byte :=
  map urlsafe_encode_translation (b64encode s).

(** The six-bit value of a character of the standard alphabet. *)
Definition b64index (c : byte) : option Z :=
  let n := Z_of_byte c in
  if (65 <=? n) && (n <=? 90) then Some (n - 65)
  else if (97 <=? n) && (n <=? 122) then Some (n - 97 + 26)
  else if (48 <=? n) && (n <=? 57) then Some (n - 48 + 52)
  else if n =? 43 then Some 62
  else if n =? 47 then Some 63
  else None.

Definition is_pad (c : byte) : bool := Byte.eqb c "=".

(** [base64.b64decode] on well-formed input: groups of four alphabet
    characters, the last one possibly ending in one or two ['='].  The
    library also skips characters outside the alphabet; here such input
    yields [None]. *)
Fixpoint b64decode (bs : list byte) : option (list byte) :=
  match bs with
  | [] => Some []
  | a :: b :: c :: d :: bs' =>
      match b64index a, b64index b with
      | Some va, Some vb =>
          if is_pad c && is_pad d then
            match bs' with
            | [] => Some [byte_of_Z (Z.shiftr (Z.lor (Z.shiftl va 6) vb) 4)]
            | _ => None
            end
          else match b64index c with
          | Some vc =>
              let n3 := Z.lor (Z.shiftl (Z.lor (Z.shiftl va 6) vb) 6) vc in
              if is_pad d then
                match bs' with
                | [] => Some [byte_of_Z (Z.shiftr n3 10);
                              byte_of_Z (Z.shiftr n3 2)]
                | _ => None
                end
              else match b64index d with
              | Some vd =>
                  let n := Z.lor (Z.shiftl n3 6) vd in
                  option_map
                    (fun r => byte_of_Z (Z.shiftr n 16)
                                :: byte_of_Z (Z.shiftr n 8)
                                :: byte_of_Z n :: r)
                    (b64decode bs')
              | None => None
              end
          | None => None
          end
      | _, _ => None
      end
  | _ => None
  end.

(** [base64.urlsafe_b64decode] *)
Definition urlsafe_b64decode (s : list byte) : option (list byte) :=
  b64decode (map urlsafe_decode_translation s).

End base64.

(* ------------------------------------------------------------------ *)
(** ** json *)

Module json.

(** ['\\u{0:04x}'.format(n)] *)
Definition u_escape (n : Z) : string :=
  String "\" (String "u" (uuid.hex_fixed 4 n)).

(** The replacement of one character by [py_encode_basestring_ascii]:
    [ESCAPE_ASCII] matches the backslash, the double quote and every
    character outside [' '..'~']; [ESCAPE_DCT] gives the short escapes. *)
Definition escape_char (c : ascii) : string :=
  let n := ord c in
  if n =? 92 then "\\"
  else if n =? 34 then String "\" (String dquote "")
  else if (32 <=? n) && (n <=? 126) then String c ""
  else if n =? 8 then "\b"
  else if n =? 12 then "\f"
  else if n =? 10 then "\n"
  else if n =? 13 then "\r"
  else if n =? 9 then "\t"
  else u_escape n.

Fixpoint escape (s : string) : string :=
  match s with
  | EmptyString => ""
  | String c s' => (escape_char c ++ escape s')%string
  end.

(** [encode_basestring_ascii(s)] *)
Definition encode_basestring_ascii (s : string) : string :=
  (String dquote (escape s) ++ String dquote "")%string.

(** [int.__repr__]: the decimal digits of [z].  (Python converts an int
    of at most 4300 digits and raises [ValueError] for a longer one; the
    limit is not represented here, and the statements that depend on the
    conversion are about ints within it.) *)
Definition intstr (z : Z) : string :=
  DecimalString.NilZero.string_of_int (Z.to_int z).

(** One value; a [datetime] is not JSON serializable. *)
Definition encode_value (v : value) : result string :=
  match v with
  | Str s => inr (encode_basestring_ascii s)
  | Int z => inr (intstr z)
  | Datetime _ => inl TypeError
  end.

(** The loop of [_iterencode_dict] over the items. *)
Fixpoint iterencode_items (item_separator key_separator : string)
         (first : bool) (items : dict) : result string :=
  match items with
  | [] => inr ""
  | (k, v) :: items' =>
      match encode_value v,
            iterencode_items item_separator key_separator false items' with
      | inr ev, inr rest =>
          inr ((if first then "" else item_separator)
                 ++ encode_basestring_ascii k ++ key_separator ++ ev
                 ++ rest)%string
      | inl e, _ => inl e
      | _, inl e => inl e
      end
  end.

(** [sorted(dct.items())]: by key, keys of a dict being distinct. *)
Fixpoint insert_item (kv : string * value) (items : dict) : dict :=
  match items with
  | [] => [kv]
  | kv' :: items' =>
      if String.leb (fst kv) (fst kv') then kv :: items
      else kv' :: insert_item kv items'
  end.

Definition sorted_items (d : dict) : dict :=
  fold_right insert_item [] d.

(** [json.dumps(d, separators=(item_separator, key_separator),
    sort_keys=sort_keys)] for a dict [d]. *)
Definition dumps (d : dict) (item_separator key_separator : string)
           (sort_keys : bool) : result string :=
  match d with
  | [] => inr "{}"
  | _ =>
      let items := if sort_keys then sorted_items d else d in
      match iterencode_items item_separator key_separator true items with
      | inr body => inr (String "{" body ++ "}")%string
      | inl e => inl e
      end
  end.

(** *** Encoding with [indent] and [default]

    With an [indent] the encoder written in Python runs
    ([_make_iterencode]).  A value that is neither a [str] nor an [int]
    is handed to [default] and the result is encoded in its place; the
    [default] taken here returns a [str], as the builtin [str] does. *)

Definition iterencode_value (default : value -> string) (o : value) : string :=
  match o with
  | Str s => encode_basestring_ascii s
  | Int z => intstr z
  | Datetime _ => encode_basestring_ascii (default o)
  end.

(** The loop of [_iterencode_dict] over the items. *)
Fixpoint iterencode_dict_items (default : value -> string)
         (item_separator key_separator : string)
         (first : bool) (items : dict) : string :=
  match items with
  | [] => ""
  | (k, v) :: items' =>
      ((if first then "" else item_separator)
         ++ encode_basestring_ascii k ++ key_separator
         ++ iterencode_value default v
         ++ iterencode_dict_items default item_separator key_separator
              false items')%string
  end.

(** [json.dumps(d, indent=indent, default=default)] for a dict [d] and
    a number [indent]: the separators are [','] and [': '], every item
    starts a line of its own, one level in. *)
Definition dumps_indent (d : dict) (indent : nat) (default : value -> string)
  : string :=
  match d with
  | [] => "{}"
  | _ =>
      let current_indent_level := 1%nat in
      let newline_indent :=
        (nl ++ replicate (indent * current_indent_level) " ")%string in
      let item_separator := ("," ++ newline_indent)%string in
      let current_indent_level := (current_indent_level - 1)%nat in
      ("{" ++ newline_indent
           ++ iterencode_dict_items default item_separator ": " true d
           ++ nl ++ replicate (indent * current_indent_level) " "
           ++ "}")%string
  end.

(** *** Decoding

    [json.loads] restricted to the documents the encoder above emits:
    an object written without insignificant whitespace whose values are
    strings and integers.  Other JSON documents yield [None] here. *)

Definition hex_value (c : ascii) : option Z :=
  let n := ord c in
  if (48 <=? n) && (n <=? 57) then Some (n - 48)
  else if (97 <=? n) && (n <=? 102) then Some (n - 97 + 10)
  else if (65 <=? n) && (n <=? 70) then Some (n - 65 + 10)
  else None.

(** The character a backslash escape stands for ([BACKSLASH] of
    [json.decoder]). *)
Definition unescape_char (e : ascii) : option ascii :=
  let n := ord e in
  if n =? 34 then Some (chr 34)
  else if n =? 92 then Some (chr 92)
  else if n =? 47 then Some (chr 47)
  else if n =? 98 then Some (chr 8)
  else if n =? 102 then Some (chr 12)
  else if n =? 110 then Some (chr 10)
  else if n =? 114 then Some (chr 13)
  else if n =? 116 then Some (chr 9)
  else None.

(** [py_scanstring], started after the opening quote: the string read
    and the text after its closing quote.  Control characters are
    refused (strict mode); a [\u] escape of a code point above U+00FF
    is outside the represented strings. *)
Fixpoint scanstring (s : string) : option (string * string) :=
  match s with
  | EmptyString => None
  | String c r =>
      if ord c =? 34 then Some (EmptyString, r)
      else if ord c =? 92 then
        match r with
        | EmptyString => None
        | String e r' =>
            if ord e =? 117 then
              match r' with
              | String h1 (String h2 (String h3 (String h4 r''))) =>
                  match hex_value h1, hex_value h2,
                        hex_value h3, hex_value h4 with
                  | Some a, Some b, Some c', Some d =>
                      let n := ((a * 16 + b) * 16 + c') * 16 + d in
                      if n <? 256 then
                        match scanstring r'' with
                        | Some (t, rest) => Some (String (chr n) t, rest)
                        | None => None
                        end
                      else None
                  | _, _, _, _ => None
                  end
              | _ => None
              end
            else
              match unescape_char e, scanstring r' with
              | Some c', Some (t, rest) => Some (String c' t, rest)
              | _, _ => None
              end
        end
      else if ord c <? 32 then None
      else match scanstring r with
           | Some (t, rest) => Some (String c t, rest)
           | None => None
           end
  end.

Definition is_digit (c : ascii) : bool := (48 <=? ord c) && (ord c <=? 57).

(** The longest prefix of digits, and what follows it. *)
Fixpoint span_digits (s : string) : string * string :=
  match s with
  | EmptyString => (EmptyString, EmptyString)
  | String c r =>
      if is_digit c
      then let (ds, rest) := span_digits r in (String c ds, rest)
      else (EmptyString, s)
  end.

(** An optional minus sign, split off. *)
Definition split_sign (s : string) : string * string :=
  match s with
  | String c r => if ord c =? 45 then (String c "", r) else ("", s)
  | EmptyString => ("", s)
  end.

(** More than one digit, the first being a zero. *)
Definition leading_zero (ds : string) : bool :=
  match ds with
  | String c (String _ _) => ord c =? 48
  | _ => false
  end.

(** What follows starts a fraction or an exponent. *)
Definition starts_float_part (rest : string) : bool :=
  match rest with
  | String c _ => (ord c =? 46) || (ord c =? 101) || (ord c =? 69)
  | EmptyString => false
  end.

(** A number ([NUMBER_RE]): an optional minus sign and an integer part
    without superfluous leading zero.  A fraction or an exponent would
    make a [float], which is not represented. *)
Definition scan_int (s : string) : option (Z * string) :=
  let (sign, body) := split_sign s in
  let (ds, rest) := span_digits body in
  if leading_zero ds || starts_float_part rest then None
  else match DecimalString.NilZero.int_of_string (sign ++ ds)%string with
       | Some d => Some (Z.of_int d, rest)
       | None => None
       end.

Definition scan_value (s : string) : option (value * string) :=
  match s with
  | String c r =>
      if ord c =? 34 then
        match scanstring r with
        | Some (t, rest) => Some (Str t, rest)
        | None => None
        end
      else match scan_int s with
           | Some (z, rest) => Some (Int z, rest)
           | None => None
           end
  | EmptyString => None
  end.

(** The members of an object ([JSONObject]), started after ['{'] or
    after a comma; a repeated name overwrites the earlier value.
    [n] bounds the number of members read. *)
Fixpoint scan_members (n : nat) (s : string) (acc : dict) : option dict :=
  match n with
  | O => None
  | S n' =>
      match s with
      | String q r =>
          if ord q =? 34 then
            match scanstring r with
            | Some (k, String colon r2) =>
                if ord colon =? 58 then
                  match scan_value r2 with
                  | Some (v, String d r3) =>
                      if ord d =? 44 then scan_members n' r3 (dict_set acc k v)
                      else if ord d =? 125 then
                        match r3 with
                        | EmptyString => Some (dict_set acc k v)
                        | _ => None
                        end
                      else None
                  | _ => None
                  end
                else None
            | _ => None
            end
          else None
      | EmptyString => None
      end
  end.

(** [json.loads(s)] for a [str]; every member takes at least one
    character, so the length of the text bounds their number. *)
Definition loads (s : string) : option dict :=
  match s with
  | String c r =>
      if ord c =? 123 then
        match r with
        | String c' EmptyString => if ord c' =? 125 then Some [] else None
        | _ => scan_members (String.length r) r []
        end
      else None
  | EmptyString => None
  end.

(** [json.loads(bs)] for [bytes] in UTF-8. *)
Definition loads_bytes (bs : list byte) : option dict :=
  match bytes_decode bs with
  | Some s => loads s
  | None => None
  end.

End json.

(* ------------------------------------------------------------------ *)
(** ** jwt (PyJWT), algorithm HS256 *)

Module jwt.

(** [jwt.utils.base64url_encode]:
    [base64.urlsafe_b64encode(input)] with every ['='] removed. *)
Definition base64url_encode (input : list byte) : list byte :=
  filter (fun c => negb (base64.is_pad c)) (base64.urlsafe_b64encode input).

(** [jwt.utils.base64url_decode]: the padding is restored first. *)
Definition base64url_decode (input : list byte) : option (list byte) :=
  let rem := (List.length input mod 4)%nat in
  let input := if (0 <? rem)%nat
               then input ++ repeat "="%byte (4 - rem) else input in
  base64.urlsafe_b64decode input.

(** [HMACAlgorithm.prepare_key]: [force_bytes(key)].  (The library also
    rejects, with [InvalidKeyError], a key in PEM or SSH format and, in
    recent versions, an empty one; this is not represented: the key of
    the script is none of these.) *)
Definition prepare_key (key : string) : list byte := str_encode key.

(** [HMACAlgorithm(SHA256).sign] *)
Definition sign (msg key : list byte) : list byte := hmac.digest key msg.

(** [HMACAlgorithm.verify]: [hmac.compare_digest(sig, self.sign(msg, key))]. *)
Definition verify (msg key sig : list byte) : bool :=
  if list_eq_dec Byte.byte_eq_dec sig (sign msg key) then true else false.

(** The conversion of the time claims at the start of [encode]. *)
Definition convert_time_claim (p : dict) (time_claim : string) : dict :=
  match dict_get p time_claim with
  | Some (Datetime d) => dict_set p time_claim (Int (datetime.timegm d))
  | _ => p
  end.

(** The header of [api_jws.encode], before serialization. *)
Definition header (algorithm : string) : dict :=
  [("typ", Str "JWT"); ("alg", Str algorithm)].

(** [api_jws.encode(json_payload, key, "HS256")] *)
Definition jws_encode (json_payload : list byte) (key : string)
  : result string :=
  match json.dumps (header "HS256") "," ":" true with
  | inl e => inl e
  | inr json_header =>
      let segments := [base64url_encode (str_encode json_header);
                       base64url_encode json_payload] in
      let signing_input := bytes_join ["."%byte] segments in
      let signature := sign signing_input (prepare_key key) in
      let segments := segments ++ [base64url_encode signature] in
      let encoded_string := bytes_join ["."%byte] segments in
      match bytes_decode encoded_string with
      | Some s => inr s
      | None => inl UnicodeDecodeError
      end
  end.

(** [jwt.encode(payload, key, algorithm="HS256")] *)
Definition encode (payload : dict) (key : string) : result string :=
  let payload :=
    fold_left convert_time_claim ["exp"; "iat"; "nbf"] payload in
  match dict_get payload "iss" with
  | Some (Int _) | Some (Datetime _) => inl TypeError
  | _ =>
      match json.dumps payload "," ":" false with
      | inl e => inl e
      | inr json_payload => jws_encode (str_encode json_payload) key
      end
  end.

(** *** Reading a token back *)

(** [bs.split(sep)] *)
Fixpoint bytes_split (sep : byte) (bs : list byte) : list (list byte) :=
  match bs with
  | [] => [[]]
  | b :: bs' =>
      if Byte.eqb b sep then [] :: bytes_split sep bs'
      else match bytes_split sep bs' with
           | p :: ps => (b :: p) :: ps
           | [] => [[b]]
           end
  end.

(** [bs.split(sep, 1)], when [sep] occurs. *)
Fixpoint split_once (sep : byte) (bs : list byte)
  : option (list byte * list byte) :=
  match bs with
  | [] => None
  | b :: bs' =>
      if Byte.eqb b sep then Some ([], bs')
      else match split_once sep bs' with
           | Some (p, q) => Some (b :: p, q)
           | None => None
           end
  end.

(** [bs.rsplit(sep, 1)], when [sep] occurs. *)
Definition rsplit_once (sep : byte) (bs : list byte)
  : option (list byte * list byte) :=
  match split_once sep (List.rev bs) with
  | Some (q, p) => Some (List.rev p, List.rev q)
  | None => None
  end.

Record Loaded : Set := mkLoaded {
  loaded_payload : list byte;
  loaded_signing_input : list byte;
  loaded_header : dict;
  loaded_signature : list byte;
  header_segment : list byte;
  payload_segment : list byte;
  crypto_segment : list byte
}.

(** [api_jws._load(token)]; [None] stands for [DecodeError]. *)
Definition load (token : string) : option Loaded :=
  match rsplit_once "." (str_encode token) with
  | None => None
  | Some (signing_input, crypto_segment) =>
      match split_once "." signing_input with
      | None => None
      | Some (header_segment, payload_segment) =>
          match base64url_decode header_segment,
                base64url_decode payload_segment,
                base64url_decode crypto_segment with
          | Some header_data, Some payload, Some signature =>
              match json.loads_bytes header_data with
              | Some header =>
                  Some (mkLoaded payload signing_input header signature
                                 header_segment payload_segment
                                 crypto_segment)
              | None => None
              end
          | _, _, _ => None
          end
      end
  end.

(** [api_jws._verify_signature] with [algorithms=["HS256"]]: [true]
    when the signature is accepted, [false] for [DecodeError],
    [InvalidAlgorithmError] or [InvalidSignatureError]. *)
Definition verify_signature (token : string) (key : string) : bool :=
  match load token with
  | None => false
  | Some l =>
      match dict_get (loaded_header l) "alg" with
      | Some (Str alg) =>
          String.eqb alg "HS256"
          && verify (loaded_signing_input l) (prepare_key key)
                    (loaded_signature l)
      | _ => false
      end
  end.

(** The claims of a token, as [jwt.decode] reads them from the payload
    segment (signature and claim validation left aside). *)
Definition decode_payload (token : string) : option dict :=
  match load token with
  | None => None
  | Some l => json.loads_bytes (loaded_payload l)
  end.

End jwt.

(* ================================================================== *)
(** * The script *)
(* ================================================================== *)

(** Secret key for signing (for development only) *)
Definition SECRET_KEY : string := "dev-secret-key-not-for-production".

(** The module-level names bound by the script. *)
Record Globals : Set := mkGlobals {
  TENANT_ID : string;
  USER_ID : string;
  payload : dict;
  token : string
}.

(** The statements of the script from [TENANT_ID = ...] to
    [token = ...], in order (the operation that the specification calls
    [issue()]); the items of the dict display are evaluated from first to
    last, so the clock is read once for ["iat"] and once more for
    ["exp"]. *)
Definition script : M Globals :=
  t <- uuid.uuid4 ;;
  let TENANT_ID := uuid.str t in
  u <- uuid.uuid4 ;;
  let USER_ID := uuid.str u in
  iat <- datetime.utcnow ;;
  now <- datetime.utcnow ;;
  exp <- datetime.add now (datetime.timedelta 24) ;;
  let payload :=
    [("sub", Str USER_ID);
     ("tenant_id", Str TENANT_ID);
     ("org_id", Str TENANT_ID);
     ("email", Str "test@example.com");
     ("name", Str "Test User");
     ("iat", Datetime iat);
     ("exp", Datetime exp);
     ("iss", Str "https://dev-placeholder.local");
     ("aud", Str "subscription-engine")] in
  token <- lift (jwt.encode payload SECRET_KEY) ;;
  ret (mkGlobals TENANT_ID USER_ID payload token).

(** [str(o)], the builtin, on the values of the mapping. *)
Definition str (o : value) : string :=
  match o with
  | Str s => s
  | Int z => json.intstr z
  | Datetime d => datetime.str d
  end.

(** [print(s)]: [s] and a line feed go to standard output, which is
    represented by the text written to it so far. *)
Definition print (stdout s : string) : string := (stdout ++ s ++ nl)%string.

(** A text between double quotes, for the literals below. *)
Definition quoted (s : string) : string :=
  String dquote (s ++ String dquote "").

(** The [print] statements that end the script, in order.  The two
    idempotency keys are drawn when their line is printed, and the
    mapping is serialized, its datetimes through [default=str], when
    the last line is. *)
Definition report (g : Globals) : M string :=
  let out := "" in
  let out := print out "=== Test JWT Token Generated ===" in
  let out := print out ("Tenant ID: " ++ TENANT_ID g)%string in
  let out := print out ("User ID: " ++ USER_ID g)%string in
  let out := print out ("Token: " ++ token g)%string in
  let out := print out "" in
  let out := print out "=== Usage Examples ===" in
  let out := print out "# Create Plan:" in
  let out := print out "curl -X POST http://localhost:8080/api/v1/plans \" in
  let out :=
    print out ("  -H " ++ quoted ("Authorization: Bearer " ++ token g) ++ " \")%string
  in
  let out :=
    print out ("  -H " ++ quoted "Content-Type: application/json" ++ " \")%string in
  k <- uuid.uuid4 ;;
  let out :=
    print out ("  -H " ++ quoted ("Idempotency-Key: " ++ uuid.str k) ++ " \")%string
  in
  let out :=
    print out
      ("  -d '{" ++ quoted "name" ++ ": " ++ quoted "Premium Plan" ++ ", "
       ++ quoted "basePriceCents" ++ ": 2999, "
       ++ quoted "currency" ++ ": " ++ quoted "USD" ++ ", "
       ++ quoted "billingInterval" ++ ": " ++ quoted "month" ++ ", "
       ++ quoted "planType" ++ ": " ++ quoted "SUBSCRIPTION" ++ ", "
       ++ quoted "status" ++ ": " ++ quoted "ACTIVE" ++ "}'")%string in
  let out := print out "" in
  let out := print out "# Create Subscription:" in
  let out :=
    print out "curl -X POST http://localhost:8080/api/v1/subscriptions \" in
  let out :=
    print out ("  -H " ++ quoted ("Authorization: Bearer " ++ token g) ++ " \")%string
  in
  let out :=
    print out ("  -H " ++ quoted "Content-Type: application/json" ++ " \")%string in
  k <- uuid.uuid4 ;;
  let out :=
    print out ("  -H " ++ quoted ("Idempotency-Key: " ++ uuid.str k) ++ " \")%string
  in
  let out :=
    print out
      ("  -d '{" ++ quoted "planId" ++ ": " ++ quoted "PLAN_ID_FROM_ABOVE"
       ++ ", " ++ quoted "customerEmail" ++ ": "
       ++ quoted "customer@example.com" ++ ", "
       ++ quoted "customerFirstName" ++ ": " ++ quoted "John" ++ ", "
       ++ quoted "customerLastName" ++ ": " ++ quoted "Doe" ++ ", "
       ++ quoted "paymentMethodRef" ++ ": " ++ quoted "pm_test_123" ++ "}'")%string
  in
  let out := print out "" in
  let out := print out "=== Decoded Token ===" in
  let out := print out (json.dumps_indent (payload g) 2 str)%string in
  ret out.

(** The whole script: what it binds and what it prints. *)
Definition main : M (Globals * string) :=
  g <- script ;;
  out <- report g ;;
  ret (g, out).

(* ================================================================== *)
(** * Observations used in the statements *)
(* ================================================================== *)

(** The two clock readings of a run started in [w]: the one that
    becomes ["iat"] and the one that ["exp"] is computed from. *)
Definition first_reading (w : World) : Z := system_clock w (clock_reads w).
Definition second_reading (w : World) : Z :=
  system_clock w (S (clock_reads w)).

(** The UUID that [uuid.uuid4()] makes of the sixteen bytes found at
    [pos] in the source of randomness. *)
Definition key_at (w : World) (pos : nat) : uuid.UUID :=
  uuid.UUID_of_bytes (map (urandom_source w) (seq pos 16)) 4.

(** The two UUIDs that [uuid.uuid4()] yields in a run started in [w]:
    they are made of the next sixteen bytes of the source and of the
    sixteen after them. *)
Definition uuid4_draws (w : World) : uuid.UUID * uuid.UUID :=
  (key_at w (urandom_used w), key_at w (urandom_used w + 16)).

Definition tenant_draw (w : World) : uuid.UUID := fst (uuid4_draws w).
Definition user_draw (w : World) : uuid.UUID := snd (uuid4_draws w).

(** [p[k]] read as a datetime, an int or a str. *)
Definition claim_datetime (p : dict) (k : string) : option Z :=
  match dict_get p k with Some (Datetime d) => Some d | _ => None end.

Definition claim_int (p : dict) (k : string) : option Z :=
  match dict_get p k with Some (Int z) => Some z | _ => None end.

Definition claim_str (p : dict) (k : string) : option string :=
  match dict_get p k with Some (Str s) => Some s | _ => None end.

(** The characters of the URL-safe base64 alphabet. *)
Definition is_base64url_char (c : byte) : bool :=
  let n := Z_of_byte c in
  ((65 <=? n) && (n <=? 90)) || ((97 <=? n) && (n <=? 122))
  || ((48 <=? n) && (n <=? 57)) || (n =? 45) || (n =? 95).

(** A non-empty run of such characters that [base64url_decode] accepts. *)
Definition is_base64url_segment (seg : list byte) : Prop :=
  seg <> [] /\ forallb is_base64url_char seg = true
  /\ jwt.base64url_decode seg <> None.

(** A clock under which the second reading is one microsecond after the
    first, the first one falling just before a full second. *)
Definition ticking_world : World :=
  mkWorld true (fun n => byte_of_Z (Z.of_nat (7 * n + 3))) 0
          (fun n => 1700000000999999 + Z.of_nat n) 0.

(** The same clock where no source of randomness is found. *)
Definition no_randomness_world : World :=
  mkWorld false (fun n => byte_of_Z (Z.of_nat (7 * n + 3))) 0
          (fun n => 1700000000999999 + Z.of_nat n) 0.

(** What [script] binds in [ticking_world]. *)
Definition ticking_globals : Globals :=
  mkGlobals
    "030a1118-1f26-4d34-bb42-4950575e656c"
    "737a8188-8f96-4da4-abb2-b9c0c7ced5dc"
    [("sub", Str "737a8188-8f96-4da4-abb2-b9c0c7ced5dc");
     ("tenant_id", Str "030a1118-1f26-4d34-bb42-4950575e656c");
     ("org_id", Str "030a1118-1f26-4d34-bb42-4950575e656c");
     ("email", Str "test@example.com");
     ("name", Str "Test User");
     ("iat", Datetime 1700000000999999);
     ("exp", Datetime 1700086401000000);
     ("iss", Str "https://dev-placeholder.local");
     ("aud", Str "subscription-engine")]
    ("eyJhbGciOiJIUzI1NiIsInR5cCI6IkpXVCJ9."
     ++ "eyJzdWIiOiI3MzdhODE4OC04Zjk2LTRkYTQtYWJiMi1iOWMwYzdjZWQ1ZGMiLCJ0ZW5hbnRfaWQiOiIwMzBhMTExOC0xZjI2LTRkMzQtYmI0Mi00OTUwNTc1ZTY1NmMiLCJvcmdfaWQiOiIwMzBhMTExOC0xZjI2LTRkMzQtYmI0Mi00OTUwNTc1ZTY1NmMiLCJlbWFpbCI6InRlc3RAZXhhbXBsZS5jb20iLCJuYW1lIjoiVGVzdCBVc2VyIiwiaWF0IjoxNzAwMDAwMDAwLCJleHAiOjE3MDAwODY0MDEsImlzcyI6Imh0dHBzOi8vZGV2LXBsYWNlaG9sZGVyLmxvY2FsIiwiYXVkIjoic3Vic2NyaXB0aW9uLWVuZ2luZSJ9."
     ++ "zeWudUg6uJzce20WgzhkQOTflmqc6ppSjojXLBRgOCs")%string.

(** Another source of randomness, under a clock that stands still. *)
Definition steady_world : World :=
  mkWorld true (fun n => byte_of_Z (Z.of_nat (11 * n + 5))) 0
          (fun _ => 1700000000000000) 0.

(** What [script] binds in [steady_world]. *)
Definition steady_globals : Globals :=
  mkGlobals
    "05101b26-313c-4752-9d68-737e89949faa"
    "b5c0cbd6-e1ec-4702-8d18-232e39444f5a"
    [("sub", Str "b5c0cbd6-e1ec-4702-8d18-232e39444f5a");
     ("tenant_id", Str "05101b26-313c-4752-9d68-737e89949faa");
     ("org_id", Str "05101b26-313c-4752-9d68-737e89949faa");
     ("email", Str "test@example.com");
     ("name", Str "Test User");
     ("iat", Datetime 1700000000000000);
     ("exp", Datetime 1700086400000000);
     ("iss", Str "https://dev-placeholder.local");
     ("aud", Str "subscription-engine")]
    ("eyJhbGciOiJIUzI1NiIsInR5cCI6IkpXVCJ9."
     ++ "eyJzdWIiOiJiNWMwY2JkNi1lMWVjLTQ3MDItOGQxOC0yMzJlMzk0NDRmNWEiLCJ0ZW5hbnRfaWQiOiIwNTEwMWIyNi0zMTNjLTQ3NTItOWQ2OC03MzdlODk5NDlmYWEiLCJvcmdfaWQiOiIwNTEwMWIyNi0zMTNjLTQ3NTItOWQ2OC03MzdlODk5NDlmYWEiLCJlbWFpbCI6InRlc3RAZXhhbXBsZS5jb20iLCJuYW1lIjoiVGVzdCBVc2VyIiwiaWF0IjoxNzAwMDAwMDAwLCJleHAiOjE3MDAwODY0MDAsImlzcyI6Imh0dHBzOi8vZGV2LXBsYWNlaG9sZGVyLmxvY2FsIiwiYXVkIjoic3Vic2NyaXB0aW9uLWVuZ2luZSJ9."
     ++ "atTLMWdmxkY85LX22yq92Io2-TmnT8YJJkr6lU6rz2A")%string.

(** Bytes in hexadecimal, as [bytes.hex()] shows them. *)
Definition hexlify (bs : list byte) : string :=
  String.concat "" (map (fun b => uuid.hex_fixed 2 (Z_of_byte b)) bs).

(** ["exp" - "iat"] in a claims mapping that holds two datetimes. *)
Definition exp_minus_iat (p : dict) : option Z :=
  match claim_datetime p "exp", claim_datetime p "iat" with
  | Some e, Some i => Some (e - i)
  | _, _ => None
  end.

(* ================================================================== *)
(** * Auxiliary notions for the proofs *)
(* ================================================================== *)

(** The character that stands for the six-bit value [i] in a token. *)
Definition url_char (i : Z) : byte :=
  base64.urlsafe_encode_translation (base64.b64char i).

Definition is_ascii_byte (b : byte) : bool := Z_of_byte b <? 128.

Definition no_period (bs : list byte) : bool :=
  forallb (fun c => negb (Byte.eqb c ".")) bs.

(** What may follow a value inside an object: a comma or the closing
    brace. *)
Definition closes_value (rest : string) : Prop :=
  exists r, rest = String "," r \/ rest = String "}" r.

(** Digit strings as [int.__repr__] writes them: not empty, and with a
    leading zero only for zero itself. *)
Definition written_digits (d : Decimal.uint) : Prop :=
  d <> Decimal.Nil /\ forall d', d = Decimal.D0 d' -> d' = Decimal.Nil.

(** Storing the items of [d], one after the other, in [acc]. *)
Definition store_items (d acc : dict) : dict :=
  fold_left (fun a kv => dict_set a (fst kv) (snd kv)) d acc.

(** The claims as [jwt.encode] serializes them: the payload with its
    datetimes turned into whole seconds. *)
Definition issued_claims (p : dict) : dict :=
  fold_left jwt.convert_time_claim ["exp"; "iat"; "nbf"] p.

(** The serialized header for HS256. *)
Definition header_json : string :=
  ("{" ++ String dquote ("alg" ++ String dquote (":"
       ++ String dquote ("HS256" ++ String dquote (","
       ++ String dquote ("typ" ++ String dquote (":"
       ++ String dquote ("JWT" ++ String dquote "}"))))))))%string.

Definition header_b64 : list byte :=
  jwt.base64url_encode (str_encode header_json).

(** The three segments of the token for the JSON text [js] of the claims
    and the key [key], and the token itself. *)
Definition payload_b64 (js : string) : list byte :=
  jwt.base64url_encode (str_encode js).

Definition signing_input_of (js : string) : list byte :=
  header_b64 ++ "."%byte :: payload_b64 js.

Definition signature_of (js key : string) : list byte :=
  jwt.sign (signing_input_of js) (jwt.prepare_key key).

Definition token_bytes (js key : string) : list byte :=
  signing_input_of js ++ "."%byte :: jwt.base64url_encode (signature_of js key).

(** The mapping that a run started in [w] builds, and the environment it
    leaves. *)
Definition payload_in (w : World) : dict :=
  [("sub", Str (uuid.str (user_draw w)));
   ("tenant_id", Str (uuid.str (tenant_draw w)));
   ("org_id", Str (uuid.str (tenant_draw w)));
   ("email", Str "test@example.com");
   ("name", Str "Test User");
   ("iat", Datetime (first_reading w));
   ("exp", Datetime (second_reading w + datetime.timedelta 24));
   ("iss", Str "https://dev-placeholder.local");
   ("aud", Str "subscription-engine")].

Definition world_after (w : World) : World :=
  mkWorld (urandom_found w) (urandom_source w) (urandom_used w + 16 + 16)
          (system_clock w) (S (S (clock_reads w))).

(** Three base64url segments joined by two periods. *)
Definition compact_serialization (tok : string) (h p s : list byte) : Prop :=
  str_encode tok = bytes_join ["."%byte] [h; p; s]
  /\ jwt.bytes_split "." (str_encode tok) = [h; p; s]
  /\ is_base64url_segment h
  /\ is_base64url_segment p
  /\ is_base64url_segment s.

(** The fixed secret followed by one NUL character. *)
Definition zero_extended_secret : string :=
  (SECRET_KEY ++ String Ascii.zero "")%string.

(** The exceptions of the token step ([jwt.encode]); the others come
    from the date computations and from [os.urandom]. *)
Definition from_token_step (e : exn) : bool :=
  match e with
  | TypeError | UnicodeDecodeError => true
  | ValueError | OverflowError | NotImplementedError => false
  end.

(** The system clock counts nanoseconds in a signed 64-bit integer, and
    [datetime.utcnow()] takes its reading cut to the microsecond: the
    readings lie between 1677-09-21 and 2262-04-11. *)
Definition PyTime_MIN : Z := - 2 ^ 63.
Definition PyTime_MAX : Z := 2 ^ 63 - 1.

Definition system_clock_reading (r : Z) : bool :=
  (PyTime_MIN / 1000 <=? r) && (r <=? PyTime_MAX / 1000).

(** A signed credential in compact serialization. *)
Definition well_formed_credential (tok : string) : Prop :=
  (exists h p s : list byte, compact_serialization tok h p s)
  /\ jwt.verify_signature tok SECRET_KEY = true.

(** A clock that steps back by 23 h 59 min 59.9 s between the readings:
    the mapping has ["exp"] after ["iat"], the token has them equal. *)
Definition stepping_back_world : World :=
  mkWorld true (fun n => byte_of_Z (Z.of_nat (7 * n + 3))) 0
          (fun n => match n with
                    | O => 1700086400500000
                    | S _ => 1700000000600000
                    end) 0.

(* ================================================================== *)
(** * Notions for the report and for the library routines *)
(* ================================================================== *)

(** The month and the day for the offset [n] of a day in its year. *)
Definition month_day (leapyear : bool) (n : Z) : Z * Z :=
  let month := Z.shiftr (n + 50) 5 in
  let preceding :=
    item datetime.DAYS_BEFORE_MONTH month + Z.b2z ((2 <? month) && leapyear) in
  if n <? preceding then
    let month := month - 1 in
    let preceding :=
      preceding
      - (item datetime.DAYS_IN_MONTH month + Z.b2z ((month =? 2) && leapyear)) in
    (month, n - preceding + 1)
  else (month, n - preceding + 1).

(** The month and the day are those of a date, and the days before it in
    its year are [n]. *)
Definition month_day_ok (leapyear : bool) (n : Z) : bool :=
  let '(m, d) := month_day leapyear n in
  (1 <=? m) && (m <=? 12) && (1 <=? d)
  && (d <=? (if (m =? 2) && leapyear then 29 else item datetime.DAYS_IN_MONTH m))
  && (item datetime.DAYS_BEFORE_MONTH m + Z.b2z ((2 <? m) && leapyear) + d =? n + 1).

(** The lower-case hexadecimal digits, and the decimal digits. *)
Definition is_hex_lower (c : ascii) : bool :=
  let n := ord c in
  ((48 <=? n) && (n <=? 57)) || ((97 <=? n) && (n <=? 102)).

Definition is_decimal (c : ascii) : bool := (48 <=? ord c) && (ord c <=? 57).

(** [s] follows [pat], in which ['x'] stands for a lower-case hexadecimal
    digit, ['y'] for one of [8], [9], [a], [b], ['d'] for a decimal digit,
    and any other character for itself. *)
Fixpoint follows (pat s : string) : bool :=
  match pat, s with
  | EmptyString, EmptyString => true
  | String p pat', String c s' =>
      (if Ascii.eqb p "x" then is_hex_lower c
       else if Ascii.eqb p "y"
            then Ascii.eqb c "8" || Ascii.eqb c "9" || Ascii.eqb c "a"
                 || Ascii.eqb c "b"
            else if Ascii.eqb p "d" then is_decimal c
                 else Ascii.eqb p c)
      && follows pat' s'
  | _, _ => false
  end.

(** The canonical text of a UUID of version 4 and RFC 4122 variant. *)
Definition is_uuid4_text (s : string) : bool :=
  follows "xxxxxxxx-xxxx-4xxx-yxxx-xxxxxxxxxxxx" s.

(** Bit [i] of a UUID of version 4 made from an integer whose bit [i]
    is [b]. *)
Definition uuid4_bit (i : Z) (b : bool) : bool :=
  if (76 <=? i) && (i <=? 79) then i =? 78
  else if i =? 63 then true
  else if i =? 62 then false
  else b.

(** The same bit as the masks of [UUID_of_bytes] compute it. *)
Definition written_bit (i : Z) (b : bool) : bool :=
  (b && negb (Z.testbit 0xc000 (i - 48)) || Z.testbit 0x8000 (i - 48))
  && negb (Z.testbit 0xf000 (i - 64))
  || Z.testbit 4 (i - 76).

(** Every character of [s] satisfies [P]. *)
Fixpoint all_chars (P : ascii -> bool) (s : string) : bool :=
  match s with
  | EmptyString => true
  | String c r => P c && all_chars P r
  end.

(** The printable ASCII characters, and those among them that a JSON
    string holds unescaped. *)
Definition printable (c : ascii) : bool := (32 <=? ord c) && (ord c <=? 126).

Definition plain (c : ascii) : bool :=
  printable c && negb (ord c =? 34) && negb (ord c =? 92).

(** The decimal digit [i] put before the digits [d]. *)
Definition digit (i : Z) (d : Decimal.uint) : Decimal.uint :=
  match i with
  | 0 => Decimal.D0 d | 1 => Decimal.D1 d | 2 => Decimal.D2 d
  | 3 => Decimal.D3 d | 4 => Decimal.D4 d | 5 => Decimal.D5 d
  | 6 => Decimal.D6 d | 7 => Decimal.D7 d | 8 => Decimal.D8 d
  | _ => Decimal.D9 d
  end.

(** The [k] low decimal digits of [z], the lowest first. *)
Fixpoint little_digits (k : nat) (z : Z) : Decimal.uint :=
  match k with
  | O => Decimal.Nil
  | S k' => digit (z mod 10) (little_digits k' (z / 10))
  end.

(** The digits that [format_0d] pads. *)
Definition decimal_digits (z : Z) : string :=
  DecimalString.NilZero.string_of_int (Z.to_int (Z.abs z)).

(** The lines of a text: the pieces that end in a line feed, and what
    follows the last line feed if it is not empty. *)
Fixpoint lines (s : string) : list string :=
  match s with
  | EmptyString => []
  | String c r =>
      if ord c =? 10 then EmptyString :: lines r
      else match lines r with
           | l :: ls => String c l :: ls
           | [] => [String c EmptyString]
           end
  end.

(** The text made of the lines [ls], each followed by a line feed. *)
Fixpoint text_of (ls : list string) : string :=
  match ls with
  | [] => ""
  | l :: ls' => (l ++ nl ++ text_of ls')%string
  end.

(** The lines that [dumps_indent] writes for the items of a dict. *)
Fixpoint item_lines (default : value -> string) (indent : nat) (d : dict)
  : list string :=
  match d with
  | [] => []
  | (k, v) :: d' =>
      (replicate indent " " ++ json.encode_basestring_ascii k ++ ": "
       ++ json.iterencode_value default v
       ++ match d' with [] => "" | _ :: _ => "," end)%string
      :: item_lines default indent d'
  end.

(** The UUIDs of the two idempotency keys in a run started in [w]: the
    third and the fourth that [uuid.uuid4()] yields. *)
Definition idempotency_draws (w : World) : uuid.UUID * uuid.UUID :=
  (key_at w (urandom_used w + 16 + 16),
   key_at w (urandom_used w + 16 + 16 + 16)).

(** The lines that [report] writes before the serialized mapping. *)
Definition usage_lines (g : Globals) (k1 k2 : uuid.UUID) : list string :=
  ["=== Test JWT Token Generated ===";
   "Tenant ID: " ++ TENANT_ID g;
   "User ID: " ++ USER_ID g;
   "Token: " ++ token g;
   "";
   "=== Usage Examples ===";
   "# Create Plan:";
   "curl -X POST http://localhost:8080/api/v1/plans \";
   "  -H " ++ quoted ("Authorization: Bearer " ++ token g) ++ " \";
   "  -H " ++ quoted "Content-Type: application/json" ++ " \";
   "  -H " ++ quoted ("Idempotency-Key: " ++ uuid.str k1) ++ " \";
   "  -d '{" ++ quoted "name" ++ ": " ++ quoted "Premium Plan" ++ ", "
     ++ quoted "basePriceCents" ++ ": 2999, "
     ++ quoted "currency" ++ ": " ++ quoted "USD" ++ ", "
     ++ quoted "billingInterval" ++ ": " ++ quoted "month" ++ ", "
     ++ quoted "planType" ++ ": " ++ quoted "SUBSCRIPTION" ++ ", "
     ++ quoted "status" ++ ": " ++ quoted "ACTIVE" ++ "}'";
   "";
   "# Create Subscription:";
   "curl -X POST http://localhost:8080/api/v1/subscriptions \";
   "  -H " ++ quoted ("Authorization: Bearer " ++ token g) ++ " \";
   "  -H " ++ quoted "Content-Type: application/json" ++ " \";
   "  -H " ++ quoted ("Idempotency-Key: " ++ uuid.str k2) ++ " \";
   "  -d '{" ++ quoted "planId" ++ ": " ++ quoted "PLAN_ID_FROM_ABOVE"
     ++ ", " ++ quoted "customerEmail" ++ ": "
     ++ quoted "customer@example.com" ++ ", "
     ++ quoted "customerFirstName" ++ ": " ++ quoted "John" ++ ", "
     ++ quoted "customerLastName" ++ ": " ++ quoted "Doe" ++ ", "
     ++ quoted "paymentMethodRef" ++ ": " ++ quoted "pm_test_123" ++ "}'";
   "";
   "=== Decoded Token ==="]%string.

(** All the lines of [report]: the serialized mapping comes last. *)
Definition report_lines (g : Globals) (k1 k2 : uuid.UUID) : list string :=
  usage_lines g k1 k2 ++ "{"%string :: item_lines str 2 (payload g) ++ ["}"%string].

(** The environment after two more UUIDs. *)
Definition world_at_end (w : World) : World :=
  mkWorld (urandom_found w) (urandom_source w) (urandom_used w + 16 + 16)
          (system_clock w) (clock_reads w).

(** The line of an item whose value is the string [s]. *)
Definition str_item_line (k s : string) (last : bool) : string :=
  ("  " ++ quoted k ++ ": " ++ quoted s ++ (if last then "" else ","))%string.

(** The serialized mapping of a run, line by line. *)
Definition decoded_block (w : World) : list string :=
  ["{";
   str_item_line "sub" (uuid.str (user_draw w)) false;
   str_item_line "tenant_id" (uuid.str (tenant_draw w)) false;
   str_item_line "org_id" (uuid.str (tenant_draw w)) false;
   str_item_line "email" "test@example.com" false;
   str_item_line "name" "Test User" false;
   str_item_line "iat" (datetime.str (first_reading w)) false;
   str_item_line "exp"
     (datetime.str (second_reading w + datetime.timedelta 24)) false;
   str_item_line "iss" "https://dev-placeholder.local" false;
   str_item_line "aud" "subscription-engine" true;
   "}"]%string.

(** A value that [json.dumps] cannot write without [default]. *)
Definition is_datetime (v : value) : bool :=
  match v with Datetime _ => true | _ => false end.

(** A mapping that holds such a value. *)
Definition holds_datetime (d : dict) : bool :=
  existsb (fun kv => is_datetime (snd kv)) d.

(** The values that the statements about [json] and [jwt.encode] range
    over: a [str], a [datetime] between [datetime.min] and
    [datetime.max], and an [int] of at most 4300 decimal digits.  That
    is the default limit ([sys.int_info.default_max_str_digits]) of the
    conversions between [int] and [str]: for a longer int,
    [int.__repr__] and [int(s)] raise [ValueError]. *)
Definition int_max_str_digits : Z := 4300.

Definition in_range (v : value) : bool :=
  match v with
  | Str _ => true
  | Int z => Z.abs z <? 10 ^ int_max_str_digits
  | Datetime d => datetime.representable d
  end.

Definition values_in_range (d : dict) : bool :=
  forallb (fun kv => in_range (snd kv)) d.

(** What the conversion makes of the value found under a time claim. *)
Definition converted (o : option value) : option value :=
  match o with
  | Some (Datetime d) => Some (Int (datetime.timegm d))
  | _ => o
  end.

(** The names of the time claims. *)
Definition is_time_claim (k : string) : bool :=
  String.eqb k "exp" || String.eqb k "iat" || String.eqb k "nbf".

(** The issuer is there and is not a [str]. *)
Definition bad_issuer (p : dict) : bool :=
  match dict_get p "iss" with
  | Some (Int _) | Some (Datetime _) => true
  | _ => false
  end.

(** The JSON text of the claims, when they can be written. *)
Definition claims_json (p : dict) : string :=
  match issued_claims p with
  | [] => "{}"
  | _ => String "{" (json.iterencode_dict_items str "," ":" true
                       (issued_claims p) ++ "}")
  end.

(** A mapping whose strings need escapes. *)
Definition escaped_items : dict :=
  [((String "233" "t" ++ String "233" " " ++ String dquote "")%string,
    Str (String "010" "a\b"));
   ("n", Int (-42)); ("", Str "")].

(** The claims and the token of the jwt.io example, the time being a
    datetime one microsecond into its second. *)
Definition example_claims : dict :=
  [("sub", Str "1234567890"); ("name", Str "John Doe");
   ("iat", Datetime 1516239022000001)].

Definition example_token : string :=
  ("eyJhbGciOiJIUzI1NiIsInR5cCI6IkpXVCJ9."
   ++ "eyJzdWIiOiIxMjM0NTY3ODkwIiwibmFtZSI6IkpvaG4gRG9lIiwiaWF0IjoxNTE2MjM5MDIyfQ."
   ++ "SflKxwRJSMeKKF2QT4fwpMeJf36POk6yJV_adQssw5c")%string.

(** A clock that reads other microseconds of the same two seconds as
    the clock of [ticking_world]. *)
Definition coarse_world : World :=
  mkWorld true (fun n => byte_of_Z (Z.of_nat (7 * n + 3))) 0
          (fun n => match n with
                    | O => 1700000000000000
                    | S _ => 1700000001999999
                    end) 0.

(** What [script] binds in [coarse_world]: another mapping, the same
    token. *)
Definition coarse_globals : Globals :=
  mkGlobals
    (TENANT_ID ticking_globals) (USER_ID ticking_globals)
    [("sub", Str (USER_ID ticking_globals));
     ("tenant_id", Str (TENANT_ID ticking_globals));
     ("org_id", Str (TENANT_ID ticking_globals));
     ("email", Str "test@example.com");
     ("name", Str "Test User");
     ("iat", Datetime 1700000000000000);
     ("exp", Datetime 1700086401999999);
     ("iss", Str "https://dev-placeholder.local");
     ("aud", Str "subscription-engine")]
    (token ticking_globals).

(* ================================================================== *)
(** * Properties *)
(* ================================================================== *)

(** ** Known answers *)

Example sha256_abc :
  hexlify (sha256.digest (list_byte_of_string "abc"))
  = "ba7816bf8f01cfea414140de5dae2223b00361a396177a9cb410ff61f20015ad".
Proof. vm_compute. reflexivity. Qed.

Example sha256_two_blocks :
  hexlify (sha256.digest (list_byte_of_string
    "abcdbcdecdefdefgefghfghighijhijkijkljklmklmnlmnomnopnopq"))
  = "248d6a61d20638b8e5c026930c3e6039a33ce45964ff2167f6ecedd419db06c1".
Proof. vm_compute. reflexivity. Qed.

(** RFC 4231, test case 2. *)
Example hmac_rfc4231_2 :
  hexlify (hmac.digest (list_byte_of_string "Jefe")
             (list_byte_of_string "what do ya want for nothing?"))
  = "5bdcc146bf60754e6a042426089575c75a003f089d2739839dec58b964ec3843".
Proof. vm_compute. reflexivity. Qed.

Example uuid_str_example :
  uuid.str (uuid.UUID_of_bytes
              (map (fun n => byte_of_Z (Z.of_nat n)) (seq 0 16)) 4)
  = "00010203-0405-4607-8809-0a0b0c0d0e0f".
Proof. vm_compute. reflexivity. Qed.

(** The token of the PyJWT and jwt.io documentation. *)
Example jwt_encode_known_token :
  jwt.encode [("sub", Str "1234567890"); ("name", Str "John Doe");
              ("iat", Int 1516239022)] "your-256-bit-secret"
  = inr ("eyJhbGciOiJIUzI1NiIsInR5cCI6IkpXVCJ9."
         ++ "eyJzdWIiOiIxMjM0NTY3ODkwIiwibmFtZSI6IkpvaG4gRG9lIiwiaWF0IjoxNTE2MjM5MDIyfQ."
         ++ "SflKxwRJSMeKKF2QT4fwpMeJf36POk6yJV_adQssw5c")%string.
Proof. vm_compute. reflexivity. Qed.

(** ** The run, step by step *)

Lemma ticking_run : returned (script ticking_world) = Some ticking_globals.
Proof. vm_compute. reflexivity. Qed.

Lemma steady_run : returned (script steady_world) = Some steady_globals.
Proof. vm_compute. reflexivity. Qed.

Lemma no_randomness_run :
  raised (script no_randomness_world) = Some NotImplementedError.
Proof. vm_compute. reflexivity. Qed.

Lemma Some_inj {A : Type} (a b : A) : Some a = Some b -> a = b.
Proof. intros H. congruence. Qed.

(** The run, as one expression of what it reads. *)
Lemma script_unfold (w : World) :
  script w =
  if urandom_found w then
    if datetime.representable (first_reading w) then
      if datetime.representable (second_reading w) then
        if datetime.representable (second_reading w + datetime.timedelta 24)
        then match jwt.encode (payload_in w) SECRET_KEY with
             | inr tok =>
                 Returns (mkGlobals (uuid.str (tenant_draw w))
                                    (uuid.str (user_draw w))
                                    (payload_in w) tok)
                         (world_after w)
             | inl e => Raises e
             end
        else Raises OverflowError
      else Raises ValueError
    else Raises ValueError
  else Raises NotImplementedError.
Proof.
  destruct w as [found source used clock reads].
  unfold script, Py.bind, uuid.uuid4, Py.bind, os_urandom, datetime.utcnow,
    Py.bind, read_clock, datetime.add, Py.ret, Py.raise,
    first_reading, second_reading, world_after.
  cbn [urandom_found urandom_source urandom_used system_clock clock_reads].
  destruct found; cbv beta iota;
    cbn [urandom_found urandom_source urandom_used system_clock clock_reads];
    [| reflexivity].
  destruct (datetime.representable (clock reads));
    cbv beta iota;
    cbn [urandom_found urandom_source urandom_used system_clock clock_reads];
    [| reflexivity].
  destruct (datetime.representable (clock (S reads)));
    cbv beta iota;
    cbn [urandom_found urandom_source urandom_used system_clock clock_reads];
    [| reflexivity].
  destruct (datetime.representable (clock (S reads) + datetime.timedelta 24));
    cbv beta iota; [| reflexivity].
  change (jwt.encode _ SECRET_KEY)
    with (jwt.encode (payload_in (mkWorld true source used clock reads))
                     SECRET_KEY).
  destruct (jwt.encode (payload_in (mkWorld true source used clock reads))
                       SECRET_KEY); reflexivity.
Qed.

(** A run that returns has found a source of randomness. *)
Lemma script_returns_found (w : World) (g : Globals) :
  returned (script w) = Some g -> urandom_found w = true.
Proof.
  rewrite script_unfold.
  destruct (urandom_found w); [reflexivity | intros H; discriminate H].
Qed.

(** Everything a successful run binds, in terms of what it read. *)
Lemma script_returns (w : World) (g : Globals) :
  returned (script w) = Some g ->
  datetime.representable (first_reading w) = true
  /\ datetime.representable (second_reading w) = true
  /\ datetime.representable (second_reading w + datetime.timedelta 24) = true
  /\ TENANT_ID g = uuid.str (tenant_draw w)
  /\ USER_ID g = uuid.str (user_draw w)
  /\ payload g = payload_in w
  /\ jwt.encode (payload g) SECRET_KEY = inr (token g).
Proof.
  rewrite script_unfold.
  destruct (urandom_found w); [| intros H; discriminate H].
  destruct (datetime.representable (first_reading w));
    [| intros H; discriminate H].
  destruct (datetime.representable (second_reading w));
    [| intros H; discriminate H].
  destruct (datetime.representable (second_reading w + datetime.timedelta 24));
    [| intros H; discriminate H].
  destruct (jwt.encode (payload_in w) SECRET_KEY) as [e | tok] eqn:E;
    cbn [returned]; intros H; [discriminate H |].
  apply Some_inj in H. subst g. cbn [TENANT_ID USER_ID payload token].
  repeat split; try reflexivity. exact E.
Qed.

(** ** Bytes and bits *)

Lemma Z_of_byte_range (b : byte) : 0 <= Z_of_byte b < 256.
Proof.
  unfold Z_of_byte. pose proof (Byte.to_N_bounded b). lia.
Qed.

Lemma byte_of_Z_of_byte (b : byte) : byte_of_Z (Z_of_byte b) = b.
Proof.
  unfold byte_of_Z. pose proof (Z_of_byte_range b) as R.
  rewrite Z.mod_small by exact R.
  unfold Z_of_byte. rewrite N2Z.id, Byte.of_to_N. reflexivity.
Qed.

Lemma byte_of_Z_mod (z : Z) : byte_of_Z (z mod 256) = byte_of_Z z.
Proof.
  unfold byte_of_Z. rewrite Z.mod_mod by lia. reflexivity.
Qed.

Lemma Z_of_byte_of_Z (z : Z) : Z_of_byte (byte_of_Z z) = z mod 256.
Proof.
  unfold byte_of_Z, Z_of_byte.
  assert (R : 0 <= z mod 256 < 256) by (apply Z.mod_pos_bound; lia).
  destruct (Byte.of_N (Z.to_N (z mod 256))) as [b |] eqn:E.
  - apply Byte.to_of_N in E. rewrite E. lia.
  - pose proof (Byte.to_of_N_option_map (Z.to_N (z mod 256))) as H.
    rewrite E in H. cbn in H.
    destruct (N.leb_spec (Z.to_N (z mod 256)) 255); [discriminate | lia].
Qed.

Lemma testbit_above (a n i : Z) :
  0 <= a < 2 ^ n -> 0 <= n <= i -> Z.testbit a i = false.
Proof.
  intros Ha Hi.
  rewrite <- (Z.mod_small a (2 ^ n)) by exact Ha.
  apply Z.mod_pow2_bits_high. exact Hi.
Qed.

(** A value whose bits from [n] on are clear lies below [2^n]. *)
Lemma below_pow2_of_bits (a n : Z) :
  0 <= n -> (forall i, n <= i -> Z.testbit a i = false) -> 0 <= a < 2 ^ n.
Proof.
  intros Hn H.
  assert (E : a mod 2 ^ n = a).
  { apply Z.bits_inj'. intros i Hi.
    rewrite Z.testbit_mod_pow2 by exact Hn.
    destruct (Z.ltb_spec i n) as [L | L]; cbn.
    - reflexivity.
    - symmetry. apply H. exact L. }
  rewrite <- E. apply Z.mod_pos_bound. apply Z.pow_pos_nonneg; lia.
Qed.

(** Joining a shifted value with one that fits under the shift. *)
Lemma lor_shiftl_add (x y k : Z) :
  0 <= k -> 0 <= y < 2 ^ k -> Z.lor (Z.shiftl x k) y = x * 2 ^ k + y.
Proof.
  intros Hk Hy.
  rewrite Z.shiftl_mul_pow2 by exact Hk.
  pose proof (Z.add_lor_land (x * 2 ^ k) y) as H.
  assert (L : Z.land (x * 2 ^ k) y = 0).
  { apply Z.bits_inj'. intros i Hi.
    rewrite Z.land_spec, Z.bits_0.
    destruct (Z.ltb_spec i k).
    - rewrite Z.mul_pow2_bits_low by assumption. reflexivity.
    - rewrite (testbit_above y k i) by lia. apply andb_false_r. }
  lia.
Qed.

Lemma int_from_bytes_app (bs : list byte) (acc : Z) :
  fold_left (fun acc b => acc * 256 + Z_of_byte b) bs acc
  = acc * 256 ^ Z.of_nat (List.length bs) + int_from_bytes bs.
Proof.
  unfold int_from_bytes. revert acc.
  induction bs as [| b bs IH]; intros acc.
  - cbn. lia.
  - cbn [fold_left List.length]. rewrite IH, (IH (0 * 256 + Z_of_byte b)).
    rewrite Nat2Z.inj_succ, Z.pow_succ_r by lia. lia.
Qed.

Lemma int_from_bytes_range (bs : list byte) :
  0 <= int_from_bytes bs < 256 ^ Z.of_nat (List.length bs).
Proof.
  induction bs as [| b bs IH].
  - cbn. lia.
  - unfold int_from_bytes. cbn [fold_left List.length].
    rewrite int_from_bytes_app, Nat2Z.inj_succ, Z.pow_succ_r by lia.
    pose proof (Z_of_byte_range b).
    assert (0 < 256 ^ Z.of_nat (List.length bs))
      by (apply Z.pow_pos_nonneg; lia).
    nia.
Qed.

(** ** uuid: the text of a UUID determines it *)

Lemma hex_digit_inj (d d' : Z) :
  0 <= d < 16 -> 0 <= d' < 16 ->
  uuid.hex_digit d = uuid.hex_digit d' -> d = d'.
Proof.
  intros Hd Hd' H.
  assert (C : d = 0 \/ d = 1 \/ d = 2 \/ d = 3 \/ d = 4 \/ d = 5 \/ d = 6
              \/ d = 7 \/ d = 8 \/ d = 9 \/ d = 10 \/ d = 11 \/ d = 12
              \/ d = 13 \/ d = 14 \/ d = 15) by lia.
  assert (C' : d' = 0 \/ d' = 1 \/ d' = 2 \/ d' = 3 \/ d' = 4 \/ d' = 5
               \/ d' = 6 \/ d' = 7 \/ d' = 8 \/ d' = 9 \/ d' = 10
               \/ d' = 11 \/ d' = 12 \/ d' = 13 \/ d' = 14 \/ d' = 15)
    by lia.
  repeat (destruct C as [C | C]); subst d;
    repeat (destruct C' as [C' | C']); subst d';
    first [reflexivity | vm_compute in H; discriminate H].
Qed.

Lemma hex_fixed_S (w : nat) (n : Z) :
  uuid.hex_fixed (S w) n
  = String (uuid.hex_digit (Z.land (Z.shiftr n (4 * Z.of_nat w)) 15))
           (uuid.hex_fixed w n).
Proof. reflexivity. Qed.

Lemma hex_fixed_length (w : nat) (n : Z) :
  String.length (uuid.hex_fixed w n) = w.
Proof.
  induction w as [| w IH]; [reflexivity |].
  rewrite hex_fixed_S. cbn [String.length]. congruence.
Qed.

Lemma hex_fixed_inj (w : nat) (n m : Z) :
  uuid.hex_fixed w n = uuid.hex_fixed w m ->
  n mod 16 ^ Z.of_nat w = m mod 16 ^ Z.of_nat w.
Proof.
  induction w as [| w IH]; intros H.
  - cbn. rewrite !Z.mod_1_r. reflexivity.
  - rewrite !hex_fixed_S in H.
    remember (4 * Z.of_nat w) as k eqn:Ek.
    injection H as Hd Hr.
    specialize (IH Hr).
    change 15 with (Z.ones 4) in Hd.
    rewrite !Z.land_ones, !Z.shiftr_div_pow2 in Hd by lia.
    apply hex_digit_inj in Hd; try (apply Z.mod_pos_bound; lia).
    replace (2 ^ k) with (16 ^ Z.of_nat w) in Hd
      by (subst k; rewrite Z.pow_mul_r by lia; reflexivity).
    rewrite Nat2Z.inj_succ, Z.pow_succ_r by lia.
    assert (P : 0 < 16 ^ Z.of_nat w) by (apply Z.pow_pos_nonneg; lia).
    rewrite (Z.mul_comm 16).
    rewrite !Z.rem_mul_r by lia.
    change (2 ^ 4) with 16 in Hd. congruence.
Qed.

(** The hyphenated layout keeps all 32 digits. *)
Lemma hyphenated_inj (h h' : string) :
  String.length h = 32%nat -> String.length h' = 32%nat ->
  (substring 0 8 h ++ "-" ++ substring 8 4 h ++ "-" ++
   substring 12 4 h ++ "-" ++ substring 16 4 h ++ "-" ++
   substring 20 (String.length h - 20) h)%string
  = (substring 0 8 h' ++ "-" ++ substring 8 4 h' ++ "-" ++
     substring 12 4 h' ++ "-" ++ substring 16 4 h' ++ "-" ++
     substring 20 (String.length h' - 20) h')%string ->
  h = h'.
Proof.
  intros L L'.
  do 32 (destruct h as [| ? h]; [discriminate L |]).
  destruct h; [| discriminate L].
  do 32 (destruct h' as [| ? h']; [discriminate L' |]).
  destruct h'; [| discriminate L'].
  cbn. intros H. injection H. intros. subst. reflexivity.
Qed.

(** The integer of a UUID made by [uuid4] fits in 128 bits. *)
Lemma UUID_of_bytes_range (bs : list byte) :
  List.length bs = 16%nat ->
  0 <= uuid.int (uuid.UUID_of_bytes bs 4) < 2 ^ 128.
Proof.
  intros L. pose proof (int_from_bytes_range bs) as R.
  rewrite L in R. change (256 ^ Z.of_nat 16) with (2 ^ 128) in R.
  apply below_pow2_of_bits; [lia |]. intros i Hi.
  unfold uuid.UUID_of_bytes, uuid.int.
  rewrite Z.lor_spec, Z.land_spec, Z.lor_spec, Z.land_spec.
  rewrite (testbit_above (int_from_bytes bs) 128 i) by lia.
  rewrite (testbit_above (Z.shiftl 32768 48) 128 i) by (cbn; lia).
  rewrite (testbit_above (Z.shiftl 4 76) 128 i) by (cbn; lia).
  reflexivity.
Qed.

Lemma uuid_str_inj (u v : uuid.UUID) :
  0 <= uuid.int u < 2 ^ 128 -> 0 <= uuid.int v < 2 ^ 128 ->
  uuid.str u = uuid.str v -> u = v.
Proof.
  intros Ru Rv H. unfold uuid.str in H.
  apply hyphenated_inj in H; try apply hex_fixed_length.
  apply hex_fixed_inj in H.
  change (16 ^ Z.of_nat 32) with (2 ^ 128) in H.
  rewrite !Z.mod_small in H by assumption.
  destruct u, v. cbn in H. congruence.
Qed.

Lemma uuid4_draws_range (w : World) :
  0 <= uuid.int (tenant_draw w) < 2 ^ 128
  /\ 0 <= uuid.int (user_draw w) < 2 ^ 128.
Proof.
  unfold tenant_draw, user_draw, uuid4_draws, key_at. cbn [fst snd].
  split; apply UUID_of_bytes_range; rewrite length_map, length_seq;
    reflexivity.
Qed.

(* ================================================================== *)
(** * The time claims of the mapping *)

Lemma timedelta_24_is_86400_seconds :
  datetime.timedelta 24 = 86400 * 1000000.
Proof. reflexivity. Qed.

Lemma payload_times (w : World) (g : Globals) :
  returned (script w) = Some g ->
  claim_datetime (payload g) "iat" = Some (first_reading w)
  /\ claim_datetime (payload g) "exp"
     = Some (second_reading w + datetime.timedelta 24).
Proof.
  intros H. apply script_returns in H as (_ & _ & _ & _ & _ & P & _).
  rewrite P. split; reflexivity.
Qed.

Lemma payload_exp_minus_iat (w : World) (g : Globals) :
  returned (script w) = Some g ->
  exp_minus_iat (payload g)
  = Some (second_reading w + datetime.timedelta 24 - first_reading w).
Proof.
  intros H. apply payload_times in H as [Hi He].
  unfold exp_minus_iat. rewrite Hi, He. reflexivity.
Qed.

(** C1, as stated, does not hold: in the run of [ticking_world] the
    clock advances by one microsecond between the two readings, and
    ["exp"] is 24 hours and one microsecond after ["iat"]. *)
Lemma exp_minus_iat_not_always_24h :
  ~ (forall (w : World) (g : Globals),
        returned (script w) = Some g ->
        exp_minus_iat (payload g) = Some (datetime.timedelta 24)).
Proof.
  intros H. specialize (H ticking_world ticking_globals ticking_run).
  vm_compute in H. discriminate H.
Qed.

(** Under the proviso of C7, the ["exp"] of the claims mapping is
    strictly later than its ["iat"]. *)
Lemma payload_exp_later_than_iat (w : World) (g : Globals) :
  returned (script w) = Some g ->
  first_reading w - second_reading w < datetime.timedelta 24 ->
  exists i e : Z,
    claim_datetime (payload g) "iat" = Some i
    /\ claim_datetime (payload g) "exp" = Some e
    /\ i < e.
Proof.
  intros H B. apply payload_times in H as [Hi He].
  exists (first_reading w), (second_reading w + datetime.timedelta 24).
  repeat split; try assumption. lia.
Qed.

(** C10: ["iat"] is the first clock reading and ["exp"] is the second
    one plus 24 hours; so under a clock that does not go back, ["exp"]
    minus ["iat"] is at least 24 hours, and exactly 24 hours if and only
    if the two readings are the same instant. *)
Theorem exp_minus_iat_under_monotone_clock (w : World) (g : Globals) :
  returned (script w) = Some g ->
  first_reading w <= second_reading w ->
  claim_datetime (payload g) "iat" = Some (first_reading w)
  /\ claim_datetime (payload g) "exp"
     = Some (second_reading w + datetime.timedelta 24)
  /\ exists d : Z,
       exp_minus_iat (payload g) = Some d
       /\ datetime.timedelta 24 <= d
       /\ (d = datetime.timedelta 24 <-> first_reading w = second_reading w).
Proof.
  intros H Mono.
  pose proof (payload_exp_minus_iat w g H) as D.
  apply payload_times in H as [Hi He].
  repeat split; try assumption.
  exists (second_reading w + datetime.timedelta 24 - first_reading w).
  repeat split; try assumption; lia.
Qed.

Lemma exp_minus_iat_under_monotone_clock_witness :
  claim_datetime (payload ticking_globals) "iat"
  = Some (first_reading ticking_world)
  /\ claim_datetime (payload ticking_globals) "exp"
     = Some (second_reading ticking_world + datetime.timedelta 24)
  /\ exists d : Z,
       exp_minus_iat (payload ticking_globals) = Some d
       /\ datetime.timedelta 24 <= d
       /\ (d = datetime.timedelta 24
           <-> first_reading ticking_world = second_reading ticking_world).
Proof.
  apply (exp_minus_iat_under_monotone_clock ticking_world ticking_globals).
  - vm_compute. reflexivity.
  - vm_compute. discriminate.
Defined.

(* ================================================================== *)
(** * Identifiers *)

Lemma payload_identifiers (w : World) (g : Globals) :
  returned (script w) = Some g ->
  claim_str (payload g) "sub" = Some (uuid.str (user_draw w))
  /\ claim_str (payload g) "tenant_id" = Some (uuid.str (tenant_draw w))
  /\ claim_str (payload g) "org_id" = Some (uuid.str (tenant_draw w)).
Proof.
  intros H. apply script_returns in H as (_ & _ & _ & _ & _ & P & _).
  rewrite P. repeat split; reflexivity.
Qed.

(** C9: the ["sub"] and ["tenant_id"] of a run are the texts of the
    UUIDs that this run drew with [uuid4]; two runs whose draws differ
    have different ["sub"] and different ["tenant_id"]. *)
Theorem distinct_draws_give_distinct_identifiers
        (w1 w2 : World) (g1 g2 : Globals) :
  returned (script w1) = Some g1 ->
  returned (script w2) = Some g2 ->
  tenant_draw w1 <> tenant_draw w2 ->
  user_draw w1 <> user_draw w2 ->
  claim_str (payload g1) "sub" = Some (uuid.str (user_draw w1))
  /\ claim_str (payload g2) "sub" = Some (uuid.str (user_draw w2))
  /\ claim_str (payload g1) "tenant_id" = Some (uuid.str (tenant_draw w1))
  /\ claim_str (payload g2) "tenant_id" = Some (uuid.str (tenant_draw w2))
  /\ claim_str (payload g1) "sub" <> claim_str (payload g2) "sub"
  /\ claim_str (payload g1) "tenant_id" <> claim_str (payload g2) "tenant_id".
Proof.
  intros H1 H2 DT DU.
  apply payload_identifiers in H1 as (S1 & T1 & _).
  apply payload_identifiers in H2 as (S2 & T2 & _).
  destruct (uuid4_draws_range w1) as [RT1 RU1].
  destruct (uuid4_draws_range w2) as [RT2 RU2].
  repeat split; try assumption.
  - rewrite S1, S2. intros E. apply Some_inj in E.
    apply DU. apply uuid_str_inj; assumption.
  - rewrite T1, T2. intros E. apply Some_inj in E.
    apply DT. apply uuid_str_inj; assumption.
Qed.

Lemma distinct_draws_give_distinct_identifiers_witness :
  claim_str (payload ticking_globals) "sub"
  = Some (uuid.str (user_draw ticking_world))
  /\ claim_str (payload steady_globals) "sub"
     = Some (uuid.str (user_draw steady_world))
  /\ claim_str (payload ticking_globals) "tenant_id"
     = Some (uuid.str (tenant_draw ticking_world))
  /\ claim_str (payload steady_globals) "tenant_id"
     = Some (uuid.str (tenant_draw steady_world))
  /\ claim_str (payload ticking_globals) "sub"
     <> claim_str (payload steady_globals) "sub"
  /\ claim_str (payload ticking_globals) "tenant_id"
     <> claim_str (payload steady_globals) "tenant_id".
Proof.
  apply (distinct_draws_give_distinct_identifiers
           ticking_world steady_world ticking_globals steady_globals).
  - vm_compute. reflexivity.
  - vm_compute. reflexivity.
  - vm_compute. discriminate.
  - vm_compute. discriminate.
Defined.

(* ================================================================== *)
(** * base64url *)

(** A check made for every number below [n] holds for each of them. *)
Lemma checked_below (P : Z -> bool) (n : nat) :
  forallb (fun k => P (Z.of_nat k)) (seq 0 n) = true ->
  forall i : Z, 0 <= i < Z.of_nat n -> P i = true.
Proof.
  intros H i Hi. rewrite forallb_forall in H.
  specialize (H (Z.to_nat i)). rewrite Z2Nat.id in H by lia.
  apply H. apply in_seq. lia.
Qed.

Lemma url_char_facts (i : Z) :
  0 <= i < 64 ->
  base64.is_pad (url_char i) = false
  /\ is_base64url_char (url_char i) = true
  /\ base64.is_pad (base64.urlsafe_decode_translation (url_char i)) = false
  /\ base64.b64index (base64.urlsafe_decode_translation (url_char i))
     = Some i.
Proof.
  intros Hi.
  pose (P := fun i : Z =>
    negb (base64.is_pad (url_char i))
    && is_base64url_char (url_char i)
    && negb (base64.is_pad (base64.urlsafe_decode_translation (url_char i)))
    && match base64.b64index
               (base64.urlsafe_decode_translation (url_char i)) with
       | Some j => j =? i
       | None => false
       end).
  assert (H : P i = true).
  { apply (checked_below P 64); [vm_compute; reflexivity | exact Hi]. }
  unfold P in H.
  apply andb_prop in H as [H H4]. apply andb_prop in H as [H H3].
  apply andb_prop in H as [H1 H2].
  apply negb_true_iff in H1, H3.
  destruct (base64.b64index _) as [j |]; [| discriminate H4].
  apply Z.eqb_eq in H4. subst j. auto.
Qed.

(** The four six-bit values of a 24-bit group. *)
Lemma sextets (n : Z) :
  0 <= n < 2 ^ 24 ->
  0 <= Z.shiftr n 18 < 64
  /\ 0 <= Z.land (Z.shiftr n 12) 63 < 64
  /\ 0 <= Z.land (Z.shiftr n 6) 63 < 64
  /\ 0 <= Z.land n 63 < 64
  /\ ((Z.shiftr n 18 * 64 + Z.land (Z.shiftr n 12) 63) * 64
      + Z.land (Z.shiftr n 6) 63) * 64 + Z.land n 63 = n.
Proof.
  intros Hn. change 63 with (Z.ones 6).
  rewrite !Z.land_ones, !Z.shiftr_div_pow2 by lia.
  change (2 ^ 24) with 16777216 in Hn.
  change (2 ^ 18) with 262144. change (2 ^ 12) with 4096.
  change (2 ^ 6) with 64.
  repeat split; try (apply Z.mod_pos_bound; lia);
    try (apply Z.div_pos; lia);
    try (apply Z.div_lt_upper_bound; lia).
  Z.div_mod_to_equations. lia.
Qed.

Lemma group_of_three (a b c : byte) :
  Z.lor (Z.lor (Z.shiftl (Z_of_byte a) 16) (Z.shiftl (Z_of_byte b) 8))
        (Z_of_byte c)
  = Z_of_byte a * 65536 + Z_of_byte b * 256 + Z_of_byte c.
Proof.
  pose proof (Z_of_byte_range a). pose proof (Z_of_byte_range b).
  pose proof (Z_of_byte_range c).
  assert (E1 : Z.shiftl (Z_of_byte b) 8 = Z_of_byte b * 256)
    by (rewrite Z.shiftl_mul_pow2 by lia; reflexivity).
  assert (E2 : Z.lor (Z.shiftl (Z_of_byte a) 16) (Z_of_byte b * 256)
               = Z_of_byte a * 65536 + Z_of_byte b * 256).
  { rewrite lor_shiftl_add; change (2 ^ 16) with 65536; lia. }
  assert (E3 : Z_of_byte a * 65536 + Z_of_byte b * 256
               = Z.shiftl (Z_of_byte a * 256 + Z_of_byte b) 8).
  { rewrite Z.shiftl_mul_pow2 by lia. change (2 ^ 8) with 256. lia. }
  rewrite E1, E2, E3.
  rewrite lor_shiftl_add; change (2 ^ 8) with 256; lia.
Qed.

Lemma group_of_two (a b : byte) :
  Z.lor (Z.shiftl (Z_of_byte a) 16) (Z.shiftl (Z_of_byte b) 8)
  = Z_of_byte a * 65536 + Z_of_byte b * 256.
Proof.
  pose proof (group_of_three a b x00) as H.
  change (Z_of_byte x00) with 0 in H.
  rewrite Z.lor_0_r, Z.add_0_r in H. exact H.
Qed.

Lemma byte_of_Z_eq (z : Z) (b : byte) :
  z mod 256 = Z_of_byte b -> byte_of_Z z = b.
Proof.
  intros H. rewrite <- byte_of_Z_mod, H. apply byte_of_Z_of_byte.
Qed.

(** Decoding one full group gives back its three bytes. *)
Lemma regroup_three (a b c : byte) (s0 s1 s2 s3 : Z) :
  let n := Z_of_byte a * 65536 + Z_of_byte b * 256 + Z_of_byte c in
  0 <= s1 < 64 -> 0 <= s2 < 64 -> 0 <= s3 < 64 ->
  ((s0 * 64 + s1) * 64 + s2) * 64 + s3 = n ->
  let m := Z.lor (Z.shiftl (Z.lor (Z.shiftl (Z.lor (Z.shiftl s0 6) s1) 6) s2)
                           6) s3 in
  byte_of_Z (Z.shiftr m 16) = a /\ byte_of_Z (Z.shiftr m 8) = b
  /\ byte_of_Z m = c.
Proof.
  intros n H1 H2 H3 E m.
  pose proof (Z_of_byte_range a). pose proof (Z_of_byte_range b).
  pose proof (Z_of_byte_range c).
  assert (Em : m = n).
  { unfold m. rewrite !lor_shiftl_add by (change (2 ^ 6) with 64; lia).
    change (2 ^ 6) with 64. exact E. }
  rewrite Em, !Z.shiftr_div_pow2 by lia.
  change (2 ^ 16) with 65536. change (2 ^ 8) with 256. unfold n.
  repeat split; apply byte_of_Z_eq; Z.div_mod_to_equations; lia.
Qed.

Lemma b64decode_group (c0 c1 c2 c3 : byte) (rest : list byte) :
  base64.b64decode (c0 :: c1 :: c2 :: c3 :: rest)
  = match base64.b64index c0, base64.b64index c1 with
    | Some va, Some vb =>
        if base64.is_pad c2 && base64.is_pad c3 then
          match rest with
          | [] => Some [byte_of_Z (Z.shiftr (Z.lor (Z.shiftl va 6) vb) 4)]
          | _ => None
          end
        else match base64.b64index c2 with
        | Some vc =>
            let n3 := Z.lor (Z.shiftl (Z.lor (Z.shiftl va 6) vb) 6) vc in
            if base64.is_pad c3 then
              match rest with
              | [] => Some [byte_of_Z (Z.shiftr n3 10);
                            byte_of_Z (Z.shiftr n3 2)]
              | _ => None
              end
            else match base64.b64index c3 with
            | Some vd =>
                let n := Z.lor (Z.shiftl n3 6) vd in
                option_map
                  (fun r => byte_of_Z (Z.shiftr n 16)
                              :: byte_of_Z (Z.shiftr n 8)
                              :: byte_of_Z n :: r)
                  (base64.b64decode rest)
            | None => None
            end
        | None => None
        end
    | _, _ => None
    end.
Proof. reflexivity. Qed.

(** Lists, three elements at a time. *)
Lemma list_ind3 {A : Type} (P : list A -> Prop) :
  P [] -> (forall a, P [a]) -> (forall a b, P [a; b]) ->
  (forall a b c l, P l -> P (a :: b :: c :: l)) ->
  forall l, P l.
Proof.
  intros H0 H1 H2 H3.
  fix IH 1.
  intros [| a [| b [| c l]]];
    [exact H0 | apply H1 | apply H2 | apply H3; apply IH].
Qed.

(** What [base64url_encode] emits for a full group and for the two
    kinds of last group. *)
Lemma base64url_encode_three (a b c : byte) (l : list byte) :
  let n := Z_of_byte a * 65536 + Z_of_byte b * 256 + Z_of_byte c in
  jwt.base64url_encode (a :: b :: c :: l)
  = url_char (Z.shiftr n 18) :: url_char (Z.land (Z.shiftr n 12) 63)
      :: url_char (Z.land (Z.shiftr n 6) 63) :: url_char (Z.land n 63)
      :: jwt.base64url_encode l.
Proof.
  intros n. pose proof (Z_of_byte_range a). pose proof (Z_of_byte_range b).
  pose proof (Z_of_byte_range c).
  assert (Hn : 0 <= n < 2 ^ 24) by (change (2 ^ 24) with 16777216; lia).
  destruct (sextets n Hn) as (S0 & S1 & S2 & S3 & _).
  unfold jwt.base64url_encode, base64.urlsafe_b64encode.
  cbn [base64.b64encode map]. rewrite group_of_three. fold n.
  fold (url_char (Z.shiftr n 18)). fold (url_char (Z.land (Z.shiftr n 12) 63)).
  fold (url_char (Z.land (Z.shiftr n 6) 63)). fold (url_char (Z.land n 63)).
  cbn [filter].
  rewrite (proj1 (url_char_facts _ S0)), (proj1 (url_char_facts _ S1)),
    (proj1 (url_char_facts _ S2)), (proj1 (url_char_facts _ S3)).
  reflexivity.
Qed.

Lemma base64url_encode_two (a b : byte) :
  let n := Z_of_byte a * 65536 + Z_of_byte b * 256 in
  jwt.base64url_encode [a; b]
  = [url_char (Z.shiftr n 18); url_char (Z.land (Z.shiftr n 12) 63);
     url_char (Z.land (Z.shiftr n 6) 63)].
Proof.
  intros n. pose proof (Z_of_byte_range a). pose proof (Z_of_byte_range b).
  assert (Hn : 0 <= n < 2 ^ 24) by (change (2 ^ 24) with 16777216; lia).
  destruct (sextets n Hn) as (S0 & S1 & S2 & _).
  unfold jwt.base64url_encode, base64.urlsafe_b64encode.
  cbn [base64.b64encode map]. rewrite group_of_two. fold n.
  fold (url_char (Z.shiftr n 18)). fold (url_char (Z.land (Z.shiftr n 12) 63)).
  fold (url_char (Z.land (Z.shiftr n 6) 63)).
  cbn [filter].
  rewrite (proj1 (url_char_facts _ S0)), (proj1 (url_char_facts _ S1)),
    (proj1 (url_char_facts _ S2)).
  reflexivity.
Qed.

Lemma base64url_encode_one (a : byte) :
  let n := Z_of_byte a * 65536 in
  jwt.base64url_encode [a]
  = [url_char (Z.shiftr n 18); url_char (Z.land (Z.shiftr n 12) 63)].
Proof.
  intros n. pose proof (Z_of_byte_range a).
  assert (Hn : 0 <= n < 2 ^ 24) by (change (2 ^ 24) with 16777216; lia).
  destruct (sextets n Hn) as (S0 & S1 & _).
  unfold jwt.base64url_encode, base64.urlsafe_b64encode.
  cbn [base64.b64encode map].
  rewrite (Z.shiftl_mul_pow2 _ 16) by lia. change (2 ^ 16) with 65536.
  fold n.
  fold (url_char (Z.shiftr n 18)). fold (url_char (Z.land (Z.shiftr n 12) 63)).
  cbn [filter].
  rewrite (proj1 (url_char_facts _ S0)), (proj1 (url_char_facts _ S1)).
  reflexivity.
Qed.

(** The padding that [base64url_decode] restores. *)
Lemma base64url_decode_group (c0 c1 c2 c3 : byte) (r : list byte) :
  jwt.base64url_decode (c0 :: c1 :: c2 :: c3 :: r)
  = base64.b64decode
      (map base64.urlsafe_decode_translation [c0; c1; c2; c3]
         ++ map base64.urlsafe_decode_translation
              (if (0 <? List.length r mod 4)%nat
               then r ++ repeat "="%byte (4 - List.length r mod 4)
               else r)).
Proof.
  unfold jwt.base64url_decode, base64.urlsafe_b64decode.
  replace (List.length (c0 :: c1 :: c2 :: c3 :: r) mod 4)%nat
    with (List.length r mod 4)%nat.
  - destruct (0 <? List.length r mod 4)%nat; reflexivity.
  - cbn [List.length].
    replace (S (S (S (S (List.length r))))) with (List.length r + 1 * 4)%nat
      by lia.
    rewrite Nat.Div0.mod_add. reflexivity.
Qed.

(** What was encoded is what is decoded. *)
Theorem base64url_decode_encode (bs : list byte) :
  jwt.base64url_decode (jwt.base64url_encode bs) = Some bs.
Proof.
  induction bs as [| a | a b | a b c l IH] using list_ind3.
  - reflexivity.
  - rewrite base64url_encode_one.
    pose proof (Z_of_byte_range a) as Ra.
    set (n := Z_of_byte a * 65536).
    assert (Hn : 0 <= n < 2 ^ 24)
      by (unfold n; change (2 ^ 24) with 16777216; lia).
    destruct (sextets n Hn) as (S0 & S1 & _ & _ & _).
    destruct (url_char_facts _ S0) as (_ & _ & P0 & I0).
    destruct (url_char_facts _ S1) as (_ & _ & P1 & I1).
    unfold jwt.base64url_decode, base64.urlsafe_b64decode.
    cbn [List.length Nat.modulo Nat.divmod Nat.ltb Nat.leb fst snd Nat.sub
         app repeat map].
    rewrite b64decode_group, I0, I1.
    change (base64.is_pad (base64.urlsafe_decode_translation "=")) with true.
    cbn [andb]. f_equal. f_equal.
    rewrite lor_shiftl_add by (change (2 ^ 6) with 64; lia).
    apply byte_of_Z_eq.
    change 63 with (Z.ones 6). rewrite Z.land_ones by lia.
    rewrite !Z.shiftr_div_pow2 by lia. unfold n.
    change (2 ^ 18) with 262144. change (2 ^ 12) with 4096.
    change (2 ^ 6) with 64. change (2 ^ 4) with 16.
    Z.div_mod_to_equations. lia.
  - rewrite base64url_encode_two.
    pose proof (Z_of_byte_range a) as Ra. pose proof (Z_of_byte_range b) as Rb.
    set (n := Z_of_byte a * 65536 + Z_of_byte b * 256).
    assert (Hn : 0 <= n < 2 ^ 24)
      by (unfold n; change (2 ^ 24) with 16777216; lia).
    destruct (sextets n Hn) as (S0 & S1 & S2 & _ & _).
    destruct (url_char_facts _ S0) as (_ & _ & P0 & I0).
    destruct (url_char_facts _ S1) as (_ & _ & P1 & I1).
    destruct (url_char_facts _ S2) as (_ & _ & P2 & I2).
    unfold jwt.base64url_decode, base64.urlsafe_b64decode.
    cbn [List.length Nat.modulo Nat.divmod Nat.ltb Nat.leb fst snd Nat.sub
         app repeat map].
    rewrite b64decode_group, I0, I1, I2, P2.
    change (base64.is_pad (base64.urlsafe_decode_translation "=")) with true.
    cbn [andb]. cbv zeta.
    rewrite !lor_shiftl_add by (change (2 ^ 6) with 64; lia).
    f_equal. f_equal; [| f_equal]; apply byte_of_Z_eq;
      change 63 with (Z.ones 6); rewrite !Z.land_ones by lia;
      rewrite !Z.shiftr_div_pow2 by lia; unfold n;
      change (2 ^ 18) with 262144; change (2 ^ 12) with 4096;
      change (2 ^ 6) with 64; change (2 ^ 10) with 1024;
      change (2 ^ 2) with 4;
      Z.div_mod_to_equations; lia.
  - rewrite base64url_encode_three.
    pose proof (Z_of_byte_range a) as Ra. pose proof (Z_of_byte_range b) as Rb.
    pose proof (Z_of_byte_range c) as Rc.
    set (n := Z_of_byte a * 65536 + Z_of_byte b * 256 + Z_of_byte c).
    assert (Hn : 0 <= n < 2 ^ 24)
      by (unfold n; change (2 ^ 24) with 16777216; lia).
    destruct (sextets n Hn) as (S0 & S1 & S2 & S3 & E).
    destruct (url_char_facts _ S0) as (_ & _ & P0 & I0).
    destruct (url_char_facts _ S1) as (_ & _ & P1 & I1).
    destruct (url_char_facts _ S2) as (_ & _ & P2 & I2).
    destruct (url_char_facts _ S3) as (_ & _ & P3 & I3).
    rewrite base64url_decode_group. cbn [map app].
    rewrite b64decode_group, I0, I1, I2, I3, P2, P3. cbn [andb]. cbv zeta.
    unfold jwt.base64url_decode, base64.urlsafe_b64decode in IH.
    rewrite IH. cbn [option_map].
    destruct (regroup_three a b c _ _ _ _ S1 S2 S3 E) as (Ea & Eb & Ec).
    rewrite Ea, Eb, Ec. reflexivity.
Qed.

(** The characters of a segment. *)
Lemma base64url_encode_chars (bs : list byte) :
  forallb is_base64url_char (jwt.base64url_encode bs) = true.
Proof.
  induction bs as [| a | a b | a b c l IH] using list_ind3.
  - reflexivity.
  - rewrite base64url_encode_one.
    pose proof (Z_of_byte_range a) as Ra.
    set (n := Z_of_byte a * 65536).
    assert (Hn : 0 <= n < 2 ^ 24)
      by (unfold n; change (2 ^ 24) with 16777216; lia).
    destruct (sextets n Hn) as (S0 & S1 & _ & _ & _).
    cbn [forallb].
    rewrite (proj1 (proj2 (url_char_facts _ S0))),
      (proj1 (proj2 (url_char_facts _ S1))). reflexivity.
  - rewrite base64url_encode_two.
    pose proof (Z_of_byte_range a) as Ra. pose proof (Z_of_byte_range b) as Rb.
    set (n := Z_of_byte a * 65536 + Z_of_byte b * 256).
    assert (Hn : 0 <= n < 2 ^ 24)
      by (unfold n; change (2 ^ 24) with 16777216; lia).
    destruct (sextets n Hn) as (S0 & S1 & S2 & _ & _).
    cbn [forallb].
    rewrite (proj1 (proj2 (url_char_facts _ S0))),
      (proj1 (proj2 (url_char_facts _ S1))),
      (proj1 (proj2 (url_char_facts _ S2))). reflexivity.
  - rewrite base64url_encode_three.
    pose proof (Z_of_byte_range a) as Ra. pose proof (Z_of_byte_range b) as Rb.
    pose proof (Z_of_byte_range c) as Rc.
    set (n := Z_of_byte a * 65536 + Z_of_byte b * 256 + Z_of_byte c).
    assert (Hn : 0 <= n < 2 ^ 24)
      by (unfold n; change (2 ^ 24) with 16777216; lia).
    destruct (sextets n Hn) as (S0 & S1 & S2 & S3 & _).
    cbn [forallb].
    rewrite (proj1 (proj2 (url_char_facts _ S0))),
      (proj1 (proj2 (url_char_facts _ S1))),
      (proj1 (proj2 (url_char_facts _ S2))),
      (proj1 (proj2 (url_char_facts _ S3))), IH. reflexivity.
Qed.

Lemma base64url_encode_nonempty (bs : list byte) :
  bs <> [] -> jwt.base64url_encode bs <> [].
Proof.
  destruct bs as [| a [| b [| c l]]]; intros H.
  - contradiction.
  - rewrite base64url_encode_one. discriminate.
  - rewrite base64url_encode_two. discriminate.
  - rewrite base64url_encode_three. discriminate.
Qed.

Lemma base64url_encode_is_segment (bs : list byte) :
  bs <> [] -> is_base64url_segment (jwt.base64url_encode bs).
Proof.
  intros H. repeat split.
  - apply base64url_encode_nonempty, H.
  - apply base64url_encode_chars.
  - rewrite base64url_decode_encode. discriminate.
Qed.

(** Such characters are ASCII and none is a period. *)
Lemma base64url_char_facts (c : byte) :
  is_base64url_char c = true ->
  Byte.eqb c "." = false /\ (Z_of_byte c <? 128) = true.
Proof.
  destruct c; intros H; first [discriminate H | split; reflexivity].
Qed.

(* ================================================================== *)
(** * str and bytes *)

Lemma append_assoc (a b c : string) :
  ((a ++ b) ++ c = a ++ (b ++ c))%string.
Proof.
  induction a as [| x a IH]; cbn; [reflexivity | rewrite IH; reflexivity].
Qed.

Lemma length_append (a b : string) :
  String.length (a ++ b)%string = (String.length a + String.length b)%nat.
Proof.
  induction a as [| x a IH]; cbn; [reflexivity | rewrite IH; reflexivity].
Qed.

Lemma str_encode_app (a b : string) :
  str_encode (a ++ b)%string = str_encode a ++ str_encode b.
Proof.
  induction a as [| x a IH]; cbn [String.append str_encode app].
  - reflexivity.
  - rewrite IH, app_assoc. reflexivity.
Qed.

(** Decoding undoes encoding, character by character. *)
Lemma bytes_decode_utf8_char (c : ascii) (rest : list byte) :
  bytes_decode (utf8_char c ++ rest)
  = option_map (String c) (bytes_decode rest).
Proof.
  destruct c as [[|] [|] [|] [|] [|] [|] [|] [|]]; reflexivity.
Qed.

Theorem bytes_decode_str_encode (s : string) :
  bytes_decode (str_encode s) = Some s.
Proof.
  induction s as [| c s IH]; [reflexivity |].
  cbn [str_encode]. rewrite bytes_decode_utf8_char, IH. reflexivity.
Qed.

(** On ASCII bytes, decoding is the identity on the text. *)
Lemma ascii_byte_char (b : byte) :
  is_ascii_byte b = true ->
  chr (Z_of_byte b) = ascii_of_byte b /\ utf8_char (ascii_of_byte b) = [b].
Proof.
  destruct b; intros H; first [discriminate H | split; reflexivity].
Qed.

Lemma bytes_decode_ascii (bs : list byte) :
  forallb is_ascii_byte bs = true ->
  bytes_decode bs = Some (string_of_list_byte bs)
  /\ str_encode (string_of_list_byte bs) = bs.
Proof.
  induction bs as [| b bs IH]; intros H; [split; reflexivity |].
  cbn [forallb] in H. apply andb_prop in H as [Hb Hbs].
  destruct (IH Hbs) as [D E].
  destruct (ascii_byte_char b Hb) as [C U].
  split.
  - cbn [bytes_decode]. unfold is_ascii_byte in Hb. rewrite Hb, D, C.
    reflexivity.
  - change (string_of_list_byte (b :: bs))
      with (String (ascii_of_byte b) (string_of_list_byte bs)).
    cbn [str_encode]. rewrite U, E. reflexivity.
Qed.

(** ** Splitting at periods *)

Lemma split_once_app (h r : list byte) :
  no_period h = true ->
  jwt.split_once "." (h ++ "."%byte :: r) = Some (h, r).
Proof.
  induction h as [| b h IH]; intros H.
  - reflexivity.
  - cbn [no_period forallb] in H. apply andb_prop in H as [Hb Hh].
    apply negb_true_iff in Hb.
    cbn [app jwt.split_once]. rewrite Hb, (IH Hh). reflexivity.
Qed.

Lemma no_period_rev (s : list byte) :
  no_period s = true -> no_period (List.rev s) = true.
Proof.
  unfold no_period. rewrite !forallb_forall. intros H x Hx.
  apply H. apply in_rev. exact Hx.
Qed.

Lemma rsplit_once_app (x s : list byte) :
  no_period s = true ->
  jwt.rsplit_once "." (x ++ "."%byte :: s) = Some (x, s).
Proof.
  intros H. unfold jwt.rsplit_once.
  rewrite rev_app_distr. cbn [List.rev]. rewrite <- app_assoc. cbn [app].
  rewrite split_once_app by (apply no_period_rev, H).
  rewrite !rev_involutive. reflexivity.
Qed.

Lemma bytes_split_no_period (s : list byte) :
  no_period s = true -> jwt.bytes_split "." s = [s].
Proof.
  induction s as [| b s IH]; intros H; [reflexivity |].
  cbn [no_period forallb] in H. apply andb_prop in H as [Hb Hs].
  apply negb_true_iff in Hb.
  cbn [jwt.bytes_split]. rewrite Hb, (IH Hs). reflexivity.
Qed.

Lemma bytes_split_app (h r : list byte) :
  no_period h = true ->
  jwt.bytes_split "." (h ++ "."%byte :: r) = h :: jwt.bytes_split "." r.
Proof.
  induction h as [| b h IH]; intros H.
  - reflexivity.
  - cbn [no_period forallb] in H. apply andb_prop in H as [Hb Hh].
    apply negb_true_iff in Hb.
    cbn [app jwt.bytes_split]. rewrite Hb, (IH Hh). reflexivity.
Qed.

Lemma base64url_no_period (bs : list byte) :
  forallb is_base64url_char bs = true -> no_period bs = true.
Proof.
  unfold no_period. rewrite !forallb_forall. intros H x Hx.
  apply negb_true_iff. apply base64url_char_facts. apply H, Hx.
Qed.

Lemma base64url_ascii (bs : list byte) :
  forallb is_base64url_char bs = true -> forallb is_ascii_byte bs = true.
Proof.
  rewrite !forallb_forall. intros H x Hx.
  apply base64url_char_facts. apply H, Hx.
Qed.

(* ================================================================== *)
(** * json: reading back what was written *)

(** ** Strings *)

Lemma scanstring_escape_char (c : ascii) (rest : string) :
  json.scanstring (json.escape_char c ++ rest)
  = match json.scanstring rest with
    | Some (t, r) => Some (String c t, r)
    | None => None
    end.
Proof.
  destruct c as [[|] [|] [|] [|] [|] [|] [|] [|]]; reflexivity.
Qed.

Lemma scanstring_escape (s rest : string) :
  json.scanstring (json.escape s ++ String dquote rest) = Some (s, rest).
Proof.
  induction s as [| c s IH]; [reflexivity |].
  cbn [json.escape]. rewrite append_assoc, scanstring_escape_char, IH.
  reflexivity.
Qed.

Lemma encode_basestring_ascii_app (s rest : string) :
  (json.encode_basestring_ascii s ++ rest
   = String dquote (json.escape s ++ String dquote rest))%string.
Proof.
  unfold json.encode_basestring_ascii. cbn [String.append].
  rewrite append_assoc. reflexivity.
Qed.

Lemma scan_value_quote (r : string) :
  json.scan_value (String dquote r)
  = match json.scanstring r with
    | Some (t, rest) => Some (Str t, rest)
    | None => None
    end.
Proof. reflexivity. Qed.

Lemma scan_value_str (s rest : string) :
  json.scan_value (json.encode_basestring_ascii s ++ rest)
  = Some (Str s, rest).
Proof.
  rewrite encode_basestring_ascii_app, scan_value_quote, scanstring_escape.
  reflexivity.
Qed.

(** ** Integers *)

Lemma closes_value_facts (rest : string) :
  closes_value rest ->
  json.span_digits rest = (EmptyString, rest)
  /\ json.starts_float_part rest = false.
Proof.
  intros [r [-> | ->]]; split; reflexivity.
Qed.

Lemma span_digits_uint (d : Decimal.uint) (rest : string) :
  json.span_digits rest = (EmptyString, rest) ->
  json.span_digits (DecimalString.NilEmpty.string_of_uint d ++ rest)
  = (DecimalString.NilEmpty.string_of_uint d, rest).
Proof.
  intros H. induction d as [| d IH | d IH | d IH | d IH | d IH | d IH
                            | d IH | d IH | d IH | d IH];
    cbn [DecimalString.NilEmpty.string_of_uint String.append];
    [exact H | ..];
    cbn [json.span_digits]; rewrite IH; reflexivity.
Qed.

(** The decimal digits of a positive number do not start with a zero. *)
Lemma to_uint_normal (p : positive) (d' : Decimal.uint) :
  Pos.to_uint p <> Decimal.D0 d'.
Proof.
  pose proof (DecimalPos.Unsigned.to_of (Pos.to_uint p)) as H.
  rewrite DecimalPos.Unsigned.of_to in H. cbn [N.to_uint] in H.
  intros E.
  destruct (Decimal.nzhead (Pos.to_uint p)) eqn:N.
  1: { unfold Decimal.unorm in H. rewrite N in H.
       apply (DecimalPos.Unsigned.to_uint_nonzero p). exact H. }
  all: rewrite DecimalFacts.unorm_nzhead in H by (rewrite N; discriminate);
    rewrite E in H at 1; symmetry in H;
    apply (DecimalFacts.nzhead_nonzero _ _ H).
Qed.

Lemma written_digits_facts (d : Decimal.uint) (rest : string) :
  written_digits d ->
  DecimalString.NilZero.string_of_uint d
  = DecimalString.NilEmpty.string_of_uint d
  /\ json.split_sign (DecimalString.NilEmpty.string_of_uint d ++ rest)
     = (EmptyString,
        (DecimalString.NilEmpty.string_of_uint d ++ rest)%string)
  /\ json.leading_zero (DecimalString.NilEmpty.string_of_uint d) = false.
Proof.
  intros [NN LZ].
  destruct d as [| d | d | d | d | d | d | d | d | d | d];
    [contradiction | ..];
    (split; [reflexivity |]); (split; [reflexivity |]);
    cbn [DecimalString.NilEmpty.string_of_uint json.leading_zero].
  - rewrite (LZ d eq_refl). reflexivity.
  - destruct (DecimalString.NilEmpty.string_of_uint d); reflexivity.
  - destruct (DecimalString.NilEmpty.string_of_uint d); reflexivity.
  - destruct (DecimalString.NilEmpty.string_of_uint d); reflexivity.
  - destruct (DecimalString.NilEmpty.string_of_uint d); reflexivity.
  - destruct (DecimalString.NilEmpty.string_of_uint d); reflexivity.
  - destruct (DecimalString.NilEmpty.string_of_uint d); reflexivity.
  - destruct (DecimalString.NilEmpty.string_of_uint d); reflexivity.
  - destruct (DecimalString.NilEmpty.string_of_uint d); reflexivity.
  - destruct (DecimalString.NilEmpty.string_of_uint d); reflexivity.
Qed.

Lemma to_int_written (z : Z) :
  exists d, written_digits d
            /\ (Z.to_int z = Decimal.Pos d \/ Z.to_int z = Decimal.Neg d).
Proof.
  destruct z as [| p | p].
  - exists (Decimal.D0 Decimal.Nil). split; [| left; reflexivity].
    split; [discriminate |]. intros d' E. injection E as <-. reflexivity.
  - exists (Pos.to_uint p). split; [| left; reflexivity].
    split; [apply DecimalPos.Unsigned.to_uint_nonnil |].
    intros d' E. exfalso. exact (to_uint_normal p d' E).
  - exists (Pos.to_uint p). split; [| right; reflexivity].
    split; [apply DecimalPos.Unsigned.to_uint_nonnil |].
    intros d' E. exfalso. exact (to_uint_normal p d' E).
Qed.

Lemma scan_int_intstr (z : Z) (rest : string) :
  closes_value rest ->
  json.scan_int (json.intstr z ++ rest) = Some (z, rest).
Proof.
  intros C. destruct (closes_value_facts rest C) as [SD FP].
  destruct (to_int_written z) as (d & W & E).
  destruct (written_digits_facts d rest W) as (NZ & SS & LZ).
  pose proof (DecimalZ.of_to z) as OT.
  unfold json.intstr, json.scan_int.
  destruct E as [E | E]; rewrite E in *;
    cbn [DecimalString.NilZero.string_of_int].
  - rewrite NZ, SS, (span_digits_uint d rest SD), LZ, FP. cbn [orb].
    cbn [String.append].
    rewrite <- NZ.
    change (DecimalString.NilZero.string_of_uint d)
      with (DecimalString.NilZero.string_of_int (Decimal.Pos d)).
    rewrite DecimalString.NilZero.isi.
    + rewrite OT. reflexivity.
    + intros X. injection X as X. apply (proj1 W). exact X.
    + discriminate.
  - rewrite NZ. cbn [String.append json.split_sign].
    change (ord "-" =? 45) with true. cbv iota.
    rewrite (span_digits_uint d rest SD), LZ, FP. cbn [orb].
    cbn [String.append]. rewrite <- NZ.
    change (String "-" (DecimalString.NilZero.string_of_uint d))
      with (DecimalString.NilZero.string_of_int (Decimal.Neg d)).
    rewrite DecimalString.NilZero.isi.
    + rewrite OT. reflexivity.
    + discriminate.
    + intros X. injection X as X. apply (proj1 W). exact X.
Qed.

Lemma intstr_head (z : Z) (rest : string) :
  exists c r, (json.intstr z ++ rest)%string = String c r
              /\ (ord c =? 34) = false.
Proof.
  destruct (to_int_written z) as (d & [NN _] & E).
  unfold json.intstr.
  destruct E as [E | E]; rewrite E;
    cbn [DecimalString.NilZero.string_of_int].
  - destruct d as [| d | d | d | d | d | d | d | d | d | d];
      [contradiction | ..];
      cbn [DecimalString.NilZero.string_of_uint
             DecimalString.NilEmpty.string_of_uint String.append];
      eexists; eexists; (split; [reflexivity | reflexivity]).
  - cbn [String.append]. eexists; eexists; (split; [reflexivity | reflexivity]).
Qed.

Lemma scan_value_int (z : Z) (rest : string) :
  closes_value rest ->
  json.scan_value (json.intstr z ++ rest) = Some (Int z, rest).
Proof.
  intros C. pose proof (scan_int_intstr z rest C) as H.
  destruct (intstr_head z rest) as (c & r & E & Q).
  unfold json.scan_value. rewrite E in *. rewrite Q, H. reflexivity.
Qed.

(** Every value that [encode_value] writes is read back. *)
Lemma scan_value_encode (v : value) (ev rest : string) :
  json.encode_value v = inr ev ->
  closes_value rest ->
  json.scan_value (ev ++ rest) = Some (v, rest).
Proof.
  destruct v as [s | z | d]; cbn [json.encode_value]; intros E C.
  - injection E as <-. apply scan_value_str.
  - injection E as <-. apply scan_value_int, C.
  - discriminate E.
Qed.

(** ** Objects *)

Lemma scan_members_quote (n : nat) (r : string) (acc : dict) :
  json.scan_members (S n) (String dquote r) acc
  = match json.scanstring r with
    | Some (k, String colon r2) =>
        if ord colon =? 58 then
          match json.scan_value r2 with
          | Some (v, String d r3) =>
              if ord d =? 44
              then json.scan_members n r3 (dict_set acc k v)
              else if ord d =? 125 then
                match r3 with
                | EmptyString => Some (dict_set acc k v)
                | _ => None
                end
              else None
          | _ => None
          end
        else None
    | _ => None
    end.
Proof. reflexivity. Qed.

(** One member, followed by the text [body] of the remaining items. *)
Lemma scan_members_items (d : dict) :
  forall (k : string) (v : value) (ev body : string) (acc : dict) (n : nat),
    json.encode_value v = inr ev ->
    json.iterencode_items "," ":" false d = inr body ->
    (List.length d < n)%nat ->
    json.scan_members n
      (json.encode_basestring_ascii k ++ ":" ++ ev ++ body ++ "}")%string acc
    = Some (store_items ((k, v) :: d) acc).
Proof.
  induction d as [| [k' v'] d IH]; intros k v ev body acc n Ev Eb L.
  - cbn [json.iterencode_items] in Eb. injection Eb as <-.
    destruct n as [| n]; [inversion L |].
    rewrite encode_basestring_ascii_app, scan_members_quote,
      scanstring_escape.
    cbn [String.append]. change (ord ":" =? 58) with true. cbv iota.
    rewrite (scan_value_encode v ev (String "}" "") Ev)
      by (exists EmptyString; right; reflexivity).
    reflexivity.
  - cbn [json.iterencode_items] in Eb.
    destruct (json.encode_value v') as [e | ev'] eqn:Ev'; [discriminate Eb |].
    destruct (json.iterencode_items "," ":" false d) as [e | body'] eqn:Eb';
      [discriminate Eb |].
    injection Eb as <-.
    destruct n as [| n]; [inversion L |].
    cbn [List.length] in L.
    rewrite encode_basestring_ascii_app, scan_members_quote,
      scanstring_escape.
    cbn [String.append]. change (ord ":" =? 58) with true. cbv iota.
    rewrite !append_assoc. cbn [String.append].
    rewrite (scan_value_encode v ev _ Ev)
      by (eexists; left; reflexivity).
    change (ord "," =? 44) with true. cbv iota.
    rewrite (append_assoc ev' body').
    rewrite <- (encode_basestring_ascii_app k').
    assert (L' : (List.length d < n)%nat) by lia.
    exact (IH k' v' ev' body' (dict_set acc k v) n Ev' eq_refl L').
Qed.

(** A store into a dict that lacks the key appends the item. *)
Lemma dict_set_fresh (acc : dict) (k : string) (v : value) :
  ~ In k (dict_keys acc) -> dict_set acc k v = acc ++ [(k, v)].
Proof.
  induction acc as [| [k' v'] acc IH]; intros H; [reflexivity |].
  cbn [dict_set app]. cbn [dict_keys map fst In] in H.
  destruct (String.eqb_spec k' k) as [E | N].
  - exfalso. apply H. left. exact E.
  - rewrite IH; [reflexivity |]. intros I. apply H. right. exact I.
Qed.

Lemma store_items_distinct (d : dict) :
  forall acc : dict,
    NoDup (dict_keys (acc ++ d)) -> store_items d acc = acc ++ d.
Proof.
  induction d as [| [k v] d IH]; intros acc H.
  - cbn. rewrite app_nil_r. reflexivity.
  - unfold store_items. cbn [fold_left fst snd]. fold (store_items d).
    assert (F : ~ In k (dict_keys acc)).
    { unfold dict_keys in *. rewrite map_app in H. cbn [map fst] in H.
      apply NoDup_remove_2 in H. intros I. apply H.
      apply in_or_app. left. exact I. }
    rewrite (dict_set_fresh acc k v F).
    rewrite IH; rewrite <- app_assoc; [reflexivity | exact H].
Qed.

Lemma items_length (d : dict) (body : string) :
  json.iterencode_items "," ":" false d = inr body ->
  (List.length d <= String.length body)%nat.
Proof.
  revert body. induction d as [| [k v] d IH]; intros body E.
  - cbn. lia.
  - cbn [json.iterencode_items] in E.
    destruct (json.encode_value v) as [e | ev]; [discriminate E |].
    destruct (json.iterencode_items "," ":" false d) as [e | body'];
      [discriminate E |].
    injection E as <-. specialize (IH body' eq_refl).
    cbv iota. cbn [List.length String.append String.length].
    rewrite !length_append. cbn [String.append String.length].
    rewrite ?length_append. lia.
Qed.

Lemma loads_brace (r : string) :
  (2 <= String.length r)%nat ->
  json.loads (String "{" r) = json.scan_members (String.length r) r [].
Proof.
  destruct r as [| c1 [| c2 t]]; cbn [String.length]; intros H;
    [lia | lia | reflexivity].
Qed.

Lemma encode_basestring_ascii_length (s : string) :
  (2 <= String.length (json.encode_basestring_ascii s))%nat.
Proof.
  unfold json.encode_basestring_ascii. cbn [String.length].
  rewrite length_append. cbn [String.length]. lia.
Qed.

(** [json.loads] gives back every dict of strings and integers that
    [json.dumps] wrote in compact form. *)
Theorem loads_dumps (d : dict) (js : string) :
  NoDup (dict_keys d) ->
  json.dumps d "," ":" false = inr js ->
  json.loads js = Some d.
Proof.
  intros ND E. destruct d as [| [k v] d].
  - cbn in E. injection E as <-. reflexivity.
  - unfold json.dumps in E. cbn [json.iterencode_items] in E.
    destruct (json.encode_value v) as [e | ev] eqn:Ev; [discriminate E |].
    destruct (json.iterencode_items "," ":" false d) as [e | body] eqn:Eb;
      [discriminate E |].
    injection E as <-.
    pose proof (items_length d body Eb) as L.
    pose proof (encode_basestring_ascii_length k) as L2.
    change (json.loads
              (String "{"
                 ((json.encode_basestring_ascii k ++ ":" ++ ev ++ body)
                    ++ "}")) = Some ((k, v) :: d)).
    rewrite !append_assoc.
    rewrite loads_brace by (rewrite length_append; lia).
    rewrite (scan_members_items d k v ev body [] _ Ev Eb).
    + rewrite store_items_distinct by exact ND. reflexivity.
    + rewrite !length_append. cbn [String.length]. lia.
Qed.

(** After the time claims are converted, nothing is left that
    [json.dumps] refuses, and converting again changes nothing. *)
Lemma loads_bytes_dumps (d : dict) (js : string) :
  NoDup (dict_keys d) ->
  json.dumps d "," ":" false = inr js ->
  json.loads_bytes (str_encode js) = Some d.
Proof.
  intros ND E. unfold json.loads_bytes.
  rewrite bytes_decode_str_encode. apply loads_dumps; assumption.
Qed.

(* ================================================================== *)
(** * jwt: the shape of an encoded token *)

Lemma header_dumps :
  json.dumps (jwt.header "HS256") "," ":" true = inr header_json.
Proof. vm_compute. reflexivity. Qed.

Lemma header_b64_text :
  string_of_list_byte header_b64 = "eyJhbGciOiJIUzI1NiIsInR5cCI6IkpXVCJ9".
Proof. vm_compute. reflexivity. Qed.

Lemma header_loads :
  json.loads_bytes (str_encode header_json)
  = Some [("alg", Str "HS256"); ("typ", Str "JWT")].
Proof. vm_compute. reflexivity. Qed.

Lemma token_bytes_chars (js key : string) :
  forallb is_base64url_char header_b64 = true
  /\ forallb is_base64url_char (payload_b64 js) = true
  /\ forallb is_base64url_char (jwt.base64url_encode (signature_of js key))
     = true.
Proof.
  repeat split; apply base64url_encode_chars.
Qed.

Lemma token_bytes_ascii (js key : string) :
  forallb is_ascii_byte (token_bytes js key) = true.
Proof.
  destruct (token_bytes_chars js key) as (H & P & S).
  unfold token_bytes, signing_input_of.
  rewrite !forallb_app. cbn [forallb].
  rewrite (base64url_ascii _ H), (base64url_ascii _ P), (base64url_ascii _ S).
  reflexivity.
Qed.

(** [api_jws.encode] for HS256 joins the three segments with periods. *)
Lemma jws_encode_spec (js key : string) :
  jwt.jws_encode (str_encode js) key
  = inr (string_of_list_byte (token_bytes js key)).
Proof.
  unfold jwt.jws_encode. rewrite header_dumps.
  fold header_b64. fold (payload_b64 js).
  cbn [bytes_join app].
  change (header_b64 ++ "."%byte :: payload_b64 js) with (signing_input_of js).
  fold (signature_of js key).
  replace (header_b64 ++ "."%byte :: payload_b64 js ++ "."%byte
             :: jwt.base64url_encode (signature_of js key))
    with (token_bytes js key)
    by (unfold token_bytes, signing_input_of;
        rewrite <- app_assoc; reflexivity).
  rewrite (proj1 (bytes_decode_ascii _ (token_bytes_ascii js key))).
  reflexivity.
Qed.

(** [jwt.encode] when the issuer is a [str] and the converted claims
    serialize. *)
Lemma jwt_encode_spec (p : dict) (key js iss : string) :
  dict_get (issued_claims p) "iss" = Some (Str iss) ->
  json.dumps (issued_claims p) "," ":" false = inr js ->
  jwt.encode p key = inr (string_of_list_byte (token_bytes js key)).
Proof.
  intros I D. unfold jwt.encode. fold (issued_claims p).
  rewrite I, D. apply jws_encode_spec.
Qed.

(** [json.dumps] accepts every dict without datetimes. *)
Lemma iterencode_items_total (d : dict) (first : bool) :
  Forall (fun kv => forall t, snd kv <> Datetime t) d ->
  exists body, json.iterencode_items "," ":" first d = inr body.
Proof.
  revert first. induction d as [| [k v] d IH]; intros first H.
  - exists EmptyString. reflexivity.
  - inversion H as [| ? ? Hv Hd]; subst.
    destruct (IH false Hd) as [body Eb].
    cbn [json.iterencode_items]. rewrite Eb.
    destruct v as [s | z | t]; cbn [json.encode_value snd] in *.
    + eexists. reflexivity.
    + eexists. reflexivity.
    + exfalso. apply (Hv t). reflexivity.
Qed.

Lemma dumps_total (d : dict) :
  Forall (fun kv => forall t, snd kv <> Datetime t) d ->
  exists js, json.dumps d "," ":" false = inr js.
Proof.
  intros H. unfold json.dumps. destruct d as [| kv d].
  - eexists. reflexivity.
  - destruct (iterencode_items_total (kv :: d) true H) as [body E].
    rewrite E. eexists. reflexivity.
Qed.

(** Reading a token of that shape back. *)
Lemma load_token (js key : string) :
  jwt.load (string_of_list_byte (token_bytes js key))
  = Some (jwt.mkLoaded (str_encode js) (signing_input_of js)
            [("alg", Str "HS256"); ("typ", Str "JWT")]
            (signature_of js key)
            header_b64 (payload_b64 js)
            (jwt.base64url_encode (signature_of js key))).
Proof.
  destruct (token_bytes_chars js key) as (H & P & S).
  unfold jwt.load.
  rewrite (proj2 (bytes_decode_ascii _ (token_bytes_ascii js key))).
  unfold token_bytes.
  rewrite rsplit_once_app by (apply base64url_no_period, S).
  unfold signing_input_of.
  rewrite split_once_app by (apply base64url_no_period, H).
  unfold header_b64 at 1, payload_b64 at 1.
  rewrite !base64url_decode_encode, header_loads.
  reflexivity.
Qed.

(* ================================================================== *)
(** * The run as a whole *)

Lemma issued_claims_in (w : World) :
  issued_claims (payload_in w)
  = [("sub", Str (uuid.str (user_draw w)));
     ("tenant_id", Str (uuid.str (tenant_draw w)));
     ("org_id", Str (uuid.str (tenant_draw w)));
     ("email", Str "test@example.com");
     ("name", Str "Test User");
     ("iat", Int (datetime.timegm (first_reading w)));
     ("exp", Int (datetime.timegm
                    (second_reading w + datetime.timedelta 24)));
     ("iss", Str "https://dev-placeholder.local");
     ("aud", Str "subscription-engine")].
Proof. reflexivity. Qed.

Lemma issued_claims_keys (w : World) :
  dict_keys (issued_claims (payload_in w))
  = ["sub"; "tenant_id"; "org_id"; "email"; "name"; "iat"; "exp"; "iss";
     "aud"].
Proof. reflexivity. Qed.

Lemma issued_claims_distinct (w : World) :
  NoDup (dict_keys (issued_claims (payload_in w))).
Proof.
  rewrite issued_claims_keys.
  repeat (apply NoDup_cons;
          [cbn [In]; intros H;
           repeat (destruct H as [H | H]; [discriminate H |]); exact H |]).
  apply NoDup_nil.
Qed.

(** The token step never fails on the mapping of the script. *)
Lemma encode_payload_in (w : World) :
  exists js,
    json.dumps (issued_claims (payload_in w)) "," ":" false = inr js
    /\ jwt.encode (payload_in w) SECRET_KEY
       = inr (string_of_list_byte (token_bytes js SECRET_KEY)).
Proof.
  destruct (dumps_total (issued_claims (payload_in w))) as [js D].
  { rewrite issued_claims_in.
    repeat (apply Forall_cons; [cbn [snd]; intros t; discriminate |]).
    apply Forall_nil. }
  exists js. split; [exact D |].
  apply (jwt_encode_spec _ _ js "https://dev-placeholder.local");
    [reflexivity | exact D].
Qed.

Lemma inr_inj {A B : Type} (b b' : B) : @inr A B b = inr b' -> b = b'.
Proof. intros H. congruence. Qed.

(* ================================================================== *)
(** * The token of a run *)

(** ** Facts that hold for every token *)

Lemma str_encode_nonempty (s : string) : s <> EmptyString -> str_encode s <> [].
Proof.
  destruct s as [| c s]; [contradiction |]. intros _.
  cbn [str_encode]. unfold utf8_char.
  destruct (ord c <? 128); discriminate.
Qed.

Lemma dumps_nonempty (d : dict) (js : string) :
  json.dumps d "," ":" false = inr js -> js <> EmptyString.
Proof.
  unfold json.dumps. destruct d as [| kv d].
  - intros E. injection E as <-. discriminate.
  - destruct (json.iterencode_items "," ":" true (kv :: d));
      intros E; [discriminate E |].
    injection E as <-. discriminate.
Qed.

Lemma digest_nonempty (msg : list byte) : sha256.digest msg <> [].
Proof. unfold sha256.digest. cbn [flat_map]. discriminate. Qed.

Lemma token_bytes_compact (d : dict) (js key : string) :
  json.dumps d "," ":" false = inr js ->
  compact_serialization (string_of_list_byte (token_bytes js key))
    header_b64 (payload_b64 js)
    (jwt.base64url_encode (signature_of js key)).
Proof.
  intros D. destruct (token_bytes_chars js key) as (H & P & S).
  unfold compact_serialization.
  rewrite (proj2 (bytes_decode_ascii _ (token_bytes_ascii js key))).
  split; [| split; [| split; [| split]]].
  - unfold token_bytes, signing_input_of. cbn [bytes_join app].
    rewrite <- app_assoc. reflexivity.
  - unfold token_bytes, signing_input_of. rewrite <- app_assoc.
    cbn [app].
    rewrite bytes_split_app by (apply base64url_no_period, H).
    rewrite bytes_split_app by (apply base64url_no_period, P).
    rewrite bytes_split_no_period by (apply base64url_no_period, S).
    reflexivity.
  - apply base64url_encode_is_segment. vm_compute. discriminate.
  - apply base64url_encode_is_segment, str_encode_nonempty.
    apply (dumps_nonempty d js D).
  - apply base64url_encode_is_segment.
    unfold signature_of, jwt.sign, hmac.digest. apply digest_nonempty.
Qed.

(** A key shorter than a block and the same key followed by a zero byte
    fill the same block. *)
Lemma key_block_zero_extended (key : list byte) :
  (List.length key < hmac.blocksize)%nat ->
  hmac.key_block (key ++ [x00]) = hmac.key_block key.
Proof.
  unfold hmac.key_block, hmac.blocksize, ljust. intros L.
  assert (E1 : (64 <? List.length (key ++ [x00]))%nat = false)
    by (apply Nat.ltb_ge; rewrite length_app; cbn [List.length]; lia).
  assert (E2 : (64 <? List.length key)%nat = false)
    by (apply Nat.ltb_ge; lia).
  rewrite E1, E2, length_app. cbn [List.length].
  rewrite <- app_assoc. f_equal. cbn [app].
  replace (64 - List.length key)%nat
    with (S (64 - (List.length key + 1)))%nat by lia.
  reflexivity.
Qed.

Lemma digest_of_key_block (k k' msg : list byte) :
  hmac.key_block k = hmac.key_block k' ->
  hmac.digest k msg = hmac.digest k' msg.
Proof.
  intros E. unfold hmac.digest. rewrite E. reflexivity.
Qed.

Lemma zero_extended_secret_block :
  hmac.key_block (jwt.prepare_key zero_extended_secret)
  = hmac.key_block (jwt.prepare_key SECRET_KEY).
Proof.
  unfold zero_extended_secret, jwt.prepare_key. rewrite str_encode_app.
  change (str_encode (String Ascii.zero "")) with [x00].
  apply key_block_zero_extended. vm_compute. lia.
Qed.

(** A key is accepted for a token exactly when it gives the tag that the
    token carries. *)
Lemma verify_signature_token (js key k : string) :
  jwt.verify_signature (string_of_list_byte (token_bytes js key)) k = true
  <-> hmac.digest (jwt.prepare_key k) (signing_input_of js)
      = hmac.digest (jwt.prepare_key key) (signing_input_of js).
Proof.
  unfold jwt.verify_signature. rewrite load_token.
  cbn [jwt.loaded_header jwt.loaded_signing_input jwt.loaded_signature].
  change (dict_get [("alg", Str "HS256"); ("typ", Str "JWT")] "alg")
    with (Some (Str "HS256")).
  change (String.eqb "HS256" "HS256") with true. cbn [andb].
  unfold jwt.verify, signature_of, jwt.sign.
  destruct (list_eq_dec _ _ _) as [E | N]; split; intros H;
    first [reflexivity | congruence | discriminate H].
Qed.

(** ** Facts that hold in every successful run *)

Section SuccessfulRun.

Variables (w : World) (g : Globals).
Hypothesis run_returns : returned (script w) = Some g.

(** What a successful run has bound. *)
Lemma script_globals :
  exists js,
    payload g = payload_in w
    /\ json.dumps (issued_claims (payload g)) "," ":" false = inr js
    /\ token g = string_of_list_byte (token_bytes js SECRET_KEY).
Proof.
  destruct (encode_payload_in w) as (js & D & E).
  destruct (script_returns w g run_returns) as (_ & _ & _ & _ & _ & P & K).
  exists js. rewrite P. repeat split; try assumption.
  rewrite P, E in K. symmetry. exact (inr_inj _ _ K).
Qed.

(** The claims read back from the token are the converted mapping. *)
Lemma script_decode_payload :
  jwt.decode_payload (token g) = Some (issued_claims (payload_in w)).
Proof.
  destruct script_globals as (js & P & D & T).
  rewrite P in D. unfold jwt.decode_payload.
  rewrite T, load_token. cbn [jwt.loaded_payload].
  apply loads_bytes_dumps; [apply issued_claims_distinct | exact D].
Qed.

(** C3: the claims decoded from the payload segment of the token carry
    the same text under ["tenant_id"] and under ["org_id"], namely the
    one tenant identifier that the run generated. *)
Theorem decoded_tenant_id_is_org_id :
  exists (claims : dict) (t : string),
    jwt.decode_payload (token g) = Some claims
    /\ dict_get claims "tenant_id" = Some (Str t)
    /\ dict_get claims "org_id" = Some (Str t)
    /\ t = TENANT_ID g.
Proof.
  pose proof script_decode_payload as D.
  destruct (script_returns w g run_returns) as (_ & _ & _ & T & _).
  exists (issued_claims (payload_in w)), (TENANT_ID g).
  rewrite T. repeat apply conj; [exact D | reflexivity ..].
Qed.

(** C4: decoding the payload segment of the token yields a JSON object
    whose names are exactly the nine claim names, each once. *)
Theorem decoded_claim_names :
  exists claims : dict,
    jwt.decode_payload (token g) = Some claims
    /\ dict_keys claims
       = ["sub"; "tenant_id"; "org_id"; "email"; "name"; "iat"; "exp";
          "iss"; "aud"].
Proof.
  exists (issued_claims (payload_in w)). split.
  - apply script_decode_payload.
  - apply issued_claims_keys.
Qed.

(** The times in the token are whole seconds: ["iat"] is the first clock
    reading and ["exp"] the second one plus 24 hours, both cut to the
    second. *)
Lemma decoded_times :
  exists claims : dict,
    jwt.decode_payload (token g) = Some claims
    /\ claim_int claims "iat" = Some (first_reading w / 1000000)
    /\ claim_int claims "exp" = Some (second_reading w / 1000000 + 86400).
Proof.
  exists (issued_claims (payload_in w)). split.
  - apply script_decode_payload.
  - assert (E : datetime.timegm (second_reading w + datetime.timedelta 24)
                = second_reading w / 1000000 + 86400).
    { unfold datetime.timegm.
      change (datetime.timedelta 24) with (86400 * 1000000).
      apply Z.div_add. lia. }
    rewrite issued_claims_in, E. split; reflexivity.
Qed.

(** C1, amended: in every run, ["exp"] minus ["iat"] in the payload is
    24 hours plus the time that passed between the two clock readings; it
    is exactly 24 hours if and only if both readings are the same instant.
    In the token, where both times are cut to whole seconds, ["exp"] minus
    ["iat"] is 86400 seconds plus the difference between the whole seconds
    of the two readings. *)
Theorem exp_minus_iat_is_24h_plus_elapsed :
  exp_minus_iat (payload g)
  = Some (datetime.timedelta 24 + (second_reading w - first_reading w))
  /\ (exp_minus_iat (payload g) = Some (datetime.timedelta 24)
      <-> second_reading w = first_reading w)
  /\ exists (claims : dict) (i e : Z),
       jwt.decode_payload (token g) = Some claims
       /\ claim_int claims "iat" = Some i
       /\ claim_int claims "exp" = Some e
       /\ e - i = 86400 + (second_reading w / 1000000
                           - first_reading w / 1000000).
Proof.
  rewrite (payload_exp_minus_iat w g run_returns). split; [| split].
  - f_equal. lia.
  - split; intros E.
    + apply Some_inj in E. lia.
    + f_equal. lia.
  - destruct decoded_times as (claims & D & I & E).
    exists claims, (first_reading w / 1000000),
      (second_reading w / 1000000 + 86400).
    repeat split; try assumption. lia.
Qed.

(** C7, amended: provided the clock does not go back by 24 hours or more
    from the first reading to the second, the ["exp"] of the claims
    mapping is strictly later than its ["iat"]; in the token, where both
    times are cut to whole seconds, ["exp"] is not before ["iat"], and
    it is strictly after it exactly when the whole second of the first
    reading is less than 86400 seconds after that of the second reading,
    as it is whenever the clock goes back by no more than 23 h 59 min
    59 s. *)
Theorem exp_not_before_iat_in_token :
  first_reading w - second_reading w < datetime.timedelta 24 ->
  (exists i e : Z,
      claim_datetime (payload g) "iat" = Some i
      /\ claim_datetime (payload g) "exp" = Some e
      /\ i < e)
  /\ exists (claims : dict) (i e : Z),
       jwt.decode_payload (token g) = Some claims
       /\ claim_int claims "iat" = Some i
       /\ claim_int claims "exp" = Some e
       /\ i <= e
       /\ (i < e
           <-> first_reading w / 1000000 - second_reading w / 1000000 < 86400)
       /\ (first_reading w - second_reading w
           <= datetime.timedelta 24 - 1000000 -> i < e).
Proof.
  intros B. split.
  - exact (payload_exp_later_than_iat w g run_returns B).
  - destruct decoded_times as (claims & D & I & E).
    exists claims, (first_reading w / 1000000),
      (second_reading w / 1000000 + 86400).
    change (datetime.timedelta 24) with 86400000000 in *.
    repeat split; try assumption.
    + Z.div_mod_to_equations. lia.
    + lia.
    + lia.
    + intros S. Z.div_mod_to_equations. lia.
Qed.

(** C5: the token is three base64url segments separated by two
    periods, and its first segment is the base64url form of a JSON object
    whose ["alg"] is ["HS256"]. *)
Theorem token_is_compact_serialization :
  exists (h p s header_data : list byte) (header : dict),
    compact_serialization (token g) h p s
    /\ jwt.base64url_decode h = Some header_data
    /\ json.loads_bytes header_data = Some header
    /\ dict_get header "alg" = Some (Str "HS256").
Proof.
  destruct script_globals as (js & P & D & T).
  exists header_b64, (payload_b64 js),
    (jwt.base64url_encode (signature_of js SECRET_KEY)),
    (str_encode header_json), [("alg", Str "HS256"); ("typ", Str "JWT")].
  rewrite T. split; [| split; [| split]].
  - apply (token_bytes_compact _ js SECRET_KEY D).
  - apply base64url_decode_encode.
  - apply header_loads.
  - reflexivity.
Qed.

(** C6: decoding the payload segment, encoding the decoded claims again
    and signing them with the same secret gives a token whose header and
    payload segments are those of the original, byte for byte. *)
Theorem reencoding_reproduces_segments :
  exists (claims : dict) (tok' : string) (l l' : jwt.Loaded),
    jwt.decode_payload (token g) = Some claims
    /\ jwt.encode claims SECRET_KEY = inr tok'
    /\ jwt.load (token g) = Some l
    /\ jwt.load tok' = Some l'
    /\ jwt.header_segment l' = jwt.header_segment l
    /\ jwt.payload_segment l' = jwt.payload_segment l.
Proof.
  pose proof script_decode_payload as DP.
  destruct script_globals as (js & P & D & T).
  rewrite P in D.
  exists (issued_claims (payload_in w)),
    (string_of_list_byte (token_bytes js SECRET_KEY)).
  eexists. eexists. repeat apply conj.
  - exact DP.
  - apply (jwt_encode_spec _ _ js "https://dev-placeholder.local");
      [reflexivity | exact D].
  - rewrite T. apply load_token.
  - apply load_token.
  - reflexivity.
  - reflexivity.
Qed.

(** The whole token is reproduced, signature included. *)
Lemma reencoding_reproduces_token :
  exists claims : dict,
    jwt.decode_payload (token g) = Some claims
    /\ jwt.encode claims SECRET_KEY = inr (token g).
Proof.
  pose proof script_decode_payload as DP.
  destruct script_globals as (js & P & D & T).
  rewrite P in D.
  exists (issued_claims (payload_in w)). split; [exact DP |].
  rewrite T.
  apply (jwt_encode_spec _ _ js "https://dev-placeholder.local");
    [reflexivity | exact D].
Qed.

(** C2, amended: the signature of the token is accepted under the fixed
    secret; under any secret [k] it is accepted exactly when [k] gives the
    same HMAC-SHA256 tag on the signing input as the fixed secret does,
    which every secret with the same 64-byte key block does (the fixed
    secret followed by NUL characters, for one); it is rejected whenever
    the tag differs. *)
Theorem signature_verification :
  jwt.verify_signature (token g) SECRET_KEY = true
  /\ (exists l : jwt.Loaded,
        jwt.load (token g) = Some l
        /\ forall k : string,
             jwt.verify_signature (token g) k = true
             <-> hmac.digest (jwt.prepare_key k) (jwt.loaded_signing_input l)
                 = hmac.digest (jwt.prepare_key SECRET_KEY)
                               (jwt.loaded_signing_input l))
  /\ (forall k : string,
        hmac.key_block (jwt.prepare_key k)
        = hmac.key_block (jwt.prepare_key SECRET_KEY) ->
        jwt.verify_signature (token g) k = true).
Proof.
  destruct script_globals as (js & P & D & T).
  rewrite T. split; [| split].
  - apply verify_signature_token. reflexivity.
  - eexists. split; [apply load_token |].
    intros k. cbn [jwt.loaded_signing_input]. apply verify_signature_token.
  - intros k E. apply verify_signature_token.
    apply digest_of_key_block, E.
Qed.

(** In every run the token is accepted under the zero-extended secret. *)
Lemma zero_extended_secret_verifies :
  jwt.verify_signature (token g) zero_extended_secret = true.
Proof.
  destruct script_globals as (js & P & D & T).
  rewrite T. apply verify_signature_token.
  apply digest_of_key_block, zero_extended_secret_block.
Qed.

End SuccessfulRun.

(** ** The same facts in the run of [ticking_world] *)

Lemma decoded_tenant_id_is_org_id_witness :
  exists (claims : dict) (t : string),
    jwt.decode_payload (token ticking_globals) = Some claims
    /\ dict_get claims "tenant_id" = Some (Str t)
    /\ dict_get claims "org_id" = Some (Str t)
    /\ t = TENANT_ID ticking_globals.
Proof.
  apply (decoded_tenant_id_is_org_id ticking_world ticking_globals).
  vm_compute. reflexivity.
Defined.

Lemma decoded_claim_names_witness :
  exists claims : dict,
    jwt.decode_payload (token ticking_globals) = Some claims
    /\ dict_keys claims
       = ["sub"; "tenant_id"; "org_id"; "email"; "name"; "iat"; "exp";
          "iss"; "aud"].
Proof.
  apply (decoded_claim_names ticking_world ticking_globals).
  vm_compute. reflexivity.
Defined.

Lemma exp_minus_iat_is_24h_plus_elapsed_witness :
  exp_minus_iat (payload ticking_globals)
  = Some (datetime.timedelta 24
          + (second_reading ticking_world - first_reading ticking_world))
  /\ (exp_minus_iat (payload ticking_globals) = Some (datetime.timedelta 24)
      <-> second_reading ticking_world = first_reading ticking_world)
  /\ exists (claims : dict) (i e : Z),
       jwt.decode_payload (token ticking_globals) = Some claims
       /\ claim_int claims "iat" = Some i
       /\ claim_int claims "exp" = Some e
       /\ e - i = 86400 + (second_reading ticking_world / 1000000
                           - first_reading ticking_world / 1000000).
Proof.
  apply (exp_minus_iat_is_24h_plus_elapsed ticking_world ticking_globals).
  vm_compute. reflexivity.
Defined.

Lemma exp_not_before_iat_in_token_witness :
  (exists i e : Z,
      claim_datetime (payload ticking_globals) "iat" = Some i
      /\ claim_datetime (payload ticking_globals) "exp" = Some e
      /\ i < e)
  /\ exists (claims : dict) (i e : Z),
       jwt.decode_payload (token ticking_globals) = Some claims
       /\ claim_int claims "iat" = Some i
       /\ claim_int claims "exp" = Some e
       /\ i <= e
       /\ (i < e
           <-> first_reading ticking_world / 1000000
               - second_reading ticking_world / 1000000 < 86400)
       /\ (first_reading ticking_world - second_reading ticking_world
           <= datetime.timedelta 24 - 1000000 -> i < e).
Proof.
  apply (exp_not_before_iat_in_token ticking_world ticking_globals).
  - vm_compute. reflexivity.
  - vm_compute. reflexivity.
Defined.

Lemma token_is_compact_serialization_witness :
  exists (h p s header_data : list byte) (header : dict),
    compact_serialization (token ticking_globals) h p s
    /\ jwt.base64url_decode h = Some header_data
    /\ json.loads_bytes header_data = Some header
    /\ dict_get header "alg" = Some (Str "HS256").
Proof.
  apply (token_is_compact_serialization ticking_world ticking_globals).
  vm_compute. reflexivity.
Defined.

Lemma reencoding_reproduces_segments_witness :
  exists (claims : dict) (tok' : string) (l l' : jwt.Loaded),
    jwt.decode_payload (token ticking_globals) = Some claims
    /\ jwt.encode claims SECRET_KEY = inr tok'
    /\ jwt.load (token ticking_globals) = Some l
    /\ jwt.load tok' = Some l'
    /\ jwt.header_segment l' = jwt.header_segment l
    /\ jwt.payload_segment l' = jwt.payload_segment l.
Proof.
  apply (reencoding_reproduces_segments ticking_world ticking_globals).
  vm_compute. reflexivity.
Defined.

Lemma signature_verification_witness :
  jwt.verify_signature (token ticking_globals) SECRET_KEY = true
  /\ (exists l : jwt.Loaded,
        jwt.load (token ticking_globals) = Some l
        /\ forall k : string,
             jwt.verify_signature (token ticking_globals) k = true
             <-> hmac.digest (jwt.prepare_key k) (jwt.loaded_signing_input l)
                 = hmac.digest (jwt.prepare_key SECRET_KEY)
                               (jwt.loaded_signing_input l))
  /\ (forall k : string,
        hmac.key_block (jwt.prepare_key k)
        = hmac.key_block (jwt.prepare_key SECRET_KEY) ->
        jwt.verify_signature (token ticking_globals) k = true).
Proof.
  apply (signature_verification ticking_world ticking_globals).
  vm_compute. reflexivity.
Defined.

(** In the token of [ticking_world], ["exp"] is 86401 seconds after
    ["iat"]: the second boundary fell between the two readings. *)
Example ticking_token_times :
  option_map (fun claims => (claim_int claims "iat", claim_int claims "exp"))
             (jwt.decode_payload (token ticking_globals))
  = Some (Some 1700000000, Some 1700086401).
Proof. vm_compute. reflexivity. Qed.

(** C2, as stated, does not hold: the token of [ticking_world] is also
    accepted under the fixed secret followed by a NUL character, which is
    another secret. *)
Lemma another_secret_is_accepted :
  ~ (forall (w : World) (g : Globals),
        returned (script w) = Some g ->
        jwt.verify_signature (token g) SECRET_KEY = true
        /\ forall k : string,
             k <> SECRET_KEY -> jwt.verify_signature (token g) k = false).
Proof.
  intros H.
  destruct (H ticking_world ticking_globals ticking_run) as [_ F].
  specialize (F zero_extended_secret).
  assert (N : zero_extended_secret <> SECRET_KEY).
  { intros E. apply (f_equal String.length) in E. discriminate E. }
  specialize (F N).
  assert (V : jwt.verify_signature (token ticking_globals)
                                   zero_extended_secret = true)
    by (vm_compute; reflexivity).
  rewrite V in F. discriminate F.
Qed.

(* ================================================================== *)
(** * How a run ends *)

(** What [uuid.uuid4()] returns where a source of randomness is found. *)
Lemma uuid4_draws_run (w : World) :
  urandom_found w = true ->
  returned ((t <- uuid.uuid4 ;; u <- uuid.uuid4 ;; ret (t, u)) w)
  = Some (uuid4_draws w).
Proof.
  intros F. unfold Py.bind, uuid.uuid4, Py.bind, os_urandom, Py.ret.
  rewrite F. cbn [urandom_found urandom_source urandom_used].
  reflexivity.
Qed.

(** Every reading of the system clock is a datetime, and so is the
    instant 24 hours after it. *)
Lemma system_clock_reading_representable (r : Z) :
  system_clock_reading r = true ->
  datetime.representable r = true
  /\ datetime.representable (r + datetime.timedelta 24) = true.
Proof.
  unfold system_clock_reading, datetime.representable.
  change (PyTime_MIN / 1000) with (-9223372036854776).
  change (PyTime_MAX / 1000) with 9223372036854775.
  change (datetime.timedelta 24) with 86400000000.
  change datetime.min with (-62135596800000000).
  change datetime.max with 253402300799999999.
  intros H. apply andb_true_iff in H as [L U].
  apply Z.leb_le in L, U.
  split; apply andb_true_iff; split; apply Z.leb_le; lia.
Qed.

(** With a source of randomness and representable dates, the run returns
    a signed credential. *)
Lemma script_returns_credential (w : World) :
  urandom_found w = true ->
  datetime.representable (first_reading w) = true ->
  datetime.representable (second_reading w) = true ->
  datetime.representable (second_reading w + datetime.timedelta 24) = true ->
  exists g : Globals,
    returned (script w) = Some g /\ well_formed_credential (token g).
Proof.
  intros F R1 R2 R3. destruct (encode_payload_in w) as (js & D & E).
  pose proof (script_unfold w) as U. rewrite F, R1, R2, R3, E in U.
  eexists. rewrite U. split; [reflexivity |]. cbn [token]. split.
  - eexists. eexists. eexists.
    apply (token_bytes_compact _ js SECRET_KEY D).
  - apply verify_signature_token. reflexivity.
Qed.

Example ticking_world_returns :
  exists g, returned (script ticking_world) = Some g
            /\ well_formed_credential (token g).
Proof.
  apply script_returns_credential; vm_compute; reflexivity.
Qed.

(** C8, as stated, does not hold: where [os.urandom] finds no source of
    randomness, the first [uuid.uuid4()] raises [NotImplementedError] and
    the run ends there, with neither a credential nor a failure of the
    token step. *)
Lemma run_can_end_without_randomness :
  ~ (forall w : World,
        (exists g : Globals,
            returned (script w) = Some g /\ well_formed_credential (token g))
        \/ (exists e : exn,
               raised (script w) = Some e /\ from_token_step e = true)).
Proof.
  intros H.
  destruct (H no_randomness_world) as [(g & R & _) | (e & R & S)].
  - apply script_returns_found in R. discriminate R.
  - rewrite no_randomness_run in R. apply Some_inj in R. subst e.
    discriminate S.
Qed.

(** C8, amended: where [os.urandom] finds a source of randomness and the
    two clock readings are readings of the system clock, the run returns
    a well-formed signed credential, and so it does whenever both
    readings and the second one plus 24 hours are datetimes: nothing
    fails in normal operation, and the token step does not fail on the
    mapping of the script.  Where no source of randomness is found, the
    run ends, unhandled, in the [NotImplementedError] of the first
    [uuid.uuid4()]. *)
Theorem script_outcome (w : World) :
  (urandom_found w = false ->
   raised (script w) = Some NotImplementedError)
  /\ (urandom_found w = true ->
      system_clock_reading (first_reading w) = true ->
      system_clock_reading (second_reading w) = true ->
      exists g : Globals,
        returned (script w) = Some g /\ well_formed_credential (token g))
  /\ (urandom_found w = true ->
      datetime.representable (first_reading w) = true ->
      datetime.representable (second_reading w) = true ->
      datetime.representable (second_reading w + datetime.timedelta 24)
      = true ->
      exists g : Globals,
        returned (script w) = Some g /\ well_formed_credential (token g)).
Proof.
  split; [| split].
  - intros F. rewrite script_unfold, F. reflexivity.
  - intros F C1 C2.
    apply system_clock_reading_representable in C1 as [R1 _].
    apply system_clock_reading_representable in C2 as [R2 R3].
    apply script_returns_credential; assumption.
  - apply script_returns_credential.
Qed.

Lemma script_outcome_witness :
  exists g : Globals,
    returned (script ticking_world) = Some g
    /\ well_formed_credential (token g).
Proof.
  apply (proj1 (proj2 (script_outcome ticking_world)));
    vm_compute; reflexivity.
Defined.

(* ================================================================== *)
(** * The times in the token *)

(** When the clock steps back by 23 h 59 min 59.9 s between the two
    readings, which is less than 24 hours, the mapping has ["exp"] a
    tenth of a second after ["iat"], and the token, in whole seconds, has
    them equal. *)
Example stepping_back_times :
  first_reading stepping_back_world - second_reading stepping_back_world
  < datetime.timedelta 24
  /\ option_map (fun g => exp_minus_iat (payload g))
                (returned (script stepping_back_world))
     = Some (Some 100000)
  /\ option_map
       (fun g => option_map
                   (fun claims =>
                      (claim_int claims "iat", claim_int claims "exp"))
                   (jwt.decode_payload (token g)))
       (returned (script stepping_back_world))
     = Some (Some (Some 1700086400, Some 1700086400)).
Proof. vm_compute. repeat split; reflexivity. Qed.

(** C7, as stated, does not hold: when the clock steps back by
    23 h 59 min 59.9 s between the two readings, which is less than 24
    hours, the token of the run has its ["exp"] equal to its ["iat"],
    both being 1700086400. *)
Lemma token_exp_can_equal_iat :
  ~ (forall (w : World) (g : Globals),
        returned (script w) = Some g ->
        first_reading w - second_reading w < datetime.timedelta 24 ->
        exists (claims : dict) (i e : Z),
          jwt.decode_payload (token g) = Some claims
          /\ claim_int claims "iat" = Some i
          /\ claim_int claims "exp" = Some e
          /\ i < e).
Proof.
  intros H.
  destruct (script_returns_credential stepping_back_world) as (g & R & _);
    try (vm_compute; reflexivity).
  destruct (H stepping_back_world g R) as (claims & i & e & D & I & E & L).
  { vm_compute. reflexivity. }
  destruct (decoded_times stepping_back_world g R) as (claims' & D' & I' & E').
  rewrite D in D'. apply Some_inj in D'. subst claims'.
  rewrite I in I'. rewrite E in E'.
  apply Some_inj in I'. apply Some_inj in E'.
  vm_compute in I'. vm_compute in E'. lia.
Qed.

(* ================================================================== *)
(** * datetime: the calendar and the fields *)
(* ================================================================== *)

Lemma month_day_checked (leapyear : bool) (n : Z) :
  0 <= n < 365 -> month_day_ok leapyear n = true.
Proof.
  intros H.
  apply (checked_below (month_day_ok leapyear) 365); [| exact H].
  destruct leapyear; vm_compute; reflexivity.
Qed.

Lemma ord2ymd_unfold (n : Z) :
  datetime.ord2ymd n =
  let n0 := n - 1 in
  let n400 := n0 / 146097 in
  let r1 := n0 mod 146097 in
  let n100 := r1 / 36524 in
  let r2 := r1 mod 36524 in
  let n4 := r2 / 1461 in
  let r3 := r2 mod 1461 in
  let n1 := r3 / 365 in
  let r4 := r3 mod 365 in
  let year := n400 * 400 + 1 + (n100 * 100 + n4 * 4 + n1) in
  if (n1 =? 4) || (n100 =? 4) then (year - 1, 12, 31)
  else
    let leapyear := (n1 =? 3) && (negb (n4 =? 24) || (n100 =? 3)) in
    (year, fst (month_day leapyear r4), snd (month_day leapyear r4)).
Proof.
  unfold datetime.ord2ymd, month_day.
  change datetime.DI400Y with 146097. change datetime.DI100Y with 36524.
  change datetime.DI4Y with 1461. cbv zeta.
  destruct (_ || _); [reflexivity |].
  destruct (_ <? _); reflexivity.
Qed.

Lemma is_leap_spec (y : Z) :
  datetime.is_leap y = true <-> (y mod 4 = 0 /\ (y mod 100 <> 0 \/ y mod 400 = 0)).
Proof.
  unfold datetime.is_leap.
  rewrite andb_true_iff, orb_true_iff, negb_true_iff, !Z.eqb_eq, Z.eqb_neq.
  reflexivity.
Qed.

Lemma years_before (a b c e : Z) :
  0 <= b <= 3 -> 0 <= c <= 24 -> 0 <= e <= 3 ->
  let year := a * 400 + 1 + (b * 100 + c * 4 + e) in
  datetime.days_before_year year = 146097 * a + 36524 * b + 1461 * c + 365 * e
  /\ datetime.is_leap year = (e =? 3) && (negb (c =? 24) || (b =? 3)).
Proof.
  intros Hb Hc He year. split.
  - unfold datetime.days_before_year. cbv zeta. unfold year.
    Z.div_mod_to_equations. lia.
  - apply eq_true_iff_eq. rewrite is_leap_spec.
    rewrite andb_true_iff, orb_true_iff, negb_true_iff, !Z.eqb_eq, Z.eqb_neq.
    unfold year. Z.div_mod_to_equations. lia.
Qed.

Lemma last_day_of_cycle (a b c : Z) :
  0 <= b <= 3 -> 0 <= c <= 24 -> (c = 24 -> b = 3) ->
  let year := a * 400 + b * 100 + c * 4 + 4 in
  datetime.days_before_year year = 146097 * a + 36524 * b + 1461 * c + 365 * 3
  /\ datetime.is_leap year = true.
Proof.
  intros Hb Hc Hbc year. split.
  - unfold datetime.days_before_year. cbv zeta. unfold year.
    Z.div_mod_to_equations. lia.
  - rewrite is_leap_spec. unfold year. Z.div_mod_to_equations. lia.
Qed.

Lemma ymd2ord_december_31 (y : Z) :
  datetime.ymd2ord y 12 31
  = datetime.days_before_year y + (334 + Z.b2z (datetime.is_leap y)) + 31.
Proof. reflexivity. Qed.

Lemma days_in_december (y : Z) : datetime.days_in_month y 12 = 31.
Proof. reflexivity. Qed.

(** What [ord2ymd] returns is a date of the calendar whose ordinal is
    the number it was given. *)
Lemma ord2ymd_date (n : Z) :
  let '(y, m, d) := datetime.ord2ymd n in
  datetime.ymd2ord y m d = n
  /\ 1 <= m <= 12 /\ 1 <= d <= datetime.days_in_month y m.
Proof.
  rewrite ord2ymd_unfold. cbv zeta.
  set (n0 := n - 1).
  set (a := n0 / 146097). set (r1 := n0 mod 146097).
  set (b := r1 / 36524). set (r2 := r1 mod 36524).
  set (c := r2 / 1461). set (r3 := r2 mod 1461).
  set (e := r3 / 365). set (r4 := r3 mod 365).
  assert (F : n0 = 146097 * a + 36524 * b + 1461 * c + 365 * e + r4
              /\ 0 <= b <= 4 /\ 0 <= c <= 24 /\ 0 <= e <= 4 /\ 0 <= r4 < 365
              /\ (b = 4 -> c = 0 /\ e = 0 /\ r4 = 0)
              /\ (e = 4 -> r4 = 0)
              /\ (b <= 3 -> c = 24 -> e <= 3)).
  { unfold a, b, c, e, r4, r3, r2, r1. Z.div_mod_to_equations. lia. }
  destruct F as (En & Hb & Hc & He & Hr & Hb4 & He4 & Hc24).
  destruct (Z.eqb_spec e 4) as [E4 | E4]; cbn [orb].
  - (* the last day of a leap year that ends a four-year cycle *)
    assert (Hb3 : 0 <= b <= 3) by lia.
    assert (Hc23 : c = 24 -> b = 3) by lia.
    destruct (last_day_of_cycle a b c Hb3 Hc Hc23) as (D & L).
    cbv zeta in D, L.
    replace (a * 400 + 1 + (b * 100 + c * 4 + e) - 1)
      with (a * 400 + b * 100 + c * 4 + 4) by lia.
    rewrite ymd2ord_december_31, days_in_december, D, L. change (Z.b2z true) with 1. lia.
  - destruct (Z.eqb_spec b 4) as [B4 | B4].
    + (* the last day of a 400-year cycle *)
      destruct (Hb4 B4) as (C0 & E0 & R0).
      assert (Hb3 : 0 <= 3 <= 3) by lia.
      assert (Hc24' : 0 <= 24 <= 24) by lia.
      destruct (last_day_of_cycle a 3 24 Hb3 Hc24' (fun _ => eq_refl))
        as (D & L).
      cbv zeta in D, L.
      replace (a * 400 + 1 + (b * 100 + c * 4 + e) - 1)
        with (a * 400 + 3 * 100 + 24 * 4 + 4) by lia.
      rewrite ymd2ord_december_31, days_in_december, D, L. change (Z.b2z true) with 1. lia.
    + assert (Hb3 : 0 <= b <= 3) by lia.
      assert (He3 : 0 <= e <= 3) by lia.
      destruct (years_before a b c e Hb3 Hc He3) as (D & L).
      cbv zeta in D, L.
      set (leapyear := (e =? 3) && (negb (c =? 24) || (b =? 3))) in *.
      pose proof (month_day_checked leapyear r4 Hr) as M.
      unfold month_day_ok in M.
      destruct (month_day leapyear r4) as [m d]. cbn [fst snd].
      rewrite !andb_true_iff, !Z.leb_le, Z.eqb_eq in M.
      destruct M as ((((M1 & M2) & D1) & D2) & S).
      unfold datetime.ymd2ord, datetime.days_before_month,
        datetime.days_in_month.
      rewrite D, L. repeat split; lia.
Qed.

Lemma fields_unfold (d : Z) :
  datetime.fields d
  = let n := d / 86400000000 + 719163 in
    let s := d mod 86400000000 / 1000000 in
    datetime.mkObj (fst (fst (datetime.ord2ymd n))) (snd (fst (datetime.ord2ymd n)))
      (snd (datetime.ord2ymd n))
      (s / 3600) (s mod 3600 / 60) (s mod 60) (d mod 86400000000 mod 1000000).
Proof.
  unfold datetime.fields. change datetime.EPOCH_ORD with 719163. cbv zeta.
  destruct (datetime.ord2ymd _) as [[y m] dd]. reflexivity.
Qed.

Lemma toordinal_fields (d : Z) :
  datetime.toordinal (datetime.fields d) = d / 86400000000 + 719163.
Proof.
  rewrite fields_unfold. cbv zeta. unfold datetime.toordinal.
  cbn [datetime.year datetime.month datetime.day].
  pose proof (ord2ymd_date (d / 86400000000 + 719163)) as H.
  destruct (datetime.ord2ymd _) as [[y m] dd]. apply H.
Qed.

Lemma time_of_day (d : Z) :
  let o := datetime.fields d in
  (datetime.hour o * 3600 + datetime.minute o * 60 + datetime.second o)
    * 1000000 + datetime.microsecond o
  = d mod 86400000000.
Proof.
  rewrite fields_unfold. cbv zeta.
  cbn [datetime.hour datetime.minute datetime.second datetime.microsecond].
  Z.div_mod_to_equations. lia.
Qed.

Lemma timeline_fields (d : Z) : datetime.timeline (datetime.fields d) = d.
Proof.
  unfold datetime.timeline. rewrite toordinal_fields.
  pose proof (time_of_day d) as T. cbv zeta in T.
  change datetime.EPOCH_ORD with 719163.
  Z.div_mod_to_equations. lia.
Qed.

Lemma representable_ordinal (d : Z) :
  datetime.representable d
  = (0 <? d / 86400000000 + 719163)
    && (d / 86400000000 + 719163 <=? datetime.MAXORDINAL).
Proof.
  unfold datetime.representable, datetime.min, datetime.max, datetime.MAXORDINAL.
  apply eq_true_iff_eq.
  rewrite !andb_true_iff, !Z.leb_le, Z.ltb_lt.
  Z.div_mod_to_equations. lia.
Qed.

Lemma add_obj_fields (d td : Z) (w : Py.World) :
  datetime.add_obj (datetime.fields d) td w
  = (x <- datetime.add d td ;; Py.ret (datetime.fields x)) w.
Proof.
  unfold datetime.add_obj, datetime.add, Py.bind.
  rewrite toordinal_fields.
  pose proof (time_of_day d) as T. cbv zeta in T.
  set (o := datetime.fields d) in *.
  replace ((((d / 86400000000 + 719163) * 86400
             + (datetime.hour o * 3600 + datetime.minute o * 60
                + datetime.second o)) * 1000000
            + datetime.microsecond o) + td)
    with ((d + td) + 719163 * 86400000000)
    by (Z.div_mod_to_equations; lia).
  cbv zeta.
  replace (((d + td) + 719163 * 86400000000) / 86400000000)
    with ((d + td) / 86400000000 + 719163)
    by (Z.div_mod_to_equations; lia).
  rewrite (representable_ordinal (d + td)).
  destruct (_ && _); [| reflexivity].
  unfold Py.ret. f_equal. rewrite fields_unfold. cbv zeta.
  destruct (datetime.ord2ymd _) as [[y m] dd]. cbn [fst snd].
  replace (((d + td) + 719163 * 86400000000) mod 86400000000)
    with ((d + td) mod 86400000000)
    by (Z.div_mod_to_equations; lia).
  replace (((d + td) + 719163 * 86400000000) mod 1000000)
    with ((d + td) mod 86400000000 mod 1000000)
    by (Z.div_mod_to_equations; lia).
  f_equal. f_equal. Z.div_mod_to_equations. lia.
Qed.

Lemma timegm_obj_toordinal (o : datetime.obj) :
  datetime.timegm_obj o
  = (((datetime.toordinal o - 719163) * 24 + datetime.hour o) * 60
     + datetime.minute o) * 60 + datetime.second o.
Proof.
  unfold datetime.timegm_obj, datetime.toordinal, datetime.ymd2ord.
  change datetime.EPOCH_ORD with 719163. cbv zeta. lia.
Qed.

Lemma timegm_obj_fields (d : Z) :
  datetime.timegm_obj (datetime.fields d) = datetime.timegm d.
Proof.
  rewrite timegm_obj_toordinal, toordinal_fields.
  pose proof (time_of_day d) as T. cbv zeta in T.
  assert (R : 0 <= datetime.microsecond (datetime.fields d) < 1000000).
  { rewrite fields_unfold. cbv zeta. cbn [datetime.microsecond].
    apply Z.mod_pos_bound. lia. }
  unfold datetime.timegm.
  generalize dependent (datetime.fields d). intros o T R.
  Z.div_mod_to_equations. lia.
Qed.

Lemma ord2ymd_year (n : Z) :
  1 <= n <= datetime.MAXORDINAL ->
  1 <= fst (fst (datetime.ord2ymd n)) <= 9999.
Proof.
  unfold datetime.MAXORDINAL. intros H.
  rewrite ord2ymd_unfold. cbv zeta.
  set (n0 := n - 1).
  set (a := n0 / 146097). set (r1 := n0 mod 146097).
  set (b := r1 / 36524). set (r2 := r1 mod 36524).
  set (c := r2 / 1461). set (r3 := r2 mod 1461).
  set (e := r3 / 365). set (r4 := r3 mod 365).
  assert (F : 0 <= a /\ 0 <= b <= 4 /\ 0 <= c <= 24 /\ 0 <= e <= 4
              /\ (b = 4 -> c = 0 /\ e = 0)
              /\ a * 400 + b * 100 + c * 4 + e <= 9998
              /\ ((e = 4 \/ b = 4) -> 1 <= a * 400 + b * 100 + c * 4 + e)).
  { unfold a, b, c, e, r4, r3, r2, r1, n0. Z.div_mod_to_equations. lia. }
  destruct F as (Ha & Hb & Hc & He & Hb4 & Hy & Hz).
  destruct (Z.eqb_spec e 4) as [E4 | E4]; cbn [orb fst].
  - lia.
  - destruct (Z.eqb_spec b 4) as [B4 | B4]; cbn [fst]; lia.
Qed.

Lemma fields_valid (d : Z) :
  let o := datetime.fields d in
  1 <= datetime.month o <= 12
  /\ 1 <= datetime.day o <= datetime.days_in_month (datetime.year o)
                                                   (datetime.month o)
  /\ 0 <= datetime.hour o < 24
  /\ 0 <= datetime.minute o < 60
  /\ 0 <= datetime.second o < 60
  /\ 0 <= datetime.microsecond o < 1000000.
Proof.
  rewrite fields_unfold. cbv zeta.
  cbn [datetime.year datetime.month datetime.day datetime.hour
       datetime.minute datetime.second datetime.microsecond].
  pose proof (ord2ymd_date (d / 86400000000 + 719163)) as H.
  destruct (datetime.ord2ymd _) as [[y m] dd]. cbn [fst snd].
  destruct H as (_ & Hm & Hd).
  split; [exact Hm | split; [exact Hd |]].
  Z.div_mod_to_equations. lia.
Qed.

Lemma fields_year (d : Z) :
  datetime.representable d = true ->
  1 <= datetime.year (datetime.fields d) <= 9999.
Proof.
  rewrite representable_ordinal, andb_true_iff, Z.ltb_lt, Z.leb_le.
  intros H. rewrite fields_unfold. cbv zeta. cbn [datetime.year].
  apply ord2ymd_year. lia.
Qed.

(* ================================================================== *)
(** * uuid: the text and the bits of a version 4 UUID *)
(* ================================================================== *)

Lemma hex_digit_lower (n : Z) :
  is_hex_lower (uuid.hex_digit (Z.land n 15)) = true.
Proof.
  assert (H : 0 <= Z.land n 15 < 16).
  { change 15 with (Z.ones 4). rewrite Z.land_ones by lia.
    apply Z.mod_pos_bound. reflexivity. }
  revert H. generalize (Z.land n 15). intros i H.
  apply (checked_below (fun i => is_hex_lower (uuid.hex_digit i)) 16);
    [vm_compute; reflexivity | exact H].
Qed.

Lemma version_digit (bs : list byte) :
  Z.land (Z.shiftr (uuid.int (uuid.UUID_of_bytes bs 4)) 76) 15 = 4.
Proof.
  unfold uuid.UUID_of_bytes. cbn [uuid.int]. cbv zeta.
  generalize (int_from_bytes bs). intros n.
  apply Z.bits_inj'. intros i Hi.
  rewrite Z.land_spec, Z.shiftr_spec by exact Hi.
  rewrite Z.lor_spec, Z.land_spec, Z.lnot_spec by lia.
  rewrite !Z.shiftl_spec by lia.
  replace (i + 76 - 64) with (i + 12) by lia.
  replace (i + 76 - 76) with i by lia.
  assert (C : i = 0 \/ i = 1 \/ i = 2 \/ i = 3 \/ 4 <= i) by lia.
  destruct C as [-> | [-> | [-> | [-> | C]]]];
    try (cbn; rewrite ?andb_false_r; reflexivity).
  replace (Z.testbit 15 i) with false.
  - rewrite andb_false_r. symmetry. apply (testbit_above 4 3); lia.
  - symmetry. apply (testbit_above 15 4); lia.
Qed.

Lemma variant_digit (bs : list byte) :
  8 <= Z.land (Z.shiftr (uuid.int (uuid.UUID_of_bytes bs 4)) 60) 15 <= 11.
Proof.
  unfold uuid.UUID_of_bytes. cbn [uuid.int]. cbv zeta.
  generalize (int_from_bytes bs). intros n.
  set (v := Z.land _ 15).
  assert (B3 : Z.testbit v 3 = true /\ Z.testbit v 2 = false).
  { unfold v. split.
    - rewrite Z.land_spec, Z.shiftr_spec by lia.
      repeat rewrite ?Z.lor_spec, ?Z.land_spec, ?Z.lnot_spec,
        ?Z.shiftl_spec by lia.
      generalize (Z.testbit n (3 + 60)). intros [|]; reflexivity.
    - rewrite Z.land_spec, Z.shiftr_spec by lia.
      repeat rewrite ?Z.lor_spec, ?Z.land_spec, ?Z.lnot_spec,
        ?Z.shiftl_spec by lia.
      generalize (Z.testbit n (2 + 60)). intros [|]; reflexivity. }
  assert (R : 0 <= v < 16).
  { unfold v. change 15 with (Z.ones 4). rewrite Z.land_ones by lia.
    apply Z.mod_pos_bound. reflexivity. }
  destruct B3 as (T3 & T2).
  revert R T3 T2. generalize v. clear. intros v R T3 T2.
  assert (C : v = 0 \/ v = 1 \/ v = 2 \/ v = 3 \/ v = 4 \/ v = 5 \/ v = 6
              \/ v = 7 \/ v = 8 \/ v = 9 \/ v = 10 \/ v = 11 \/ v = 12
              \/ v = 13 \/ v = 14 \/ v = 15) by lia.
  repeat (destruct C as [-> | C]; [try lia; try discriminate |]).
  subst v. discriminate.
Qed.

Lemma follows_x (c : ascii) (pat s : string) :
  follows (String "x" pat) (String c s) = is_hex_lower c && follows pat s.
Proof. reflexivity. Qed.

Lemma follows_y (c : ascii) (pat s : string) :
  follows (String "y" pat) (String c s)
  = (Ascii.eqb c "8" || Ascii.eqb c "9" || Ascii.eqb c "a" || Ascii.eqb c "b")
    && follows pat s.
Proof. reflexivity. Qed.

Lemma follows_hyphen (pat s : string) :
  follows (String "-" pat) (String "-" s) = follows pat s.
Proof. reflexivity. Qed.

Lemma follows_4 (c : ascii) (pat s : string) :
  follows (String "4" pat) (String c s) = Ascii.eqb "4" c && follows pat s.
Proof. reflexivity. Qed.

Lemma variant_char (v : Z) :
  8 <= v <= 11 ->
  let c := uuid.hex_digit v in
  Ascii.eqb c "8" || Ascii.eqb c "9" || Ascii.eqb c "a" || Ascii.eqb c "b"
  = true.
Proof.
  intros H.
  assert (C : v = 8 \/ v = 9 \/ v = 10 \/ v = 11) by lia.
  destruct C as [-> | [-> | [-> | ->]]]; reflexivity.
Qed.

Lemma uuid_str_follows (n : Z) :
  Z.land (Z.shiftr n 76) 15 = 4 ->
  8 <= Z.land (Z.shiftr n 60) 15 <= 11 ->
  is_uuid4_text (uuid.str (uuid.mkUUID n)) = true.
Proof.
  intros V R. apply variant_char in R. cbv zeta in R.
  unfold is_uuid4_text, uuid.str, uuid.format_032x. cbn [uuid.int].
  repeat rewrite hex_fixed_S.
  change (uuid.hex_fixed 0 n) with ""%string.
  cbn [substring append String.length Nat.sub].
  change (4 * Z.of_nat 19) with 76. change (4 * Z.of_nat 15) with 60.
  rewrite V.
  repeat first [rewrite follows_x, hex_digit_lower | rewrite follows_hyphen
               | rewrite follows_4 | rewrite follows_y, R].
  reflexivity.
Qed.

(** [str(uuid.uuid4())] is a version 4 UUID in canonical form, whatever
    bytes [os.urandom] returned. *)
Lemma uuid4_text (bs : list byte) :
  is_uuid4_text (uuid.str (uuid.UUID_of_bytes bs 4)) = true.
Proof.
  pose proof (version_digit bs) as V. pose proof (variant_digit bs) as R.
  destruct (uuid.UUID_of_bytes bs 4) as [n]. cbn [uuid.int] in V, R.
  apply uuid_str_follows; assumption.
Qed.

Lemma written_bit_spec (i : Z) (b : bool) :
  0 <= i -> written_bit i b = uuid4_bit i b.
Proof.
  intros Hi. destruct (Z.ltb_spec i 80) as [L | G].
  - pose (P := fun i => Bool.eqb (written_bit i true) (uuid4_bit i true)
                       && Bool.eqb (written_bit i false) (uuid4_bit i false)).
    assert (H : P i = true).
    { apply (checked_below P 80); [vm_compute; reflexivity | lia]. }
    unfold P in H. apply andb_true_iff in H. destruct H as [Ht Hf].
    destruct b; apply Bool.eqb_prop; assumption.
  - unfold written_bit, uuid4_bit.
    rewrite (testbit_above 0xc000 16 (i - 48)) by lia.
    rewrite (testbit_above 0x8000 16 (i - 48)) by lia.
    rewrite (testbit_above 0xf000 16 (i - 64)) by lia.
    rewrite (testbit_above 4 3 (i - 76)) by lia.
    replace (i <=? 79) with false by (symmetry; apply Z.leb_gt; lia).
    replace (i =? 63) with false by (symmetry; apply Z.eqb_neq; lia).
    replace (i =? 62) with false by (symmetry; apply Z.eqb_neq; lia).
    rewrite andb_false_r. destruct b; reflexivity.
Qed.

Lemma UUID_of_bytes_bit (bs : list byte) (i : Z) :
  0 <= i ->
  Z.testbit (uuid.int (uuid.UUID_of_bytes bs 4)) i
  = uuid4_bit i (Z.testbit (int_from_bytes bs) i).
Proof.
  intros Hi. rewrite <- written_bit_spec by exact Hi.
  unfold uuid.UUID_of_bytes, written_bit. cbn [uuid.int]. cbv zeta.
  rewrite Z.lor_spec, Z.land_spec, Z.lor_spec, Z.land_spec, !Z.lnot_spec
    by exact Hi.
  rewrite !Z.shiftl_spec by exact Hi. reflexivity.
Qed.

(* ================================================================== *)
(** * Characters and digits *)
(* ================================================================== *)

Lemma append_empty_r (s : string) : (s ++ "")%string = s.
Proof.
  induction s as [| c s IH]; [reflexivity |]. cbn. rewrite IH. reflexivity.
Qed.

Lemma all_chars_app (P : ascii -> bool) (a b : string) :
  all_chars P (a ++ b)%string = all_chars P a && all_chars P b.
Proof.
  induction a as [| c a IH]; [reflexivity |].
  cbn [append all_chars]. rewrite IH. apply andb_assoc.
Qed.

Lemma all_chars_weaken (P Q : ascii -> bool) (s : string) :
  (forall c, P c = true -> Q c = true) ->
  all_chars P s = true -> all_chars Q s = true.
Proof.
  intros H. induction s as [| c s IH]; [reflexivity |].
  cbn [all_chars]. rewrite !andb_true_iff. intros [Hc Hs].
  split; [apply H, Hc | apply IH, Hs].
Qed.

Lemma plain_printable (c : ascii) : plain c = true -> printable c = true.
Proof.
  unfold plain. rewrite !andb_true_iff. intros [[H _] _]. exact H.
Qed.

(** ** json: the characters that are written *)

Lemma hex_fixed_printable (w : nat) (n : Z) :
  all_chars printable (uuid.hex_fixed w n) = true.
Proof.
  induction w as [| w IH]; [reflexivity |].
  rewrite hex_fixed_S. cbn [all_chars]. rewrite IH, andb_true_r.
  assert (H : 0 <= Z.land (Z.shiftr n (4 * Z.of_nat w)) 15 < 16).
  { change 15 with (Z.ones 4). rewrite Z.land_ones by lia.
    apply Z.mod_pos_bound. reflexivity. }
  revert H. generalize (Z.land (Z.shiftr n (4 * Z.of_nat w)) 15). intros i H.
  apply (checked_below (fun i => printable (uuid.hex_digit i)) 16);
    [vm_compute; reflexivity | exact H].
Qed.

Lemma ord_range (c : ascii) : 0 <= ord c < 256.
Proof.
  unfold ord. pose proof (N_ascii_bounded c) as H. lia.
Qed.

Lemma escape_char_printable (c : ascii) :
  all_chars printable (json.escape_char c) = true.
Proof.
  unfold json.escape_char. cbv zeta.
  destruct (ord c =? 92); [reflexivity |].
  destruct (ord c =? 34); [reflexivity |].
  destruct ((32 <=? ord c) && (ord c <=? 126)) eqn:E.
  - cbn [all_chars]. unfold printable. rewrite E. reflexivity.
  - destruct (ord c =? 8); [reflexivity |].
    destruct (ord c =? 12); [reflexivity |].
    destruct (ord c =? 10); [reflexivity |].
    destruct (ord c =? 13); [reflexivity |].
    destruct (ord c =? 9); [reflexivity |].
    unfold json.u_escape. cbn [all_chars].
    rewrite hex_fixed_printable. reflexivity.
Qed.

Lemma escape_printable (s : string) :
  all_chars printable (json.escape s) = true.
Proof.
  induction s as [| c s IH]; [reflexivity |].
  cbn [json.escape]. rewrite all_chars_app, escape_char_printable, IH.
  reflexivity.
Qed.

Lemma encode_basestring_ascii_printable (s : string) :
  all_chars printable (json.encode_basestring_ascii s) = true.
Proof.
  unfold json.encode_basestring_ascii. cbn [all_chars append].
  rewrite all_chars_app, escape_printable. reflexivity.
Qed.

Lemma escape_plain (s : string) :
  all_chars plain s = true -> json.escape s = s.
Proof.
  induction s as [| c s IH]; [reflexivity |].
  cbn [all_chars json.escape]. rewrite andb_true_iff. intros [Hc Hs].
  rewrite (IH Hs). unfold json.escape_char. cbv zeta.
  unfold plain, printable in Hc.
  rewrite !andb_true_iff, !negb_true_iff in Hc.
  destruct Hc as [[[H1 H2] H3] H4].
  rewrite H4, H3, H1, H2. reflexivity.
Qed.

Lemma encode_basestring_ascii_plain (s : string) :
  all_chars plain s = true -> json.encode_basestring_ascii s = quoted s.
Proof.
  intros H. unfold json.encode_basestring_ascii, quoted.
  rewrite (escape_plain s H). reflexivity.
Qed.

Lemma string_of_uint_decimal (d : Decimal.uint) :
  all_chars is_decimal (DecimalString.NilEmpty.string_of_uint d) = true.
Proof.
  induction d; cbn [DecimalString.NilEmpty.string_of_uint all_chars];
    rewrite ?IHd; reflexivity.
Qed.

Lemma string_of_uint_length (d : Decimal.uint) :
  String.length (DecimalString.NilEmpty.string_of_uint d) = Decimal.nb_digits d.
Proof.
  induction d; cbn [DecimalString.NilEmpty.string_of_uint String.length
                    Decimal.nb_digits]; rewrite ?IHd; reflexivity.
Qed.

Lemma of_lu_digit (i : Z) (d : Decimal.uint) :
  0 <= i < 10 ->
  DecimalPos.Unsigned.of_lu (digit i d)
  = (Z.to_N i + 10 * DecimalPos.Unsigned.of_lu d)%N.
Proof.
  intros H.
  assert (C : i = 0 \/ i = 1 \/ i = 2 \/ i = 3 \/ i = 4 \/ i = 5 \/ i = 6
              \/ i = 7 \/ i = 8 \/ i = 9) by lia.
  repeat (destruct C as [-> | C]; [reflexivity |]). subst i. reflexivity.
Qed.

Lemma nb_digits_digit (i : Z) (d : Decimal.uint) :
  Decimal.nb_digits (digit i d) = S (Decimal.nb_digits d).
Proof.
  unfold digit.
  repeat match goal with |- context [match ?x with _ => _ end] => destruct x end;
    reflexivity.
Qed.

Lemma nb_digits_little (k : nat) (z : Z) :
  Decimal.nb_digits (little_digits k z) = k.
Proof.
  revert z. induction k as [| k IH]; intros z; [reflexivity |].
  cbn [little_digits]. rewrite nb_digits_digit, IH. reflexivity.
Qed.

Lemma of_lu_little (k : nat) (z : Z) :
  0 <= z < 10 ^ Z.of_nat k ->
  DecimalPos.Unsigned.of_lu (little_digits k z) = Z.to_N z.
Proof.
  revert z. induction k as [| k IH]; intros z H.
  - change (10 ^ Z.of_nat 0) with 1 in H. replace z with 0 by lia. reflexivity.
  - cbn [little_digits].
    rewrite of_lu_digit by (apply Z.mod_pos_bound; lia).
    rewrite Nat2Z.inj_succ, Z.pow_succ_r in H by lia.
    rewrite IH by (Z.div_mod_to_equations; lia).
    apply N2Z.inj. rewrite N2Z.inj_add, N2Z.inj_mul, !Z2N.id;
      try (Z.div_mod_to_equations; lia).
Qed.

Lemma to_uint_digits (p : positive) (k : nat) :
  Z.pos p < 10 ^ Z.of_nat k ->
  (Decimal.nb_digits (Pos.to_uint p) <= k)%nat.
Proof.
  intros H.
  assert (E : Pos.to_uint p
              = Decimal.unorm (Decimal.rev (little_digits k (Z.pos p)))).
  { rewrite <- DecimalPos.Unsigned.to_of, DecimalPos.Unsigned.of_lu_rev.
    rewrite of_lu_little by lia. reflexivity. }
  rewrite E.
  destruct k as [| k].
  - change (10 ^ Z.of_nat 0) with 1 in H. lia.
  - etransitivity; [apply DecimalFacts.nb_digits_unorm |].
    + intros N. apply (f_equal Decimal.nb_digits) in N.
      rewrite DecimalFacts.nb_digits_rev, nb_digits_little in N. discriminate N.
    + rewrite DecimalFacts.nb_digits_rev, nb_digits_little. reflexivity.
Qed.

Lemma decimal_digits_facts (z : Z) (k : nat) :
  0 <= z < 10 ^ Z.of_nat k -> (0 < k)%nat ->
  (String.length (decimal_digits z) <= k)%nat
  /\ all_chars is_decimal (decimal_digits z) = true.
Proof.
  intros H Hk. unfold decimal_digits. rewrite Z.abs_eq by lia.
  destruct z as [| p | p]; [| | lia].
  - split; [cbn; lia | reflexivity].
  - cbn [Z.to_int DecimalString.NilZero.string_of_int].
    pose proof (DecimalPos.Unsigned.to_uint_nonnil p) as N.
    pose proof (to_uint_digits p k (proj2 H)) as L.
    destruct (Pos.to_uint p) eqn:E; [contradiction N; reflexivity | ..];
      cbn [DecimalString.NilZero.string_of_uint];
      rewrite string_of_uint_length, string_of_uint_decimal;
      (split; [exact L | reflexivity]).
Qed.

Lemma replicate_length (n : nat) (c : ascii) :
  String.length (replicate n c) = n.
Proof.
  induction n as [| n IH]; [reflexivity |]. cbn. rewrite IH. reflexivity.
Qed.

Lemma replicate_chars (P : ascii -> bool) (n : nat) (c : ascii) :
  P c = true -> all_chars P (replicate n c) = true.
Proof.
  intros H. induction n as [| n IH]; [reflexivity |].
  cbn [replicate all_chars]. rewrite H, IH. reflexivity.
Qed.

(** Below [10 ^ width] the format gives exactly [width] digits. *)
Lemma format_0d_fixed (width : nat) (z : Z) :
  0 <= z < 10 ^ Z.of_nat width -> (0 < width)%nat ->
  String.length (format_0d width z) = width
  /\ all_chars is_decimal (format_0d width z) = true.
Proof.
  intros H Hw. unfold format_0d. cbv zeta.
  fold (decimal_digits z).
  destruct (decimal_digits_facts z width H Hw) as (L & D).
  replace (z <? 0) with false by (symmetry; apply Z.ltb_ge; lia).
  rewrite length_append, replicate_length, all_chars_app, D.
  rewrite replicate_chars by reflexivity.
  split; [lia | reflexivity].
Qed.

(* ================================================================== *)
(** * str of a datetime *)
(* ================================================================== *)

Lemma is_decimal_plain (c : ascii) : is_decimal c = true -> plain c = true.
Proof.
  unfold is_decimal, plain, printable.
  rewrite !andb_true_iff, !negb_true_iff, !Z.leb_le, !Z.eqb_neq. lia.
Qed.

Lemma format_0d_plain (width : nat) (z : Z) :
  0 <= z < 10 ^ Z.of_nat width -> (0 < width)%nat ->
  all_chars plain (format_0d width z) = true.
Proof.
  intros H Hw. apply (all_chars_weaken is_decimal); [apply is_decimal_plain |].
  apply (format_0d_fixed width z H Hw).
Qed.

Lemma isoformat_unfold (o : datetime.obj) (sep : ascii) :
  datetime.isoformat o sep
  = (format_0d 4 (datetime.year o) ++ "-" ++ format_0d 2 (datetime.month o)
     ++ "-" ++ format_0d 2 (datetime.day o)
     ++ String sep
          (format_0d 2 (datetime.hour o) ++ ":"
           ++ format_0d 2 (datetime.minute o) ++ ":"
           ++ format_0d 2 (datetime.second o)
           ++ (if (datetime.microsecond o =? 0)%Z then ""
               else "." ++ format_0d 6 (datetime.microsecond o))))%string.
Proof. reflexivity. Qed.

(** The fields of a representable datetime, within the widths of the
    format. *)
Lemma fields_widths (d : Z) :
  datetime.representable d = true ->
  let o := datetime.fields d in
  0 <= datetime.year o < 10 ^ Z.of_nat 4
  /\ 0 <= datetime.month o < 10 ^ Z.of_nat 2
  /\ 0 <= datetime.day o < 10 ^ Z.of_nat 2
  /\ 0 <= datetime.hour o < 10 ^ Z.of_nat 2
  /\ 0 <= datetime.minute o < 10 ^ Z.of_nat 2
  /\ 0 <= datetime.second o < 10 ^ Z.of_nat 2
  /\ 0 <= datetime.microsecond o < 10 ^ Z.of_nat 6
  /\ datetime.microsecond o = d mod 1000000.
Proof.
  intros R. pose proof (fields_year d R) as Y.
  pose proof (fields_valid d) as V. cbv zeta in V |- *.
  assert (U : datetime.microsecond (datetime.fields d) = d mod 1000000).
  { rewrite fields_unfold. cbv zeta. cbn [datetime.microsecond].
    Z.div_mod_to_equations. lia. }
  assert (M : datetime.days_in_month (datetime.year (datetime.fields d))
                                     (datetime.month (datetime.fields d)) <= 31).
  { destruct V as (Hm & _). revert Hm.
    generalize (datetime.month (datetime.fields d)).
    generalize (datetime.year (datetime.fields d)). intros y m Hm.
    unfold datetime.days_in_month.
    destruct ((m =? 2) && datetime.is_leap y); [lia |].
    assert (C : m = 1 \/ m = 2 \/ m = 3 \/ m = 4 \/ m = 5 \/ m = 6 \/ m = 7
                \/ m = 8 \/ m = 9 \/ m = 10 \/ m = 11 \/ m = 12) by lia.
    repeat (destruct C as [-> | C]; [vm_compute; discriminate |]).
    subst m. vm_compute. discriminate. }
  change (10 ^ Z.of_nat 4) with 10000. change (10 ^ Z.of_nat 2) with 100.
  change (10 ^ Z.of_nat 6) with 1000000.
  revert Y V U M. generalize (datetime.fields d). intros o Y V U M.
  lia.
Qed.

Lemma str_facts (d : Z) :
  datetime.representable d = true ->
  String.length (datetime.str d)
  = (if d mod 1000000 =? 0 then 19%nat else 26%nat)
  /\ all_chars plain (datetime.str d) = true.
Proof.
  intros R.
  destruct (fields_widths d R) as (Y & Mo & Da & Ho & Mi & Se & Us & E).
  unfold datetime.str. rewrite isoformat_unfold.
  rewrite <- E.
  revert Y Mo Da Ho Mi Se Us. clear E. generalize (datetime.fields d).
  intros o Y Mo Da Ho Mi Se Us.
  assert (W4 : (0 < 4)%nat) by lia. assert (W2 : (0 < 2)%nat) by lia.
  assert (W6 : (0 < 6)%nat) by lia.
  destruct (format_0d_fixed 4 _ Y W4) as (L1 & _).
  destruct (format_0d_fixed 2 _ Mo W2) as (L2 & _).
  destruct (format_0d_fixed 2 _ Da W2) as (L3 & _).
  destruct (format_0d_fixed 2 _ Ho W2) as (L4 & _).
  destruct (format_0d_fixed 2 _ Mi W2) as (L5 & _).
  destruct (format_0d_fixed 2 _ Se W2) as (L6 & _).
  destruct (format_0d_fixed 6 _ Us W6) as (L7 & _).
  pose proof (format_0d_plain 4 _ Y W4) as P1.
  pose proof (format_0d_plain 2 _ Mo W2) as P2.
  pose proof (format_0d_plain 2 _ Da W2) as P3.
  pose proof (format_0d_plain 2 _ Ho W2) as P4.
  pose proof (format_0d_plain 2 _ Mi W2) as P5.
  pose proof (format_0d_plain 2 _ Se W2) as P6.
  pose proof (format_0d_plain 6 _ Us W6) as P7.
  split.
  - repeat (rewrite ?length_append; cbn [String.length]).
    rewrite L1, L2, L3, L4, L5, L6.
    destruct (datetime.microsecond o =? 0).
    + reflexivity.
    + cbn [append String.length]. rewrite L7. reflexivity.
  - repeat (rewrite ?all_chars_app; cbn [all_chars]).
    rewrite P1, P2, P3, P4, P5, P6.
    destruct (datetime.microsecond o =? 0).
    + reflexivity.
    + cbn [append all_chars]. rewrite P7. reflexivity.
Qed.

(** ** The shape of [str(d)] *)

Lemma follows_app (p1 p2 s1 s2 : string) :
  follows p1 s1 = true -> follows p2 s2 = true ->
  follows (p1 ++ p2) (s1 ++ s2) = true.
Proof.
  revert s1. induction p1 as [| p p1 IH]; intros [| c s1] H1 H2;
    try discriminate H1.
  - exact H2.
  - cbn [follows] in H1. apply andb_true_iff in H1. destruct H1 as [Hc H1].
    cbn [append follows]. rewrite Hc, (IH s1 H1 H2). reflexivity.
Qed.

Lemma follows_decimal (s : string) :
  all_chars is_decimal s = true ->
  follows (replicate (String.length s) "d") s = true.
Proof.
  induction s as [| c s IH]; [reflexivity |].
  cbn [all_chars String.length replicate follows].
  rewrite andb_true_iff. intros [Hc Hs].
  change (Ascii.eqb "d" "x") with false. change (Ascii.eqb "d" "y") with false.
  change (Ascii.eqb "d" "d") with true. cbv iota.
  rewrite Hc, (IH Hs). reflexivity.
Qed.

Lemma format_0d_follows (width : nat) (z : Z) :
  0 <= z < 10 ^ Z.of_nat width -> (0 < width)%nat ->
  follows (replicate width "d") (format_0d width z) = true.
Proof.
  intros H Hw. destruct (format_0d_fixed width z H Hw) as (L & D).
  rewrite <- L at 1. apply follows_decimal, D.
Qed.

Lemma str_shape (d : Z) :
  datetime.representable d = true ->
  follows (if d mod 1000000 =? 0 then "dddd-dd-dd dd:dd:dd"
           else "dddd-dd-dd dd:dd:dd.dddddd")
          (datetime.str d) = true.
Proof.
  intros R.
  destruct (fields_widths d R) as (Y & Mo & Da & Ho & Mi & Se & Us & E).
  unfold datetime.str. rewrite isoformat_unfold.
  rewrite <- E.
  revert Y Mo Da Ho Mi Se Us. clear E. generalize (datetime.fields d).
  intros o Y Mo Da Ho Mi Se Us.
  assert (W4 : (0 < 4)%nat) by lia. assert (W2 : (0 < 2)%nat) by lia.
  assert (W6 : (0 < 6)%nat) by lia.
  pose proof (format_0d_follows 4 _ Y W4) as F1.
  pose proof (format_0d_follows 2 _ Mo W2) as F2.
  pose proof (format_0d_follows 2 _ Da W2) as F3.
  pose proof (format_0d_follows 2 _ Ho W2) as F4.
  pose proof (format_0d_follows 2 _ Mi W2) as F5.
  pose proof (format_0d_follows 2 _ Se W2) as F6.
  pose proof (format_0d_follows 6 _ Us W6) as F7.
  cbn [replicate] in F1, F2, F3, F4, F5, F6, F7.
  destruct (datetime.microsecond o =? 0).
  - apply (follows_app "dddd" "-dd-dd dd:dd:dd" _ _ F1).
    apply (follows_app "-" "dd-dd dd:dd:dd" "-" _ eq_refl).
    apply (follows_app "dd" "-dd dd:dd:dd" _ _ F2).
    apply (follows_app "-" "dd dd:dd:dd" "-" _ eq_refl).
    apply (follows_app "dd" " dd:dd:dd" _ _ F3).
    apply (follows_app " " "dd:dd:dd" " " _ eq_refl).
    apply (follows_app "dd" ":dd:dd" _ _ F4).
    apply (follows_app ":" "dd:dd" ":" _ eq_refl).
    apply (follows_app "dd" ":dd" _ _ F5).
    apply (follows_app ":" "dd" ":" _ eq_refl).
    rewrite append_empty_r. exact F6.
  - apply (follows_app "dddd" "-dd-dd dd:dd:dd.dddddd" _ _ F1).
    apply (follows_app "-" "dd-dd dd:dd:dd.dddddd" "-" _ eq_refl).
    apply (follows_app "dd" "-dd dd:dd:dd.dddddd" _ _ F2).
    apply (follows_app "-" "dd dd:dd:dd.dddddd" "-" _ eq_refl).
    apply (follows_app "dd" " dd:dd:dd.dddddd" _ _ F3).
    apply (follows_app " " "dd:dd:dd.dddddd" " " _ eq_refl).
    apply (follows_app "dd" ":dd:dd.dddddd" _ _ F4).
    apply (follows_app ":" "dd:dd.dddddd" ":" _ eq_refl).
    apply (follows_app "dd" ":dd.dddddd" _ _ F5).
    apply (follows_app ":" "dd.dddddd" ":" _ eq_refl).
    apply (follows_app "dd" ".dddddd" _ _ F6).
    apply (follows_app "." "dddddd" "." _ eq_refl).
    exact F7.
Qed.

(* ================================================================== *)
(** * The report, line by line *)
(* ================================================================== *)

Lemma printable_not_LF (c : ascii) : printable c = true -> (ord c =? 10) = false.
Proof.
  unfold printable. rewrite andb_true_iff, !Z.leb_le, Z.eqb_neq. lia.
Qed.

Lemma lines_line (l rest : string) :
  all_chars printable l = true ->
  lines (l ++ nl ++ rest)%string = l :: lines rest.
Proof.
  induction l as [| c l IH]; intros H.
  - reflexivity.
  - cbn [all_chars] in H. apply andb_true_iff in H. destruct H as [Hc Hl].
    cbn [append lines]. rewrite (printable_not_LF c Hc), (IH Hl). reflexivity.
Qed.

Lemma lines_text_of (ls : list string) :
  forallb (all_chars printable) ls = true -> lines (text_of ls) = ls.
Proof.
  induction ls as [| l ls IH]; intros H; [reflexivity |].
  cbn [forallb] in H. apply andb_true_iff in H. destruct H as [Hl Hls].
  cbn [text_of]. rewrite (lines_line l _ Hl), (IH Hls). reflexivity.
Qed.

Lemma text_of_app (a b : list string) :
  text_of (a ++ b) = (text_of a ++ text_of b)%string.
Proof.
  induction a as [| l a IH]; [reflexivity |].
  cbn [app text_of]. rewrite IH, !append_assoc. reflexivity.
Qed.

Lemma print_text_of (ls : list string) (s : string) :
  print (text_of ls) s = text_of (ls ++ [s]).
Proof.
  unfold print. rewrite text_of_app. cbn [text_of].
  rewrite append_empty_r. reflexivity.
Qed.

Lemma iterencode_dict_items_rest (default : value -> string)
      (sep ks : string) (d : dict) :
  d <> [] ->
  json.iterencode_dict_items default sep ks false d
  = (sep ++ json.iterencode_dict_items default sep ks true d)%string.
Proof.
  destruct d as [| [k v] d]; [intros H; contradiction H; reflexivity |].
  intros _. reflexivity.
Qed.

Lemma items_text (default : value -> string) (indent : nat) (d : dict) :
  d <> [] ->
  (replicate indent " "
   ++ json.iterencode_dict_items default ("," ++ nl ++ replicate indent " ")
        ": " true d ++ nl)%string
  = text_of (item_lines default indent d).
Proof.
  induction d as [| [k v] d IH]; [intros H; contradiction H; reflexivity |].
  intros _. cbn [json.iterencode_dict_items item_lines text_of].
  destruct d as [| kv d].
  - cbn [json.iterencode_dict_items text_of append].
    rewrite !append_assoc. cbn [append]. rewrite !append_assoc.
    rewrite !append_empty_r. reflexivity.
  - rewrite iterencode_dict_items_rest by discriminate.
    rewrite <- IH by discriminate.
    repeat (rewrite ?append_assoc; cbn [append]). reflexivity.
Qed.

Lemma dumps_indent_text (default : value -> string) (indent : nat) (d : dict) :
  d <> [] ->
  (json.dumps_indent d indent default ++ nl)%string
  = text_of ("{" :: item_lines default indent d ++ ["}"]).
Proof.
  intros H. unfold json.dumps_indent.
  destruct d as [| kv d]; [contradiction H; reflexivity |].
  cbv zeta. cbn [text_of]. rewrite text_of_app, <- items_text by discriminate.
  rewrite Nat.mul_1_r, Nat.sub_diag, Nat.mul_0_r.
  cbn [replicate text_of append].
  repeat (rewrite ?append_assoc; cbn [append]). reflexivity.
Qed.

Lemma text_of_block (ls block : list string) (s : string) :
  (s ++ nl)%string = text_of block ->
  text_of (ls ++ [s]) = text_of (ls ++ block).
Proof.
  intros H. rewrite !text_of_app, <- H. cbn [text_of].
  rewrite append_empty_r. reflexivity.
Qed.

Lemma report_unfold (g : Globals) (w : World) :
  urandom_found w = true ->
  payload g <> [] ->
  report g w
  = Returns (text_of (report_lines g (key_at w (urandom_used w))
                                      (key_at w (urandom_used w + 16))))
            (world_at_end w).
Proof.
  intros F H. destruct w as [found source used clock reads].
  cbn [urandom_found] in F. subst found.
  unfold report.
  change EmptyString with (text_of []) at 1.
  repeat rewrite print_text_of.
  unfold Py.bind at 1. unfold uuid.uuid4 at 1. unfold Py.bind at 1.
  unfold os_urandom at 1. cbn [urandom_found]. cbv iota. unfold ret at 1.
  repeat rewrite print_text_of.
  unfold Py.bind at 1. unfold uuid.uuid4 at 1. unfold Py.bind at 1.
  unfold os_urandom at 1.
  cbn [urandom_found urandom_source urandom_used system_clock clock_reads].
  unfold ret at 1.
  repeat rewrite print_text_of.
  rewrite (text_of_block _ _ _ (dumps_indent_text str 2 (payload g) H)).
  cbn [app]. reflexivity.
Qed.

Lemma script_run (w : World) (g : Globals) :
  returned (script w) = Some g -> script w = Returns g (world_after w).
Proof.
  rewrite script_unfold.
  destruct (urandom_found w); [| intros H; discriminate H].
  destruct (datetime.representable (first_reading w));
    [| intros H; discriminate H].
  destruct (datetime.representable (second_reading w));
    [| intros H; discriminate H].
  destruct (datetime.representable (second_reading w + datetime.timedelta 24));
    [| intros H; discriminate H].
  destruct (jwt.encode (payload_in w) SECRET_KEY) as [e | tok];
    cbn [returned]; intros H; [discriminate H |].
  apply Some_inj in H. rewrite H. reflexivity.
Qed.

Lemma idempotency_draws_keys (w : World) :
  idempotency_draws w
  = (key_at (world_after w) (urandom_used (world_after w)),
     key_at (world_after w) (urandom_used (world_after w) + 16)).
Proof. reflexivity. Qed.

(** The whole run: the report follows every run of [script] that
    returns, and draws two more UUIDs. *)
Lemma main_run (w : World) (g : Globals) :
  returned (script w) = Some g ->
  main w
  = Returns (g, text_of (report_lines g (fst (idempotency_draws w))
                                        (snd (idempotency_draws w))))
            (world_at_end (world_after w)).
Proof.
  intros H. unfold main. unfold Py.bind at 1. rewrite (script_run w g H).
  unfold Py.bind at 1. rewrite report_unfold.
  - rewrite idempotency_draws_keys. reflexivity.
  - exact (script_returns_found w g H).
  - destruct (script_returns w g H) as (_ & _ & _ & _ & _ & P & _).
    rewrite P. discriminate.
Qed.

Lemma main_raises (w : World) (e : exn) :
  raised (script w) = Some e -> main w = Raises e.
Proof.
  intros H. unfold main. unfold Py.bind at 1.
  destruct (script w) as [g w' | e']; cbn [raised] in H; [discriminate H |].
  apply Some_inj in H. rewrite H. reflexivity.
Qed.

(** ** The characters of what is printed *)

Lemma follows_plain (pat s : string) :
  all_chars plain pat = true -> follows pat s = true ->
  all_chars plain s = true.
Proof.
  revert s. induction pat as [| p pat IH]; intros [| c s] Hp H;
    try reflexivity; try discriminate H.
  cbn [all_chars] in Hp. apply andb_true_iff in Hp. destruct Hp as [Hp Hpat].
  cbn [follows] in H. apply andb_true_iff in H. destruct H as [Hc Hs].
  cbn [all_chars]. rewrite (IH s Hpat Hs), andb_true_r.
  destruct (Ascii.eqb p "x").
  - unfold is_hex_lower in Hc. unfold plain, printable.
    rewrite !andb_true_iff, !negb_true_iff, !Z.leb_le, !Z.eqb_neq.
    rewrite orb_true_iff, !andb_true_iff, !Z.leb_le in Hc. lia.
  - destruct (Ascii.eqb p "y").
    + rewrite !orb_true_iff, !Ascii.eqb_eq in Hc.
      destruct Hc as [[[-> | ->] | ->] | ->]; reflexivity.
    + destruct (Ascii.eqb p "d").
      * apply is_decimal_plain, Hc.
      * apply Ascii.eqb_eq in Hc. subst c. exact Hp.
Qed.

Lemma uuid4_text_plain (s : string) :
  is_uuid4_text s = true -> all_chars plain s = true.
Proof. apply follows_plain. reflexivity. Qed.

Lemma string_of_bytes_chars (P : ascii -> bool) (bs : list byte) :
  all_chars P (string_of_list_byte bs)
  = forallb (fun b => P (ascii_of_byte b)) bs.
Proof.
  induction bs as [| b bs IH]; [reflexivity |].
  cbn [string_of_list_byte list_ascii_of_string map string_of_list_ascii
       all_chars forallb].
  unfold string_of_list_byte in IH. rewrite IH. reflexivity.
Qed.

Lemma base64url_char_plain (b : byte) :
  is_base64url_char b = true -> plain (ascii_of_byte b) = true.
Proof.
  revert b.
  assert (H : forallb (fun b => implb (is_base64url_char b)
                                       (plain (ascii_of_byte b)))
                      (map byte_of_Z (map Z.of_nat (seq 0 256))) = true)
    by (vm_compute; reflexivity).
  intros b Hb. rewrite forallb_forall in H.
  specialize (H b). rewrite Hb in H. apply H.
  apply in_map_iff. exists (Z_of_byte b). split; [apply byte_of_Z_of_byte |].
  apply in_map_iff. exists (Z.to_nat (Z_of_byte b)).
  pose proof (Z_of_byte_range b) as R.
  split; [lia | apply in_seq; lia].
Qed.

Lemma token_bytes_plain (js key : string) :
  all_chars plain (string_of_list_byte (token_bytes js key)) = true.
Proof.
  rewrite string_of_bytes_chars.
  destruct (token_bytes_chars js key) as (H & P & S).
  unfold token_bytes, signing_input_of.
  assert (W : forall bs, forallb is_base64url_char bs = true ->
                         forallb (fun b => plain (ascii_of_byte b)) bs = true).
  { intros bs Hbs. rewrite forallb_forall in Hbs |- *.
    intros b Hb. apply base64url_char_plain, Hbs, Hb. }
  rewrite !forallb_app. cbn [forallb].
  rewrite (W _ H), (W _ P), (W _ S). reflexivity.
Qed.

Lemma all_chars_quoted (s : string) :
  all_chars printable (quoted s) = all_chars printable s.
Proof.
  unfold quoted. cbn [all_chars]. rewrite all_chars_app. cbn [all_chars].
  change (printable "034") with true. rewrite !andb_true_r. reflexivity.
Qed.

Lemma nilzero_uint_decimal (d : Decimal.uint) :
  all_chars is_decimal (DecimalString.NilZero.string_of_uint d) = true.
Proof.
  destruct d; try reflexivity;
    cbn [DecimalString.NilZero.string_of_uint];
    apply string_of_uint_decimal.
Qed.

Lemma intstr_printable (z : Z) : all_chars printable (json.intstr z) = true.
Proof.
  assert (W : forall d, all_chars printable
                          (DecimalString.NilZero.string_of_uint d) = true).
  { intros d. apply (all_chars_weaken is_decimal); [| apply nilzero_uint_decimal].
    intros c Hc. apply plain_printable, is_decimal_plain, Hc. }
  unfold json.intstr.
  destruct z; cbn [Z.to_int DecimalString.NilZero.string_of_int all_chars];
    rewrite ?W; reflexivity.
Qed.

Lemma iterencode_value_printable (default : value -> string) (v : value) :
  all_chars printable (json.iterencode_value default v) = true.
Proof.
  destruct v; cbn [json.iterencode_value];
    [apply encode_basestring_ascii_printable | apply intstr_printable
    | apply encode_basestring_ascii_printable].
Qed.

Lemma item_lines_printable (default : value -> string) (indent : nat)
      (d : dict) :
  forallb (all_chars printable) (item_lines default indent d) = true.
Proof.
  induction d as [| [k v] d IH]; [reflexivity |].
  cbn [item_lines forallb]. rewrite IH, andb_true_r.
  rewrite !all_chars_app, replicate_chars by reflexivity.
  rewrite encode_basestring_ascii_printable, iterencode_value_printable.
  destruct d; reflexivity.
Qed.

(** The identifiers of a run are version 4 UUIDs in canonical form. *)
Lemma run_identifiers (w : World) :
  is_uuid4_text (uuid.str (tenant_draw w)) = true
  /\ is_uuid4_text (uuid.str (user_draw w)) = true
  /\ is_uuid4_text (uuid.str (fst (idempotency_draws w))) = true
  /\ is_uuid4_text (uuid.str (snd (idempotency_draws w))) = true.
Proof.
  repeat split; apply uuid4_text.
Qed.

Lemma report_lines_printable (w : World) (g : Globals) :
  returned (script w) = Some g ->
  forallb (all_chars printable)
          (report_lines g (fst (idempotency_draws w))
                          (snd (idempotency_draws w))) = true.
Proof.
  intros H.
  destruct (script_returns w g H) as (_ & _ & _ & T & U & _ & _).
  destruct (script_globals w g H) as (js & _ & _ & K).
  destruct (run_identifiers w) as (It & Iu & I1 & I2).
  assert (Pt : all_chars printable (TENANT_ID g) = true).
  { rewrite T. apply (all_chars_weaken plain); [apply plain_printable |].
    apply uuid4_text_plain, It. }
  assert (Pu : all_chars printable (USER_ID g) = true).
  { rewrite U. apply (all_chars_weaken plain); [apply plain_printable |].
    apply uuid4_text_plain, Iu. }
  assert (Pk : all_chars printable (token g) = true).
  { rewrite K. apply (all_chars_weaken plain); [apply plain_printable |].
    apply token_bytes_plain. }
  assert (P1 : all_chars printable (uuid.str (fst (idempotency_draws w))) = true).
  { apply (all_chars_weaken plain); [apply plain_printable |].
    apply uuid4_text_plain, I1. }
  assert (P2 : all_chars printable (uuid.str (snd (idempotency_draws w))) = true).
  { apply (all_chars_weaken plain); [apply plain_printable |].
    apply uuid4_text_plain, I2. }
  unfold report_lines. rewrite forallb_app. cbn [forallb].
  rewrite forallb_app, item_lines_printable. cbn [forallb].
  unfold usage_lines. cbn [forallb].
  repeat rewrite ?all_chars_app, ?all_chars_quoted.
  rewrite Pt, Pu, Pk, P1, P2. reflexivity.
Qed.

Lemma item_lines_cons_str (default : value -> string) (k s : string)
      (d : dict) :
  all_chars plain k = true -> all_chars plain s = true ->
  item_lines default 2 ((k, Str s) :: d)
  = str_item_line k s (match d with [] => true | _ => false end)
    :: item_lines default 2 d.
Proof.
  intros Hk Hs. cbn [item_lines json.iterencode_value replicate].
  rewrite (encode_basestring_ascii_plain k Hk),
    (encode_basestring_ascii_plain s Hs).
  unfold str_item_line. destruct d; reflexivity.
Qed.

Lemma item_lines_cons_datetime (k : string) (t : datetime.t) (d : dict) :
  all_chars plain k = true -> datetime.representable t = true ->
  item_lines str 2 ((k, Datetime t) :: d)
  = str_item_line k (datetime.str t) (match d with [] => true | _ => false end)
    :: item_lines str 2 d.
Proof.
  intros Hk Ht. cbn [item_lines json.iterencode_value replicate str].
  rewrite (encode_basestring_ascii_plain k Hk),
    (encode_basestring_ascii_plain _ (proj2 (str_facts t Ht))).
  unfold str_item_line. destruct d; reflexivity.
Qed.

Lemma payload_block (w : World) :
  datetime.representable (first_reading w) = true ->
  datetime.representable (second_reading w + datetime.timedelta 24) = true ->
  ("{"%string :: item_lines str 2 (payload_in w) ++ ["}"%string])
  = decoded_block w.
Proof.
  intros R1 R2.
  destruct (run_identifiers w) as (It & Iu & _ & _).
  apply uuid4_text_plain in It, Iu.
  unfold payload_in, decoded_block.
  rewrite !item_lines_cons_str by (first [reflexivity | assumption]).
  rewrite !item_lines_cons_datetime by (first [reflexivity | assumption]).
  rewrite !item_lines_cons_str by (first [reflexivity | assumption]).
  reflexivity.
Qed.

(* ================================================================== *)
(** * json: what can be written *)
(* ================================================================== *)

Lemma encode_value_result (v : value) :
  json.encode_value v
  = if is_datetime v then inl TypeError
    else inr (json.iterencode_value str v).
Proof. destruct v; reflexivity. Qed.

Lemma iterencode_items_result (isep ksep : string) (first : bool) (d : dict) :
  json.iterencode_items isep ksep first d
  = if holds_datetime d then inl TypeError
    else inr (json.iterencode_dict_items str isep ksep first d).
Proof.
  revert first. induction d as [| [k v] d IH]; intros first; [reflexivity |].
  cbn [json.iterencode_items json.iterencode_dict_items holds_datetime existsb
       snd].
  rewrite encode_value_result, (IH false).
  fold (holds_datetime d).
  destruct (is_datetime v), (holds_datetime d); reflexivity.
Qed.

Lemma holds_datetime_insert (kv : string * value) (d : dict) :
  holds_datetime (json.insert_item kv d)
  = is_datetime (snd kv) || holds_datetime d.
Proof.
  induction d as [| kv' d IH]; [reflexivity |].
  cbn [json.insert_item]. destruct (String.leb (fst kv) (fst kv')).
  - reflexivity.
  - unfold holds_datetime in *. cbn [existsb]. rewrite IH.
    destruct (is_datetime (snd kv)), (is_datetime (snd kv')); reflexivity.
Qed.

Lemma holds_datetime_sorted (d : dict) :
  holds_datetime (json.sorted_items d) = holds_datetime d.
Proof.
  induction d as [| kv d IH]; [reflexivity |].
  unfold json.sorted_items in *. cbn [fold_right].
  rewrite holds_datetime_insert, IH. reflexivity.
Qed.

(** What [json.dumps] without [default] does with a mapping. *)
Lemma dumps_result (d : dict) (isep ksep : string) (sort_keys : bool) :
  json.dumps d isep ksep sort_keys
  = if holds_datetime d then inl TypeError
    else inr (match d with
              | [] => "{}"
              | _ => String "{"
                       (json.iterencode_dict_items str isep ksep true
                          (if sort_keys then json.sorted_items d else d)
                        ++ "}")
              end)%string.
Proof.
  unfold json.dumps. destruct d as [| kv d]; [reflexivity |].
  rewrite iterencode_items_result.
  replace (holds_datetime (if sort_keys then json.sorted_items (kv :: d)
                           else kv :: d))
    with (holds_datetime (kv :: d))
    by (destruct sort_keys; [rewrite holds_datetime_sorted |]; reflexivity).
  destruct (holds_datetime (kv :: d)); reflexivity.
Qed.

Lemma iterencode_dict_items_printable (default : value -> string)
      (isep ksep : string) (first : bool) (d : dict) :
  all_chars printable isep = true -> all_chars printable ksep = true ->
  all_chars printable (json.iterencode_dict_items default isep ksep first d) = true.
Proof.
  intros His Hks. revert first.
  induction d as [| [k v] d IH]; intros first; [reflexivity |].
  cbn [json.iterencode_dict_items].
  rewrite !all_chars_app, encode_basestring_ascii_printable, Hks,
    iterencode_value_printable, IH.
  destruct first; [reflexivity | rewrite His; reflexivity].
Qed.

(* ================================================================== *)
(** * jwt.encode for any mapping *)
(* ================================================================== *)

(** ** dict: storing and reading *)

Lemma dict_get_set_same (d : dict) (k : string) (v : value) :
  dict_get (dict_set d k v) k = Some v.
Proof.
  induction d as [| [k' v'] d IH]; cbn [dict_set dict_get].
  - rewrite String.eqb_refl. reflexivity.
  - destruct (String.eqb k' k) eqn:E; cbn [dict_get]; rewrite E;
      [reflexivity | exact IH].
Qed.

Lemma dict_get_set_other (d : dict) (k k' : string) (v : value) :
  k' <> k -> dict_get (dict_set d k v) k' = dict_get d k'.
Proof.
  intros N. induction d as [| [k0 v0] d IH]; cbn [dict_set dict_get].
  - destruct (String.eqb_spec k k'); [congruence | reflexivity].
  - destruct (String.eqb_spec k0 k) as [E | E]; cbn [dict_get].
    + subst k0. destruct (String.eqb_spec k k'); [congruence | reflexivity].
    + rewrite IH. reflexivity.
Qed.

Lemma dict_keys_set (d : dict) (k : string) (v : value) :
  dict_get d k <> None -> dict_keys (dict_set d k v) = dict_keys d.
Proof.
  induction d as [| [k' v'] d IH]; cbn [dict_set dict_get].
  - intros H. contradiction H. reflexivity.
  - destruct (String.eqb k' k) eqn:E; intros H; [reflexivity |].
    unfold dict_keys in *. cbn [map fst]. rewrite (IH H). reflexivity.
Qed.

Lemma convert_time_claim_keys (p : dict) (c : string) :
  dict_keys (jwt.convert_time_claim p c) = dict_keys p.
Proof.
  unfold jwt.convert_time_claim.
  destruct (dict_get p c) as [[s | z | d] |] eqn:E; try reflexivity.
  apply dict_keys_set. rewrite E. discriminate.
Qed.

Lemma convert_time_claim_get (p : dict) (c k : string) :
  dict_get (jwt.convert_time_claim p c) k
  = if String.eqb k c then converted (dict_get p k) else dict_get p k.
Proof.
  unfold jwt.convert_time_claim.
  destruct (String.eqb_spec k c) as [-> | N].
  - destruct (dict_get p c) as [[s | z | d] |] eqn:E; cbn [converted];
      rewrite ?E; try reflexivity.
    apply dict_get_set_same.
  - destruct (dict_get p c) as [[s | z | d] |]; try reflexivity.
    apply dict_get_set_other, N.
Qed.

Lemma converted_twice (o : option value) : converted (converted o) = converted o.
Proof. destruct o as [[s | z | d] |]; reflexivity. Qed.

Lemma issued_claims_keys_same (p : dict) :
  dict_keys (issued_claims p) = dict_keys p.
Proof.
  unfold issued_claims. cbn [fold_left].
  rewrite !convert_time_claim_keys. reflexivity.
Qed.

Lemma issued_claims_get (p : dict) (k : string) :
  dict_get (issued_claims p) k
  = if is_time_claim k then converted (dict_get p k) else dict_get p k.
Proof.
  unfold issued_claims, is_time_claim. cbn [fold_left].
  rewrite !convert_time_claim_get.
  destruct (String.eqb_spec k "exp") as [-> | N1]; [reflexivity |].
  destruct (String.eqb_spec k "iat") as [-> | N2]; [reflexivity |].
  destruct (String.eqb_spec k "nbf") as [-> | N3]; reflexivity.
Qed.

Lemma convert_time_claim_done (p : dict) (c : string) :
  (forall d, dict_get p c <> Some (Datetime d)) ->
  jwt.convert_time_claim p c = p.
Proof.
  intros H. unfold jwt.convert_time_claim.
  destruct (dict_get p c) as [[s | z | d] |] eqn:E; try reflexivity.
  exfalso. apply (H d). reflexivity.
Qed.

Lemma converted_not_datetime (o : option value) (d : datetime.t) :
  converted o <> Some (Datetime d).
Proof. destruct o as [[s | z | d'] |]; discriminate. Qed.

Lemma issued_claims_twice (p : dict) :
  issued_claims (issued_claims p) = issued_claims p.
Proof.
  assert (H : forall c, is_time_claim c = true ->
                        forall d, dict_get (issued_claims p) c <> Some (Datetime d)).
  { intros c Hc d. rewrite issued_claims_get, Hc. apply converted_not_datetime. }
  unfold issued_claims at 1. cbn [fold_left].
  rewrite (convert_time_claim_done _ "exp") by (apply H; reflexivity).
  rewrite (convert_time_claim_done _ "iat") by (apply H; reflexivity).
  rewrite (convert_time_claim_done _ "nbf") by (apply H; reflexivity).
  reflexivity.
Qed.

Lemma encode_result (p : dict) (key : string) :
  jwt.encode p key
  = if bad_issuer p || holds_datetime (issued_claims p) then inl TypeError
    else inr (string_of_list_byte (token_bytes (claims_json p) key)).
Proof.
  unfold jwt.encode. fold (issued_claims p).
  assert (B : bad_issuer p = bad_issuer (issued_claims p)).
  { unfold bad_issuer. rewrite issued_claims_get. reflexivity. }
  rewrite B. unfold bad_issuer.
  rewrite dumps_result.
  destruct (dict_get (issued_claims p) "iss") as [[s | z | d] |];
    cbn [orb]; try reflexivity;
    (destruct (holds_datetime (issued_claims p)); [reflexivity |];
     apply jws_encode_spec).
Qed.

(* ================================================================== *)
(** * base64url, SHA-256 and HMAC: lengths *)
(* ================================================================== *)

Lemma base64url_encode_length (bs : list byte) :
  List.length (jwt.base64url_encode bs) = ((4 * List.length bs + 2) / 3)%nat.
Proof.
  induction bs as [| a | a b | a b c l IH] using list_ind3.
  - reflexivity.
  - rewrite base64url_encode_one. reflexivity.
  - rewrite base64url_encode_two. reflexivity.
  - rewrite base64url_encode_three. cbv zeta. cbn [List.length]. rewrite IH.
    replace (4 * S (S (S (List.length l))) + 2)%nat
      with (4 * List.length l + 2 + 4 * 3)%nat by lia.
    rewrite Nat.div_add by lia. lia.
Qed.

Lemma base64url_encode_inj (a b : list byte) :
  jwt.base64url_encode a = jwt.base64url_encode b -> a = b.
Proof.
  intros H. apply Some_inj.
  rewrite <- (base64url_decode_encode a), <- (base64url_decode_encode b), H.
  reflexivity.
Qed.

Lemma be_bytes_length (n : nat) (z : Z) : List.length (sha256.be_bytes n z) = n.
Proof.
  unfold sha256.be_bytes. rewrite length_map, length_rev, length_seq.
  reflexivity.
Qed.

Lemma sha256_digest_length (msg : list byte) :
  List.length (sha256.digest msg) = 32%nat.
Proof.
  unfold sha256.digest. cbv zeta. cbn [flat_map].
  rewrite !length_app, !be_bytes_length. reflexivity.
Qed.

Lemma hmac_digest_length (key msg : list byte) :
  List.length (hmac.digest key msg) = 32%nat.
Proof. unfold hmac.digest. apply sha256_digest_length. Qed.

Lemma key_block_long (key : list byte) :
  (hmac.blocksize < List.length key)%nat ->
  hmac.key_block key = hmac.key_block (sha256.digest key).
Proof.
  intros H. unfold hmac.key_block.
  apply Nat.ltb_lt in H. rewrite H.
  replace (hmac.blocksize <? List.length (sha256.digest key))%nat with false.
  - reflexivity.
  - rewrite sha256_digest_length. reflexivity.
Qed.

Lemma pad_length (msg : list byte) :
  (List.length (sha256.pad msg) mod 64 = 0)%nat
  /\ (List.length msg + 9 <= List.length (sha256.pad msg)
      <= List.length msg + 72)%nat.
Proof.
  unfold sha256.pad. cbv zeta.
  rewrite !length_app, repeat_length, be_bytes_length. cbn [List.length].
  set (len := Z.of_nat (List.length msg)).
  assert (R : 0 <= (55 - len) mod 64 < 64) by (apply Z.mod_pos_bound; lia).
  assert (E : (len + 1 + (55 - len) mod 64 + 8) mod 64 = 0).
  { Z.div_mod_to_equations. lia. }
  split.
  - apply Nat2Z.inj. rewrite Nat2Z.inj_mod.
    rewrite !Nat2Z.inj_add, Z2Nat.id by lia. fold len.
    replace (len + (Z.of_nat 1 + ((55 - len) mod 64 + Z.of_nat 8)))
      with (len + 1 + (55 - len) mod 64 + 8) by lia.
    exact E.
  - lia.
Qed.

(* ================================================================== *)
(** * The run and its report *)
(* ================================================================== *)

(** What a complete run prints. *)
Lemma main_output (w : World) (g : Globals) :
  returned (script w) = Some g ->
  exists out : string,
    returned (main w) = Some (g, out)
    /\ out = text_of (lines out)
    /\ lines out
       = usage_lines g (fst (idempotency_draws w)) (snd (idempotency_draws w))
         ++ decoded_block w.
Proof.
  intros H. eexists. rewrite (main_run w g H). cbn [returned].
  split; [reflexivity |].
  rewrite (lines_text_of _ (report_lines_printable w g H)).
  split; [reflexivity |].
  destruct (script_returns w g H) as (R1 & _ & R3 & _ & _ & P & _).
  unfold report_lines. rewrite P, (payload_block w R1 R3). reflexivity.
Qed.

Lemma decoded_block_printable (w : World) (g : Globals) :
  returned (script w) = Some g ->
  forallb (all_chars printable)
    (usage_lines g (fst (idempotency_draws w)) (snd (idempotency_draws w))
     ++ decoded_block w) = true.
Proof.
  intros H. pose proof (report_lines_printable w g H) as P.
  destruct (script_returns w g H) as (R1 & _ & R3 & _ & _ & E & _).
  unfold report_lines in P. rewrite E, (payload_block w R1 R3) in P. exact P.
Qed.

Lemma idempotency_draws_range (w : World) :
  0 <= uuid.int (fst (idempotency_draws w)) < 2 ^ 128
  /\ 0 <= uuid.int (snd (idempotency_draws w)) < 2 ^ 128.
Proof.
  rewrite idempotency_draws_keys. cbn [fst snd]. unfold key_at.
  split; apply UUID_of_bytes_range; rewrite length_map, length_seq; reflexivity.
Qed.

Lemma NoDup_map_on {A B : Type} (f : A -> B) (l : list A) :
  (forall x y, In x l -> In y l -> f x = f y -> x = y) ->
  NoDup l -> NoDup (map f l).
Proof.
  intros I N. induction N as [| a l Ha N IH]; [apply NoDup_nil |].
  cbn [map]. apply NoDup_cons.
  - intros M. apply in_map_iff in M. destruct M as (x & E & Hx).
    apply Ha. rewrite <- (I x a); [exact Hx | right; exact Hx | left; reflexivity
                                   | exact E].
  - apply IH. intros x y Hx Hy. apply I; right; assumption.
Qed.

Lemma holds_datetime_Forall (d : dict) :
  holds_datetime d = false ->
  Forall (fun kv => forall t, snd kv <> Datetime t) d.
Proof.
  induction d as [| [k v] d IH]; intros H; [apply Forall_nil |].
  unfold holds_datetime in H. cbn [existsb snd] in H.
  apply orb_false_iff in H. destruct H as [Hv Hd].
  apply Forall_cons; [| apply IH, Hd].
  cbn [snd]. intros t E. rewrite E in Hv. discriminate Hv.
Qed.

Lemma encode_issued_claims (p : dict) (key : string) :
  jwt.encode p key = jwt.encode (issued_claims p) key.
Proof.
  unfold jwt.encode. fold (issued_claims p).
  fold (issued_claims (issued_claims p)).
  rewrite issued_claims_twice. reflexivity.
Qed.

(* ================================================================== *)
(** * Further properties of the script and of the routines it runs *)
(* ================================================================== *)

(** ** What the script prints *)

(** X1: in every run the [print] statements are reached exactly when the
    statements before them raise nothing, and they raise nothing
    themselves; a complete run has then asked [os.urandom] for 64 bytes
    (four UUIDs) and read the clock twice. *)
Theorem report_follows_every_returning_run (w : World) :
  (forall e : exn, raised (script w) = Some e -> main w = Raises e)
  /\ (forall g : Globals,
        returned (script w) = Some g ->
        exists (out : string) (w' : World),
          main w = Returns (g, out) w'
          /\ urandom_used w' = (urandom_used w + 64)%nat
          /\ clock_reads w' = (clock_reads w + 2)%nat
          /\ urandom_source w' = urandom_source w
          /\ system_clock w' = system_clock w).
Proof.
  split.
  - intros e H. apply main_raises, H.
  - intros g H. eexists. eexists. rewrite (main_run w g H).
    split; [reflexivity |].
    unfold world_at_end, world_after.
    cbn [urandom_used clock_reads urandom_source system_clock].
    repeat split; lia.
Qed.

(** X2: a complete run writes exactly 32 lines to standard output, each
    ended by a line feed and made of printable ASCII characters only. *)
Theorem output_is_32_printable_lines (w : World) (g : Globals) :
  returned (script w) = Some g ->
  exists out : string,
    returned (main w) = Some (g, out)
    /\ out = text_of (lines out)
    /\ List.length (lines out) = 32%nat
    /\ forallb (all_chars printable) (lines out) = true.
Proof.
  intros H. destruct (main_output w g H) as (out & M & T & L).
  exists out. split; [exact M |]. split; [exact T |]. rewrite L.
  split; [reflexivity | apply (decoded_block_printable w g H)].
Qed.

Lemma output_is_32_printable_lines_witness :
  exists out : string,
    returned (main ticking_world) = Some (ticking_globals, out)
    /\ out = text_of (lines out)
    /\ List.length (lines out) = 32%nat
    /\ forallb (all_chars printable) (lines out) = true.
Proof.
  apply (output_is_32_printable_lines ticking_world ticking_globals).
  vm_compute. reflexivity.
Defined.

(** X3: the [Token:] line and the two [Authorization: Bearer] headers show
    one and the same token; it verifies under [SECRET_KEY], and its
    [tenant_id], [org_id] and [sub] claims are the identifiers shown on
    the [Tenant ID:] and [User ID:] lines. *)
Theorem printed_token_carries_printed_identifiers (w : World) (g : Globals) :
  returned (script w) = Some g ->
  exists (out tenant user tok : string) (claims : dict),
    returned (main w) = Some (g, out)
    /\ nth_error (lines out) 1 = Some ("Tenant ID: " ++ tenant)%string
    /\ nth_error (lines out) 2 = Some ("User ID: " ++ user)%string
    /\ nth_error (lines out) 3 = Some ("Token: " ++ tok)%string
    /\ nth_error (lines out) 8
       = Some ("  -H " ++ quoted ("Authorization: Bearer " ++ tok) ++ " \")%string
    /\ nth_error (lines out) 15
       = Some ("  -H " ++ quoted ("Authorization: Bearer " ++ tok) ++ " \")%string
    /\ jwt.verify_signature tok SECRET_KEY = true
    /\ jwt.decode_payload tok = Some claims
    /\ claim_str claims "tenant_id" = Some tenant
    /\ claim_str claims "org_id" = Some tenant
    /\ claim_str claims "sub" = Some user.
Proof.
  intros H. destruct (main_output w g H) as (out & M & _ & L).
  destruct (script_returns w g H) as (_ & _ & _ & T & U & _ & _).
  destruct (script_globals w g H) as (js & _ & _ & K).
  exists out, (TENANT_ID g), (USER_ID g), (token g),
    (issued_claims (payload_in w)).
  rewrite L.
  split; [exact M |]. repeat (split; [reflexivity |]).
  split; [rewrite K; apply verify_signature_token; reflexivity |].
  split; [apply (script_decode_payload w g H) |].
  rewrite T, U. repeat split; reflexivity.
Qed.

Lemma printed_token_carries_printed_identifiers_witness :
  exists (out tenant user tok : string) (claims : dict),
    returned (main ticking_world) = Some (ticking_globals, out)
    /\ nth_error (lines out) 1 = Some ("Tenant ID: " ++ tenant)%string
    /\ nth_error (lines out) 2 = Some ("User ID: " ++ user)%string
    /\ nth_error (lines out) 3 = Some ("Token: " ++ tok)%string
    /\ nth_error (lines out) 8
       = Some ("  -H " ++ quoted ("Authorization: Bearer " ++ tok) ++ " \")%string
    /\ nth_error (lines out) 15
       = Some ("  -H " ++ quoted ("Authorization: Bearer " ++ tok) ++ " \")%string
    /\ jwt.verify_signature tok SECRET_KEY = true
    /\ jwt.decode_payload tok = Some claims
    /\ claim_str claims "tenant_id" = Some tenant
    /\ claim_str claims "org_id" = Some tenant
    /\ claim_str claims "sub" = Some user.
Proof.
  apply (printed_token_carries_printed_identifiers ticking_world
           ticking_globals).
  vm_compute. reflexivity.
Defined.

(** X4: the two [Idempotency-Key] headers show the third and the fourth UUID
    drawn in the run; whenever the four draws of a run are pairwise
    distinct, so are the four texts (tenant, user and the two keys). *)
Theorem idempotency_keys_are_further_draws (w : World) (g : Globals) :
  returned (script w) = Some g ->
  exists (out : string) (k1 k2 : uuid.UUID),
    returned (main w) = Some (g, out)
    /\ (k1, k2) = idempotency_draws w
    /\ nth_error (lines out) 10
       = Some ("  -H " ++ quoted ("Idempotency-Key: " ++ uuid.str k1) ++ " \")%string
    /\ nth_error (lines out) 17
       = Some ("  -H " ++ quoted ("Idempotency-Key: " ++ uuid.str k2) ++ " \")%string
    /\ (NoDup [tenant_draw w; user_draw w; k1; k2] ->
        NoDup [TENANT_ID g; USER_ID g; uuid.str k1; uuid.str k2]).
Proof.
  intros H. destruct (main_output w g H) as (out & M & _ & L).
  destruct (script_returns w g H) as (_ & _ & _ & T & U & _ & _).
  exists out, (fst (idempotency_draws w)), (snd (idempotency_draws w)).
  rewrite L. split; [exact M |].
  split; [destruct (idempotency_draws w); reflexivity |].
  split; [reflexivity |]. split; [reflexivity |].
  rewrite T, U. intros N.
  apply (NoDup_map_on uuid.str) in N; [exact N |].
  destruct (uuid4_draws_range w) as (Rt & Ru).
  destruct (idempotency_draws_range w) as (R1 & R2).
  assert (R : forall x, In x [tenant_draw w; user_draw w;
                              fst (idempotency_draws w);
                              snd (idempotency_draws w)] ->
                        0 <= uuid.int x < 2 ^ 128).
  { intros x [<- | [<- | [<- | [<- | []]]]]; assumption. }
  intros x y Hx Hy. apply uuid_str_inj; apply R; assumption.
Qed.

Lemma idempotency_keys_are_further_draws_witness :
  exists (out : string) (k1 k2 : uuid.UUID),
    returned (main ticking_world) = Some (ticking_globals, out)
    /\ (k1, k2) = idempotency_draws ticking_world
    /\ nth_error (lines out) 10
       = Some ("  -H " ++ quoted ("Idempotency-Key: " ++ uuid.str k1) ++ " \")%string
    /\ nth_error (lines out) 17
       = Some ("  -H " ++ quoted ("Idempotency-Key: " ++ uuid.str k2) ++ " \")%string
    /\ (NoDup [tenant_draw ticking_world; user_draw ticking_world; k1; k2] ->
        NoDup [TENANT_ID ticking_globals; USER_ID ticking_globals;
               uuid.str k1; uuid.str k2]).
Proof.
  apply (idempotency_keys_are_further_draws ticking_world ticking_globals).
  vm_compute. reflexivity.
Defined.

(** X5: what is printed under [=== Decoded Token ===] is the [payload]
    mapping written with [default=str], not the claims of the token:
    [iat] and [exp] appear as the texts of the two datetimes, while the
    token holds them as whole seconds. *)
Theorem decoded_block_shows_the_mapping (w : World) (g : Globals) :
  returned (script w) = Some g ->
  exists (out : string) (claims : dict),
    returned (main w) = Some (g, out)
    /\ skipn 20 (lines out)
       = ["=== Decoded Token ===";
          "{";
          str_item_line "sub" (USER_ID g) false;
          str_item_line "tenant_id" (TENANT_ID g) false;
          str_item_line "org_id" (TENANT_ID g) false;
          str_item_line "email" "test@example.com" false;
          str_item_line "name" "Test User" false;
          str_item_line "iat" (datetime.str (first_reading w)) false;
          str_item_line "exp"
            (datetime.str (second_reading w + datetime.timedelta 24)) false;
          str_item_line "iss" "https://dev-placeholder.local" false;
          str_item_line "aud" "subscription-engine" true;
          "}"]%string
    /\ jwt.decode_payload (token g) = Some claims
    /\ dict_get claims "iat" = Some (Int (first_reading w / 1000000))
    /\ dict_get claims "exp"
       = Some (Int ((second_reading w + datetime.timedelta 24) / 1000000)).
Proof.
  intros H. destruct (main_output w g H) as (out & M & _ & L).
  destruct (script_returns w g H) as (_ & _ & _ & T & U & _ & _).
  exists out, (issued_claims (payload_in w)).
  rewrite L, T, U. split; [exact M |]. split; [reflexivity |].
  split; [apply (script_decode_payload w g H) |].
  split; reflexivity.
Qed.

Lemma decoded_block_shows_the_mapping_witness :
  exists (out : string) (claims : dict),
    returned (main ticking_world) = Some (ticking_globals, out)
    /\ skipn 20 (lines out)
       = ["=== Decoded Token ===";
          "{";
          str_item_line "sub" (USER_ID ticking_globals) false;
          str_item_line "tenant_id" (TENANT_ID ticking_globals) false;
          str_item_line "org_id" (TENANT_ID ticking_globals) false;
          str_item_line "email" "test@example.com" false;
          str_item_line "name" "Test User" false;
          str_item_line "iat" (datetime.str (first_reading ticking_world)) false;
          str_item_line "exp"
            (datetime.str (second_reading ticking_world
                           + datetime.timedelta 24)) false;
          str_item_line "iss" "https://dev-placeholder.local" false;
          str_item_line "aud" "subscription-engine" true;
          "}"]%string
    /\ jwt.decode_payload (token ticking_globals) = Some claims
    /\ dict_get claims "iat" = Some (Int (first_reading ticking_world / 1000000))
    /\ dict_get claims "exp"
       = Some (Int ((second_reading ticking_world + datetime.timedelta 24)
                    / 1000000)).
Proof.
  apply (decoded_block_shows_the_mapping ticking_world ticking_globals).
  vm_compute. reflexivity.
Defined.

Example ticking_report :
  option_map
    (fun r => (nth_error (lines (snd r)) 10, nth_error (lines (snd r)) 17,
               skipn 27 (lines (snd r))))
    (returned (main ticking_world))
  = Some (Some ("  -H "
                ++ quoted "Idempotency-Key: e3eaf1f8-ff06-4d14-9b22-2930373e454c"
                ++ " \"),
          Some ("  -H "
                ++ quoted "Idempotency-Key: 535a6168-6f76-4d84-8b92-99a0a7aeb5bc"
                ++ " \"),
          [str_item_line "iat" "2023-11-14 22:13:20.999999" false;
           str_item_line "exp" "2023-11-15 22:13:21" false;
           str_item_line "iss" "https://dev-placeholder.local" false;
           str_item_line "aud" "subscription-engine" true;
           "}"])%string.
Proof. vm_compute. reflexivity. Qed.

(** ** The identifiers *)

(** X6: every identifier the script generates ([TENANT_ID], [USER_ID] and
    the two idempotency keys) has the canonical form of a version 4
    UUID: 36 characters, lower-case hexadecimal digits in groups of 8, 4,
    4, 4 and 12 separated by hyphens, the third group starting with [4]
    and the fourth with [8], [9], [a] or [b]. *)
Theorem generated_identifiers_are_version_4_uuids (w : World) :
  is_uuid4_text (uuid.str (tenant_draw w)) = true
  /\ is_uuid4_text (uuid.str (user_draw w)) = true
  /\ is_uuid4_text (uuid.str (fst (idempotency_draws w))) = true
  /\ is_uuid4_text (uuid.str (snd (idempotency_draws w))) = true
  /\ (forall g : Globals,
        returned (script w) = Some g ->
        is_uuid4_text (TENANT_ID g) = true /\ is_uuid4_text (USER_ID g) = true).
Proof.
  destruct (run_identifiers w) as (It & Iu & I1 & I2).
  repeat (split; [assumption |]).
  intros g H.
  destruct (script_returns w g H) as (_ & _ & _ & T & U & _ & _).
  rewrite T, U. split; assumption.
Qed.

(** X7: [uuid.uuid4()] writes the version over bits 76 to 79 and the variant
    over bits 62 and 63 of the integer read from the random bytes, and
    keeps every other bit. *)
Theorem uuid4_overwrites_six_bits (bs : list byte) (i : nat) :
  let random := int_from_bytes bs in
  let u := uuid.int (uuid.UUID_of_bytes bs 4) in
  Z.testbit u (Z.of_nat i)
  = if (76 <=? i)%nat && (i <=? 79)%nat then (i =? 78)%nat
    else if (i =? 63)%nat then true
    else if (i =? 62)%nat then false
    else Z.testbit random (Z.of_nat i).
Proof.
  cbv zeta. rewrite UUID_of_bytes_bit by lia. unfold uuid4_bit.
  replace (76 <=? Z.of_nat i) with (76 <=? i)%nat
    by (destruct (Nat.leb_spec 76 i), (Z.leb_spec 76 (Z.of_nat i)); lia).
  replace (Z.of_nat i <=? 79) with (i <=? 79)%nat
    by (destruct (Nat.leb_spec i 79), (Z.leb_spec (Z.of_nat i) 79); lia).
  replace (Z.of_nat i =? 78) with (i =? 78)%nat
    by (destruct (Nat.eqb_spec i 78), (Z.eqb_spec (Z.of_nat i) 78); lia).
  replace (Z.of_nat i =? 63) with (i =? 63)%nat
    by (destruct (Nat.eqb_spec i 63), (Z.eqb_spec (Z.of_nat i) 63); lia).
  replace (Z.of_nat i =? 62) with (i =? 62)%nat
    by (destruct (Nat.eqb_spec i 62), (Z.eqb_spec (Z.of_nat i) 62); lia).
  reflexivity.
Qed.

(** ** The token *)

(** X8: two runs issue the same token exactly when they drew the same
    tenant and user UUIDs and their clock readings fall in the same
    whole seconds: the microseconds of the readings do not reach the
    token. *)
Theorem same_token_iff_same_draws_and_seconds
        (w1 w2 : World) (g1 g2 : Globals) :
  returned (script w1) = Some g1 ->
  returned (script w2) = Some g2 ->
  token g1 = token g2
  <-> (tenant_draw w1 = tenant_draw w2
       /\ user_draw w1 = user_draw w2
       /\ first_reading w1 / 1000000 = first_reading w2 / 1000000
       /\ second_reading w1 / 1000000 = second_reading w2 / 1000000).
Proof.
  intros H1 H2.
  destruct (script_returns w1 g1 H1) as (_ & _ & _ & _ & _ & P1 & K1).
  destruct (script_returns w2 g2 H2) as (_ & _ & _ & _ & _ & P2 & K2).
  assert (A : forall w, datetime.timegm (second_reading w + datetime.timedelta 24)
                        = second_reading w / 1000000 + 86400).
  { intros w. unfold datetime.timegm.
    change (datetime.timedelta 24) with (86400 * 1000000).
    apply Z.div_add. lia. }
  split.
  - intros E.
    pose proof (script_decode_payload w1 g1 H1) as D1.
    pose proof (script_decode_payload w2 g2 H2) as D2.
    rewrite E, D2 in D1. apply Some_inj in D1.
    rewrite !issued_claims_in, !A in D1.
    destruct (uuid4_draws_range w1) as (Rt1 & Ru1).
    destruct (uuid4_draws_range w2) as (Rt2 & Ru2).
    assert (Eu : uuid.str (user_draw w2) = uuid.str (user_draw w1))
      by congruence.
    assert (Et : uuid.str (tenant_draw w2) = uuid.str (tenant_draw w1))
      by congruence.
    assert (Ei : datetime.timegm (first_reading w2)
                 = datetime.timegm (first_reading w1)) by congruence.
    assert (Ee : second_reading w2 / 1000000 + 86400
                 = second_reading w1 / 1000000 + 86400) by congruence.
    unfold datetime.timegm in Ei.
    apply uuid_str_inj in Eu, Et; try assumption.
    repeat split; [congruence | congruence | lia | lia].
  - intros (Et & Eu & Ei & Ee).
    apply (@inr_inj exn). rewrite <- K1, <- K2, P1, P2.
    rewrite (encode_issued_claims (payload_in w1)),
      (encode_issued_claims (payload_in w2)).
    rewrite !issued_claims_in, !A. unfold datetime.timegm.
    rewrite Et, Eu, Ei, Ee. reflexivity.
Qed.

Lemma same_token_iff_same_draws_and_seconds_witness :
  token ticking_globals = token coarse_globals
  <-> (tenant_draw ticking_world = tenant_draw coarse_world
       /\ user_draw ticking_world = user_draw coarse_world
       /\ first_reading ticking_world / 1000000
          = first_reading coarse_world / 1000000
       /\ second_reading ticking_world / 1000000
          = second_reading coarse_world / 1000000).
Proof.
  apply (same_token_iff_same_draws_and_seconds ticking_world coarse_world
           ticking_globals coarse_globals).
  - vm_compute. reflexivity.
  - vm_compute. reflexivity.
Defined.

(** X9: the conversion at the start of [jwt.encode] keeps the names and the
    order of the claims, turns a datetime found under [exp], [iat] or
    [nbf] into whole seconds, leaves every other value as it is, and
    changes nothing when applied once more. *)
Theorem time_claims_conversion (p : dict) (k : string) :
  dict_keys (issued_claims p) = dict_keys p
  /\ dict_get (issued_claims p) k
     = (if is_time_claim k then converted (dict_get p k) else dict_get p k)
  /\ issued_claims (issued_claims p) = issued_claims p.
Proof.
  split; [apply issued_claims_keys_same |].
  split; [apply issued_claims_get | apply issued_claims_twice].
Qed.

(** X10: for a mapping of values in range, [jwt.encode] with the key of
    the script raises [TypeError] when [iss] is present and is not a
    [str], or when a datetime is left after the conversion of the time
    claims; in every other case it returns a token in compact
    serialization. *)
Theorem jwt_encode_fails_only_with_TypeError (p : dict) :
  values_in_range p = true ->
  (bad_issuer p || holds_datetime (issued_claims p) = true ->
   jwt.encode p SECRET_KEY = inl TypeError)
  /\ (bad_issuer p || holds_datetime (issued_claims p) = false ->
      exists (tok : string) (h pl s : list byte),
        jwt.encode p SECRET_KEY = inr tok
        /\ compact_serialization tok h pl s).
Proof.
  intros _.
  rewrite encode_result. split; intros H; rewrite H; [reflexivity |].
  apply orb_false_iff in H. destruct H as [_ H].
  eexists. eexists. eexists. eexists. split; [reflexivity |].
  apply (token_bytes_compact (issued_claims p)).
  rewrite dumps_result, H. reflexivity.
Qed.

Lemma jwt_encode_fails_only_with_TypeError_witness :
  (bad_issuer example_claims || holds_datetime (issued_claims example_claims)
   = true ->
   jwt.encode example_claims SECRET_KEY = inl TypeError)
  /\ (bad_issuer example_claims || holds_datetime (issued_claims example_claims)
      = false ->
      exists (tok : string) (h pl s : list byte),
        jwt.encode example_claims SECRET_KEY = inr tok
        /\ compact_serialization tok h pl s).
Proof.
  apply (jwt_encode_fails_only_with_TypeError example_claims).
  vm_compute. reflexivity.
Defined.

(** X11: for any mapping with distinct names that [jwt.encode] accepts, the
    payload of the token decodes to the mapping with its time claims
    converted, the signature verifies under the same key, and encoding
    the decoded claims yields the same token. *)
Theorem jwt_round_trip (p : dict) (key tok : string) :
  NoDup (dict_keys p) ->
  jwt.encode p key = inr tok ->
  jwt.decode_payload tok = Some (issued_claims p)
  /\ jwt.verify_signature tok key = true
  /\ jwt.encode (issued_claims p) key = inr tok.
Proof.
  intros N E. pose proof E as E2. rewrite encode_result in E2.
  destruct (bad_issuer p || holds_datetime (issued_claims p)) eqn:B;
    [discriminate E2 |].
  apply inr_inj in E2. subst tok.
  apply orb_false_iff in B. destruct B as [_ H].
  assert (D : json.dumps (issued_claims p) "," ":" false
              = inr (claims_json p)).
  { rewrite dumps_result, H. reflexivity. }
  split.
  - unfold jwt.decode_payload. rewrite load_token. cbn [jwt.loaded_payload].
    apply loads_bytes_dumps; [| exact D].
    rewrite issued_claims_keys_same. exact N.
  - split; [apply verify_signature_token; reflexivity |].
    rewrite <- E. unfold jwt.encode. fold (issued_claims p).
    fold (issued_claims (issued_claims p)).
    rewrite issued_claims_twice. reflexivity.
Qed.

Lemma jwt_round_trip_witness :
  jwt.decode_payload example_token = Some (issued_claims example_claims)
  /\ jwt.verify_signature example_token "your-256-bit-secret" = true
  /\ jwt.encode (issued_claims example_claims) "your-256-bit-secret"
     = inr example_token.
Proof.
  apply (jwt_round_trip example_claims "your-256-bit-secret" example_token).
  - unfold example_claims, dict_keys. cbn [map fst].
    repeat (apply NoDup_cons;
            [cbn [In]; intros H;
             repeat (destruct H as [H | H]; [discriminate H |]); exact H |]).
    apply NoDup_nil.
  - vm_compute. reflexivity.
Defined.

(** X12: every token that [jwt.encode] returns has three segments: the fixed
    header [eyJhbGciOiJIUzI1NiIsInR5cCI6IkpXVCJ9], the base64url text
    of the JSON claims, and 43 characters that decode to the HMAC-SHA256
    tag of the first two segments and the period between them. *)
Theorem token_segments (p : dict) (key tok : string) :
  jwt.encode p key = inr tok ->
  exists pl s : list byte,
    jwt.bytes_split "." (str_encode tok) = [header_b64; pl; s]
    /\ string_of_list_byte header_b64 = "eyJhbGciOiJIUzI1NiIsInR5cCI6IkpXVCJ9"
    /\ jwt.base64url_decode pl = Some (str_encode (claims_json p))
    /\ jwt.base64url_decode s
       = Some (hmac.digest (str_encode key) (header_b64 ++ "."%byte :: pl))
    /\ List.length s = 43%nat.
Proof.
  intros E. rewrite encode_result in E.
  destruct (bad_issuer p || holds_datetime (issued_claims p)) eqn:B;
    [discriminate E |].
  apply inr_inj in E. subst tok.
  apply orb_false_iff in B. destruct B as [_ H].
  assert (D : json.dumps (issued_claims p) "," ":" false
              = inr (claims_json p)).
  { rewrite dumps_result, H. reflexivity. }
  destruct (token_bytes_compact _ _ key D) as (_ & S & _).
  eexists. eexists. split; [exact S |].
  split; [exact header_b64_text |].
  split; [apply base64url_decode_encode |].
  split; [apply base64url_decode_encode |].
  rewrite base64url_encode_length. unfold signature_of, jwt.sign.
  rewrite hmac_digest_length. reflexivity.
Qed.

Lemma token_segments_witness :
  exists pl s : list byte,
    jwt.bytes_split "." (str_encode example_token) = [header_b64; pl; s]
    /\ string_of_list_byte header_b64 = "eyJhbGciOiJIUzI1NiIsInR5cCI6IkpXVCJ9"
    /\ jwt.base64url_decode pl = Some (str_encode (claims_json example_claims))
    /\ jwt.base64url_decode s
       = Some (hmac.digest (str_encode "your-256-bit-secret")
                 (header_b64 ++ "."%byte :: pl))
    /\ List.length s = 43%nat.
Proof.
  apply (token_segments example_claims "your-256-bit-secret" example_token).
  vm_compute. reflexivity.
Defined.

(** ** The dates *)

(** X13: [str] of a datetime within [datetime.min] and [datetime.max] has the
    form [YYYY-MM-DD HH:MM:SS.ffffff], 26 characters, and the form
    [YYYY-MM-DD HH:MM:SS], 19 characters, when the microsecond is 0. *)
Theorem datetime_str_shape (d : Z) :
  datetime.representable d = true ->
  follows (if d mod 1000000 =? 0 then "dddd-dd-dd dd:dd:dd"
           else "dddd-dd-dd dd:dd:dd.dddddd")
          (datetime.str d) = true
  /\ String.length (datetime.str d)
     = (if d mod 1000000 =? 0 then 19%nat else 26%nat).
Proof.
  intros R. split; [apply str_shape, R | apply str_facts, R].
Qed.

Lemma datetime_str_shape_witness :
  follows (if 1700086401000000 mod 1000000 =? 0 then "dddd-dd-dd dd:dd:dd"
           else "dddd-dd-dd dd:dd:dd.dddddd")
          (datetime.str 1700086401000000) = true
  /\ String.length (datetime.str 1700086401000000)
     = (if 1700086401000000 mod 1000000 =? 0 then 19%nat else 26%nat).
Proof.
  apply (datetime_str_shape 1700086401000000). vm_compute. reflexivity.
Defined.

Example datetime_str_examples :
  map datetime.str
      [0; 1700000000999999; 1700086401000000; 951868799999999;
       datetime.min; datetime.max]
  = ["1970-01-01 00:00:00"; "2023-11-14 22:13:20.999999";
     "2023-11-15 22:13:21"; "2000-02-29 23:59:59.999999";
     "0001-01-01 00:00:00"; "9999-12-31 23:59:59.999999"]%string.
Proof. vm_compute. reflexivity. Qed.

(** X14: the fields computed for an instant form a valid date and time of
    day, denote that instant, and have a year from 1 to 9999 when the
    instant is within [datetime.min] and [datetime.max]. *)
Theorem fields_denote_the_instant (d : Z) :
  let o := datetime.fields d in
  datetime.timeline o = d
  /\ 1 <= datetime.month o <= 12
  /\ 1 <= datetime.day o <= datetime.days_in_month (datetime.year o)
                                                   (datetime.month o)
  /\ 0 <= datetime.hour o < 24
  /\ 0 <= datetime.minute o < 60
  /\ 0 <= datetime.second o < 60
  /\ 0 <= datetime.microsecond o < 1000000
  /\ (datetime.representable d = true -> 1 <= datetime.year o <= 9999).
Proof.
  cbv zeta. split; [apply timeline_fields |].
  pose proof (fields_valid d) as V. cbv zeta in V.
  destruct V as (V1 & V2 & V3 & V4 & V5 & V6).
  repeat (split; [assumption |]). apply fields_year.
Qed.

(** X15: the date that [_ord2ymd] gives for an ordinal is a date of the
    calendar (month from 1 to 12, day within the month) and [_ymd2ord]
    gives the ordinal back. *)
Theorem ordinal_round_trip (n : Z) :
  let '(y, m, d) := datetime.ord2ymd n in
  datetime.ymd2ord y m d = n
  /\ 1 <= m <= 12
  /\ 1 <= d <= datetime.days_in_month y m.
Proof. apply ord2ymd_date. Qed.

(** X16: [datetime + timedelta] computed on the fields, through the ordinal
    of the date and back, is the addition of microseconds on the
    timeline, and it raises [OverflowError] exactly when the sum leaves
    the range of [datetime]. *)
Theorem addition_on_fields_is_addition_on_the_timeline
        (d td : Z) (w : World) :
  datetime.add_obj (datetime.fields d) td w
  = if datetime.representable (d + td)
    then Returns (datetime.fields (d + td)) w
    else Raises OverflowError.
Proof.
  rewrite add_obj_fields. unfold Py.bind, datetime.add.
  destruct (datetime.representable (d + td)); reflexivity.
Qed.

(** X17: [calendar.timegm] of the fields of an instant is the number of whole
    seconds from the epoch to it, rounded down. *)
Theorem timegm_of_fields_is_whole_seconds (d : Z) :
  datetime.timegm_obj (datetime.fields d) = d / 1000000.
Proof. rewrite timegm_obj_fields. reflexivity. Qed.

(** ** json *)

(** X18: for a mapping of values in range, [json.dumps] without
    [default] raises [TypeError] exactly when the mapping holds a
    datetime, whatever the separators and the order of the keys. *)
Theorem dumps_fails_exactly_on_datetimes
        (d : dict) (isep ksep : string) (sort_keys : bool) :
  values_in_range d = true ->
  (holds_datetime d = true ->
   json.dumps d isep ksep sort_keys = inl TypeError)
  /\ (holds_datetime d = false ->
      exists js : string, json.dumps d isep ksep sort_keys = inr js).
Proof.
  intros _. rewrite !dumps_result.
  split; intros H; rewrite H; [| eexists]; reflexivity.
Qed.

Lemma dumps_fails_exactly_on_datetimes_witness :
  (holds_datetime example_claims = true ->
   json.dumps example_claims ", " ": " true = inl TypeError)
  /\ (holds_datetime example_claims = false ->
      exists js : string, json.dumps example_claims ", " ": " true = inr js).
Proof.
  apply (dumps_fails_exactly_on_datetimes example_claims ", " ": " true).
  vm_compute. reflexivity.
Defined.

(** X19: for a mapping of values in range, the text that [json.dumps]
    returns holds printable ASCII characters only, whatever the code
    points, up to U+00FF, of its strings; when it returns none, it has
    raised [TypeError]. *)
Theorem dumps_writes_printable_ascii (d : dict) (sort_keys : bool) :
  values_in_range d = true ->
  match json.dumps d "," ":" sort_keys with
  | inr js => all_chars printable js = true
  | inl e => e = TypeError
  end.
Proof.
  intros _.
  rewrite dumps_result. destruct (holds_datetime d); [reflexivity |].
  destruct d as [| kv d]; [reflexivity |].
  cbn [all_chars]. rewrite all_chars_app.
  rewrite iterencode_dict_items_printable by reflexivity. reflexivity.
Qed.

Lemma dumps_writes_printable_ascii_witness :
  match json.dumps escaped_items "," ":" false with
  | inr js => all_chars printable js = true
  | inl e => e = TypeError
  end.
Proof.
  apply (dumps_writes_printable_ascii escaped_items false).
  vm_compute. reflexivity.
Defined.

Example dumps_escapes :
  json.dumps [(String "233" "t" ++ String "233" "", Str (String "010" "a"));
              ("n", Int (-42))]%string "," ":" false
  = inr ("{" ++ quoted "\u00e9t\u00e9" ++ ":" ++ quoted "\na" ++ ","
         ++ quoted "n" ++ ":-42}")%string.
Proof. vm_compute. reflexivity. Qed.

(** X20: a mapping with distinct names, of values in range and without
    datetimes, is written by [json.dumps] and read back unchanged by
    [json.loads], from the text and from its UTF-8 bytes. *)
Theorem json_round_trip (d : dict) :
  NoDup (dict_keys d) ->
  values_in_range d = true ->
  holds_datetime d = false ->
  exists js : string,
    json.dumps d "," ":" false = inr js
    /\ json.loads js = Some d
    /\ json.loads_bytes (str_encode js) = Some d.
Proof.
  intros N _ H.
  destruct (dumps_total d (holds_datetime_Forall d H)) as (js & D).
  exists js. split; [exact D |].
  split; [apply (loads_dumps d js N D) | apply (loads_bytes_dumps d js N D)].
Qed.

Lemma json_round_trip_witness :
  exists js : string,
    json.dumps escaped_items "," ":" false = inr js
    /\ json.loads js = Some escaped_items
    /\ json.loads_bytes (str_encode js) = Some escaped_items.
Proof.
  apply (json_round_trip escaped_items).
  - unfold escaped_items, dict_keys. cbn [map fst].
    repeat (apply NoDup_cons;
            [cbn [In]; intros H;
             repeat (destruct H as [H | H]; [discriminate H |]); exact H |]).
    apply NoDup_nil.
  - vm_compute. reflexivity.
  - vm_compute. reflexivity.
Defined.

(** ** base64url, HMAC and SHA-256 *)

(** X21: [base64url_encode] turns [n] bytes into the [4 n / 3] characters,
    rounded up, of the URL-safe alphabet, without padding. *)
Theorem base64url_encode_length_and_alphabet (bs : list byte) :
  List.length (jwt.base64url_encode bs) = ((4 * List.length bs + 2) / 3)%nat
  /\ forallb is_base64url_char (jwt.base64url_encode bs) = true
  /\ forallb (fun c => negb (base64.is_pad c)) (jwt.base64url_encode bs) = true.
Proof.
  split; [apply base64url_encode_length |].
  split; [apply base64url_encode_chars |].
  unfold jwt.base64url_encode. apply forallb_forall. intros c Hc.
  apply filter_In in Hc. apply Hc.
Qed.

(** X22: [base64url_decode] gives back what [base64url_encode] was given, so
    different byte strings have different encodings. *)
Theorem base64url_encode_is_injective (a b : list byte) :
  jwt.base64url_decode (jwt.base64url_encode a) = Some a
  /\ (jwt.base64url_encode a = jwt.base64url_encode b <-> a = b).
Proof.
  split; [apply base64url_decode_encode |].
  split; [apply base64url_encode_inj | intros E; rewrite E; reflexivity].
Qed.

(** X23: a key longer than the 64-byte block signs as its own SHA-256 digest
    does, and the tag always has 32 bytes. *)
Theorem hmac_hashes_long_keys (key msg : list byte) :
  (hmac.blocksize < List.length key)%nat ->
  hmac.digest key msg = hmac.digest (sha256.digest key) msg
  /\ List.length (hmac.digest key msg) = 32%nat.
Proof.
  intros H. split; [| apply hmac_digest_length].
  apply digest_of_key_block, key_block_long, H.
Qed.

Lemma hmac_hashes_long_keys_witness :
  hmac.digest (repeat "a"%byte 65) [] 
  = hmac.digest (sha256.digest (repeat "a"%byte 65)) []
  /\ List.length (hmac.digest (repeat "a"%byte 65) []) = 32%nat.
Proof.
  apply (hmac_hashes_long_keys (repeat "a"%byte 65) []).
  vm_compute. lia.
Defined.

(** X24: the padded message starts with the message, is 9 to 72 bytes
    longer and fills whole 64-byte blocks; the digest has 32 bytes. *)
Theorem sha256_padding_fills_blocks (msg : list byte) :
  (List.length (sha256.pad msg) mod 64 = 0)%nat
  /\ (List.length msg + 9 <= List.length (sha256.pad msg)
      <= List.length msg + 72)%nat
  /\ firstn (List.length msg) (sha256.pad msg) = msg
  /\ List.length (sha256.digest msg) = 32%nat.
Proof.
  destruct (pad_length msg) as (M & B).
  split; [exact M |]. split; [exact B |].
  split; [| apply sha256_digest_length].
  unfold sha256.pad. cbv zeta.
  rewrite firstn_app, Nat.sub_diag, firstn_all. cbn [firstn].
  apply app_nil_r.
Qed.
